(** * M-Pesa NestJS integration: payment reconciliation core

    A shallow embedding of [MpesaUtils] (phone normalisation, callback
    metadata parsing, transaction-date parsing, bounded retry) and of
    [MpesaService] (circuit breaker, STK push initiation, callback
    reconciliation), followed by the properties of that code.

    Conventions of the embedding.
    - A JavaScript string is a [string]: one [ascii] per UTF-16 code unit
      below 256.
    - A [Date] is its time value: [Some ms], a [Z] count of milliseconds
      since the epoch, or [None] for an Invalid Date.
    - [throw] / [try ... catch] are explicit: a computation returns a
      [Completion], either [Return v] or [Throw e].
    - Logging has no effect on any result and is left out, except where a
      logged expression can itself throw.
    - The wall clock, the random source, the gateway and the operation
      handed to the retry loop are inputs of the functions that use them.
      One reading [now] of the clock stands for every [Date.now()] and
      [new Date()] of one invocation.
    - The persistence client is the ledger it guards: a call fails only
      where the ledger says so (a duplicate key, a missing record).
      Connection faults are not part of the model. *)

From Stdlib Require Import ZArith QArith Qabs Lqa String Ascii List Bool Lia.
From Stdlib Require Import DecimalString.
From stdpp Require Import base option list gmap strings.

Local Open Scope string_scope.
Local Open Scope Z_scope.

(** ** Exceptions and completions *)

Inductive HttpStatus : Set :=
  | BAD_REQUEST
  | NOT_FOUND
  | INTERNAL_SERVER_ERROR
  | SERVICE_UNAVAILABLE.

(** The exception classes the code meets.  [NotFoundException] is the
    NestJS subclass of [HttpException] carrying status 404; a
    [PrismaError] is a known-request error of the persistence client
    with its [code]. *)
Inductive Exception : Set :=
  | Error (message : string)
  | RangeError (message : string)
  | HttpException (message : string) (status : HttpStatus)
  | NotFoundException (message : string)
  | PrismaError (code : string).

(** [error instanceof HttpException] *)
Definition instanceofHttpException (e : Exception) : bool :=
  match e with
  | HttpException _ _ | NotFoundException _ => true
  | Error _ | RangeError _ | PrismaError _ => false
  end.

Inductive Completion (A : Type) : Type :=
  | Return (value : A)
  | Throw (error : Exception).

Arguments Return {A} value.
Arguments Throw {A} error.

Definition bindC {A B : Type} (c : Completion A) (k : A -> Completion B)
  : Completion B :=
  match c with
  | Return a => k a
  | Throw e => Throw e
  end.

(** [try { c } catch (error) { handler error }] *)
Definition tryCatch {A : Type} (c : Completion A)
  (handler : Exception -> Completion A) : Completion A :=
  match c with
  | Return a => Return a
  | Throw e => handler e
  end.

Declare Scope completion_scope.
Delimit Scope completion_scope with completion.
Notation "x <- c ;; k" := (bindC c (fun x => k))
  (at level 100, c at next level, right associativity) : completion_scope.

(** ** JavaScript built-ins used by the code *)

Module Js.

Definition code (c : ascii) : Z := Z.of_nat (nat_of_ascii c).

(** [\d] *)
Definition isDigit (c : ascii) : bool := (48 <=? code c) && (code c <=? 57).

(** White space and line terminators of [String.prototype.trim] among
    the code units below 256: TAB, LF, VT, FF, CR, SP and NBSP. *)
Definition isWhiteSpace (c : ascii) : bool :=
  ((9 <=? code c) && (code c <=? 13)) || (code c =? 32) || (code c =? 160).

(** [s.replace(/\D/g, '')] *)
Fixpoint replaceNonDigits (s : string) : string :=
  match s with
  | EmptyString => EmptyString
  | String c r =>
      if isDigit c then String c (replaceNonDigits r) else replaceNonDigits r
  end.

Fixpoint allDigits (s : string) : bool :=
  match s with
  | EmptyString => true
  | String c r => isDigit c && allDigits r
  end.

(** [s.startsWith(p)] *)
Definition startsWith (s p : string) : bool := String.prefix p s.

(** [s.substring(i)] *)
Definition substringFrom (i : nat) (s : string) : string :=
  String.substring i (String.length s - i) s.

(** [s.slice(i, j)] for [0 <= i <= j] *)
Definition slice (i j : nat) (s : string) : string :=
  String.substring i (j - i) s.

Fixpoint trimStart (s : string) : string :=
  match s with
  | EmptyString => EmptyString
  | String c r => if isWhiteSpace c then trimStart r else s
  end.

(** Drops trailing white space: a white-space unit is kept only when
    something that is kept follows it. *)
Fixpoint trimEnd (s : string) : string :=
  match s with
  | EmptyString => EmptyString
  | String c r =>
      match trimEnd r with
      | EmptyString => if isWhiteSpace c then EmptyString else String c EmptyString
      | r' => String c r'
      end
  end.

(** [s.trim()] *)
Definition trim (s : string) : string := trimEnd (trimStart s).

Definition len (s : string) : Z := Z.of_nat (String.length s).

(** The double-quote character, for messages that quote their input. *)
Definition dquote : string := String (ascii_of_nat 34) EmptyString.

(** *** Numbers

    A Number is NaN, an infinity or a finite binary64 value; the finite
    values are held exactly, as reduced rationals.  The sign of zero is
    not tracked: nothing in the code observes it. *)

Inductive Number : Set :=
  | NaN
  | Infinity (negative : bool)
  | Finite (q : Q).

Definition ofZ (z : Z) : Number := Finite (inject_Z z).

Definition isNaN (x : Number) : bool :=
  match x with NaN => true | _ => false end.

(** [n / d] rounded to the nearest integer, ties to even ([0 < d]). *)
Definition roundHalfEven (n d : Z) : Z :=
  let q := n / d in
  let r := n mod d in
  if 2 * r <? d then q
  else if d <? 2 * r then q + 1
  else if Z.even q then q else q + 1.

(** [floor (log2 (a / d))] for positive [a] and [d]. *)
Definition floorLog2 (a d : Z) : Z :=
  let k := Z.log2 a - Z.log2 d in
  let below := if 0 <=? k then a <? d * 2 ^ k else a * 2 ^ (- k) <? d in
  if below then k - 1 else k.

(** IEEE 754 binary64 rounding of an exact rational, round to nearest,
    ties to even: 53 significant bits, least exponent -1074, overflow
    to an infinity from 2^1024 on. *)
Definition roundToDouble (q : Q) : Number :=
  let n := Qnum q in
  let d := Zpos (Qden q) in
  if n =? 0 then Finite 0%Q
  else
    let a := Z.abs n in
    let e := Z.max (floorLog2 a d - 52) (-1074) in
    let m := if 0 <=? e then roundHalfEven a (d * 2 ^ e)
             else roundHalfEven (a * 2 ^ (- e)) d in
    if (971 <? e) || ((e =? 971) && (2 ^ 53 <=? m)) then Infinity (n <? 0)
    else
      let mag := if 0 <=? e then inject_Z (m * 2 ^ e)
                 else Qmake m (Z.to_pos (2 ^ (- e))) in
      Finite (Qred (if n <? 0 then Qopp mag else mag)).

(** [x * y] *)
Definition mul (x y : Number) : Number :=
  match x, y with
  | NaN, _ | _, NaN => NaN
  | Finite p, Finite q => roundToDouble (p * q)
  | Infinity s, Infinity t => Infinity (xorb s t)
  | Infinity s, Finite q | Finite q, Infinity s =>
      match Qcompare q 0 with
      | Eq => NaN
      | Lt => Infinity (negb s)
      | Gt => Infinity s
      end
  end.

(** [x < y]; false as soon as an operand is NaN. *)
Definition ltb (x y : Number) : bool :=
  match x, y with
  | NaN, _ | _, NaN => false
  | Finite p, Finite q => match Qcompare p q with Lt => true | _ => false end
  | Infinity s, Infinity t => s && negb t
  | Infinity s, Finite _ => s
  | Finite _, Infinity t => negb t
  end.

(** [x > y] *)
Definition gtb (x y : Number) : bool := ltb y x.

(** *** Numerals *)

Definition digitValue (c : ascii) : Z := code c - 48.

(** Value of the hexadecimal digit [c], if it is one. *)
Definition hexDigitValue (c : ascii) : option Z :=
  if isDigit c then Some (code c - 48)
  else if (97 <=? code c) && (code c <=? 102) then Some (code c - 87)
  else if (65 <=? code c) && (code c <=? 70) then Some (code c - 55)
  else None.

Definition digitIn (radix : Z) (c : ascii) : option Z :=
  match hexDigitValue c with
  | Some v => if v <? radix then Some v else None
  | None => None
  end.

(** Reads the longest prefix of [s] made of digits of [radix]: the
    number of digits read, the value accumulated from [acc], and the
    rest of the string. *)
Fixpoint readDigits (radix : Z) (s : string) (count acc : Z)
  : Z * Z * string :=
  match s with
  | EmptyString => (count, acc, s)
  | String c r =>
      match digitIn radix c with
      | Some v => readDigits radix r (count + 1) (acc * radix + v)
      | None => (count, acc, s)
      end
  end.

(** Value of a string of decimal digits. *)
Definition decimalValue (s : string) : Z :=
  snd (fst (readDigits 10 s 0 0)).

Definition isAscii (n : nat) (c : ascii) : bool := code c =? Z.of_nat n.

(** An optional sign: [-1] or [1], and the rest of the string. *)
Definition readSign (s : string) : Z * string :=
  match s with
  | String c r =>
      if isAscii 45 c then (-1, r)
      else if isAscii 43 c then (1, r)
      else (1, s)
  | EmptyString => (1, s)
  end.

(** [0x] / [0X] and the like: [s] minus such a prefix. *)
Definition stripRadixPrefix (lower upper : nat) (s : string) : option string :=
  match s with
  | String z (String x r) =>
      if isAscii 48 z && (isAscii lower x || isAscii upper x) then Some r
      else None
  | _ => None
  end.

(** [parseInt(s)] with no radix argument: leading white space, an
    optional sign, an optional [0x] prefix, then the longest run of
    digits; NaN when that run is empty. *)
Definition parseInt (s : string) : Number :=
  let '(sign, s1) := readSign (trimStart s) in
  let '(radix, s2) :=
    match stripRadixPrefix 120 88 s1 with
    | Some r => (16, r)
    | None => (10, s1)
    end in
  let '(count, value, _) := readDigits radix s2 0 0 in
  if count =? 0 then NaN else roundToDouble (inject_Z (sign * value)).

(** The value [mantissa * 10 ^ exponent] as an exact rational. *)
Definition scale10 (mantissa exponent : Z) : Q :=
  if 0 <=? exponent then inject_Z (mantissa * 10 ^ exponent)
  else Qmake mantissa (Z.to_pos (10 ^ (- exponent))).

(** StrUnsignedDecimalLiteral without [Infinity]: digits, an optional
    fraction, an optional exponent part, nothing after. *)
Definition unsignedDecimal (s : string) : option Q :=
  let '(ni, vi, r1) := readDigits 10 s 0 0 in
  let '(nf, v, r2) :=
    match r1 with
    | String c r => if isAscii 46 c then readDigits 10 r 0 vi else (0, vi, r1)
    | EmptyString => (0, vi, r1)
    end in
  if ni + nf =? 0 then None
  else
    match r2 with
    | EmptyString => Some (scale10 v (- nf))
    | String c r3 =>
        if isAscii 101 c || isAscii 69 c then
          let '(esign, r4) := readSign r3 in
          let '(ne, ve, r5) := readDigits 10 r4 0 0 in
          if (ne =? 0) || negb (String.eqb r5 EmptyString) then None
          else Some (scale10 v (esign * ve - nf))
        else None
    end.

(** A non-decimal integer literal: at least one digit, nothing after. *)
Definition nonDecimalInteger (radix : Z) (s : string) : option Q :=
  let '(count, value, rest) := readDigits radix s 0 0 in
  if (count =? 0) || negb (String.eqb rest EmptyString) then None
  else Some (inject_Z value).

(** [Number(s)] on a string (StringToNumber): white space around a
    numeric literal is skipped, the empty literal is 0, anything that
    is not a numeric literal is NaN. *)
Definition StringToNumber (s : string) : Number :=
  let t := trim s in
  if String.eqb t EmptyString then Finite 0%Q
  else
    match stripRadixPrefix 120 88 t, stripRadixPrefix 111 79 t,
          stripRadixPrefix 98 66 t with
    | Some r, _, _ =>
        match nonDecimalInteger 16 r with Some q => roundToDouble q | None => NaN end
    | None, Some r, _ =>
        match nonDecimalInteger 8 r with Some q => roundToDouble q | None => NaN end
    | None, None, Some r =>
        match nonDecimalInteger 2 r with Some q => roundToDouble q | None => NaN end
    | None, None, None =>
        let '(sign, u) := readSign t in
        if String.eqb u "Infinity" then Infinity (sign <? 0)
        else
          match unsignedDecimal u with
          | Some q => roundToDouble (inject_Z sign * q)
          | None => NaN
          end
    end.

(** [String(z)] for an integer of magnitude below 10^21. *)
Definition stringOfZ (z : Z) : string := NilZero.string_of_int (Z.to_int z).

(** *** Loosely typed values

    A webhook item value is a string or a number ([string | number]).
    The numbers the gateway sends there are integers of magnitude below
    10^21, the range where [String] writes plain decimal digits. *)

Inductive Value : Set :=
  | VString (s : string)
  | VNumber (z : Z).

(** [Number(value)] *)
Definition toNumber (v : Value) : Number :=
  match v with
  | VString s => StringToNumber s
  | VNumber z => roundToDouble (inject_Z z)
  end.

(** [String(value)] *)
Definition toString (v : Value) : string :=
  match v with
  | VString s => s
  | VNumber z => stringOfZ z
  end.

(** Truthiness of a string: every string but the empty one. *)
Definition truthy (s : string) : bool := negb (String.eqb s EmptyString).

(** *** Dates

    A [Date] is its time value: [Some ms], or [None] for the NaN time
    value of an Invalid Date. *)

Definition Date : Set := option Z.

Definition msPerDay : Z := 86400000.

Definition DayFromYear (y : Z) : Z :=
  365 * (y - 1970) + (y - 1969) / 4 - (y - 1901) / 100 + (y - 1601) / 400.

Definition InLeapYear (y : Z) : bool :=
  (y mod 4 =? 0) && (negb (y mod 100 =? 0) || (y mod 400 =? 0)).

(** Days of the year before month [m], counted from 0. *)
Definition daysBeforeMonth (leap : bool) (m : Z) : Z :=
  let l := if leap then 1 else 0 in
  if m =? 0 then 0
  else if m =? 1 then 31
  else if m =? 2 then 59 + l
  else if m =? 3 then 90 + l
  else if m =? 4 then 120 + l
  else if m =? 5 then 151 + l
  else if m =? 6 then 181 + l
  else if m =? 7 then 212 + l
  else if m =? 8 then 243 + l
  else if m =? 9 then 273 + l
  else if m =? 10 then 304 + l
  else 334 + l.

(** MakeDay for a month in [0..11]; a day past the end of the month
    runs over into the next one. *)
Definition MakeDay (year month date : Z) : Z :=
  DayFromYear year + daysBeforeMonth (InLeapYear year) month + date - 1.

Definition MakeTime (hour min sec ms : Z) : Z :=
  hour * 3600000 + min * 60000 + sec * 1000 + ms.

Definition MakeDate (day time : Z) : Z := day * msPerDay + time.

(** TimeClip: NaN outside +-8.64e15 ms, else truncation to an integer. *)
Definition TimeClip (t : Number) : Date :=
  match t with
  | Finite q =>
      if Qle_bool (Qabs q) (inject_Z 8640000000000000)
      then Some (Z.quot (Qnum q) (Zpos (Qden q))) else None
  | NaN | Infinity _ => None
  end.

(** [new Date(value)] on a Number *)
Definition newDate (value : Number) : Date := TimeClip value.

(** [date.getTime()] *)
Definition getTime (d : Date) : Number :=
  match d with
  | Some t => ofZ t
  | None => NaN
  end.

(** [date.toISOString()]: throws a RangeError on an Invalid Date.  The
    code only logs the string, so the string itself is not built. *)
Definition toISOString (d : Date) : Completion unit :=
  match d with
  | Some _ => Return tt
  | None => Throw (RangeError "Invalid time value")
  end.

(** A field of exactly [n] decimal digits. *)
Definition fixedNumber (n : nat) (s : string) : option Z :=
  if (String.length s =? n)%nat && allDigits s then Some (decimalValue s)
  else None.

Definition between (lo x hi : Z) : bool := (lo <=? x) && (x <=? hi).

(** [new Date(s)] on a string, for the one shape of the date-time
    string format the code builds: [YYYY-MM-DDTHH:mm:ss+HH:mm] (or
    [-HH:mm]).  Month 1..12, day 1..31 (V8 does not check the day
    against the month: MakeDay carries the excess over), hour 0..24
    with 24:00:00 only, minute and second 0..59.  Any other string is
    an Invalid Date here; the implementation-defined fallback parsers
    of the engines are not modelled. *)
Definition Date_parse (s : string) : Date :=
  if negb (len s =? 25) then None
  else if negb (String.eqb (slice 4 5 s) "-" && String.eqb (slice 7 8 s) "-"
                && String.eqb (slice 10 11 s) "T"
                && String.eqb (slice 13 14 s) ":"
                && String.eqb (slice 16 17 s) ":"
                && String.eqb (slice 22 23 s) ":") then None
  else
    year ← fixedNumber 4 (slice 0 4 s);
    month ← fixedNumber 2 (slice 5 7 s);
    day ← fixedNumber 2 (slice 8 10 s);
    hour ← fixedNumber 2 (slice 11 13 s);
    minute ← fixedNumber 2 (slice 14 16 s);
    second ← fixedNumber 2 (slice 17 19 s);
    sign ← (if String.eqb (slice 19 20 s) "+" then Some 1
            else if String.eqb (slice 19 20 s) "-" then Some (-1)
            else None);
    tzHour ← fixedNumber 2 (slice 20 22 s);
    tzMinute ← fixedNumber 2 (slice 23 25 s);
    if between 1 month 12 && between 1 day 31 && between 0 hour 24
       && between 0 minute 59 && between 0 second 59
       && ((hour <? 24) || ((minute =? 0) && (second =? 0)))
       && between 0 tzHour 23 && between 0 tzMinute 59
    then
      TimeClip (ofZ (MakeDate (MakeDay year (month - 1) day)
                              (MakeTime hour minute second 0)
                     - sign * (tzHour * 60 + tzMinute) * 60000))
    else None.

(** *** Further built-ins *)

(** [s.slice(-n)]: the last [n] units of [s], all of [s] when it has
    fewer. *)
Definition sliceLast (n : nat) (s : string) : string :=
  String.substring (String.length s - n) n s.

(** [s.split(',')[0]]: what stands before the first comma. *)
Fixpoint beforeComma (s : string) : string :=
  match s with
  | EmptyString => EmptyString
  | String c r => if isAscii 44 c then EmptyString else String c (beforeComma r)
  end.

(** [list.includes(x)] on strings *)
Definition includes (l : list string) (x : string) : bool :=
  existsb (String.eqb x) l.

(** [list.join(sep)] *)
Definition join (sep : string) (l : list string) : string :=
  String.concat sep l.

(** [parseInt(s, 10)]: as [parseInt], without the [0x] prefix. *)
Definition parseInt10 (s : string) : Number :=
  let '(sign, s1) := readSign (trimStart s) in
  let '(count, value, _) := readDigits 10 s1 0 0 in
  if count =? 0 then NaN else roundToDouble (inject_Z (sign * value)).

(** [Math.max(x, y)] and [Math.min(x, y)]: NaN as soon as an argument
    is. *)
Definition Math_max (x y : Number) : Number :=
  match x, y with
  | NaN, _ | _, NaN => NaN
  | _, _ => if ltb x y then y else x
  end.

Definition Math_min (x y : Number) : Number :=
  match x, y with
  | NaN, _ | _, NaN => NaN
  | _, _ => if ltb y x then y else x
  end.

(** The UTF-8 bytes of a code unit below 256: one byte below 128, two
    from there on. *)
Definition utf8Unit (c : ascii) : list Z :=
  if code c <? 128 then [code c]
  else [192 + code c / 64; 128 + code c mod 64].

(** [Buffer.from(s)]: the UTF-8 bytes of [s]. *)
Fixpoint utf8Encode (s : string) : list Z :=
  match s with
  | EmptyString => []
  | String c r => utf8Unit c ++ utf8Encode r
  end.

(** The character of the base64 alphabet for a 6-bit value. *)
Definition base64Char (v : Z) : ascii :=
  ascii_of_nat
    (Z.to_nat
       (if v <? 26 then 65 + v
        else if v <? 52 then 71 + v
        else if v <? 62 then v - 4
        else if v =? 62 then 43
        else 47)).

(** [buffer.toString('base64')]: three bytes give four characters, a
    last group of one or two bytes is padded with [=]. *)
Fixpoint base64Encode (bytes : list Z) : string :=
  match bytes with
  | [] => EmptyString
  | [a] =>
      String (base64Char (a / 4))
        (String (base64Char (a mod 4 * 16)) "==")
  | [a; b] =>
      String (base64Char (a / 4))
        (String (base64Char (a mod 4 * 16 + b / 16))
           (String (base64Char (b mod 16 * 4)) "="))
  | a :: b :: c :: rest =>
      String (base64Char (a / 4))
        (String (base64Char (a mod 4 * 16 + b / 16))
           (String (base64Char (b mod 16 * 4 + c / 64))
              (String (base64Char (c mod 64)) (base64Encode rest))))
  end.

End Js.

(** ** MpesaUtils *)

Module MpesaUtils.

Import Js.
Local Open Scope completion_scope.

(** [formatPhoneNumber]: the [catch] block logs and rethrows the same
    error, so the function throws exactly the [Error] of its last
    statement. *)
Definition formatPhoneNumber (phoneNumber : string) : Completion string :=
  tryCatch
    (let cleaned := replaceNonDigits phoneNumber in
     if startsWith cleaned "0" && (len cleaned =? 10) then
       Return ("254" ++ substringFrom 1 cleaned)
     else if startsWith cleaned "254" && (len cleaned =? 12) then
       Return cleaned
     else if startsWith cleaned "+254" then
       Return (substringFrom 1 cleaned)
     else if len cleaned =? 9 then
       Return ("254" ++ cleaned)
     else
       Throw (Error ("Invalid phone number format: " ++ phoneNumber)))
    (fun error => Throw error).

(** [parseTransactionDate]: every [throw] of the body, and the
    RangeError that [toISOString] raises inside the two success log
    lines, lands in the [catch] block, which returns the current time. *)
Definition parseTransactionDate (now : Z) (dateStr : string)
  : Completion Date :=
  tryCatch
    (if String.eqb dateStr EmptyString then
       Throw (Error ("Invalid date string provided: " ++ dateStr))
     else
       let cleanDateStr := trim dateStr in
       if len cleanDateStr =? 14 then
         let year := slice 0 4 cleanDateStr in
         let month := slice 4 6 cleanDateStr in
         let day := slice 6 8 cleanDateStr in
         let hour := slice 8 10 cleanDateStr in
         let minute := slice 10 12 cleanDateStr in
         let second := slice 12 14 cleanDateStr in
         let yearNum := parseInt year in
         let monthNum := parseInt month in
         let dayNum := parseInt day in
         let hourNum := parseInt hour in
         let minuteNum := parseInt minute in
         let secondNum := parseInt second in
         if ltb yearNum (ofZ 2020) || gtb yearNum (ofZ 2030)
            || ltb monthNum (ofZ 1) || gtb monthNum (ofZ 12)
            || ltb dayNum (ofZ 1) || gtb dayNum (ofZ 31)
            || ltb hourNum (ofZ 0) || gtb hourNum (ofZ 23)
            || ltb minuteNum (ofZ 0) || gtb minuteNum (ofZ 59)
            || ltb secondNum (ofZ 0) || gtb secondNum (ofZ 59)
         then
           Throw (Error ("Invalid date components: " ++ year ++ "-" ++ month
                         ++ "-" ++ day ++ " " ++ hour ++ ":" ++ minute
                         ++ ":" ++ second))
         else
           let isoString := year ++ "-" ++ month ++ "-" ++ day ++ "T" ++ hour
                            ++ ":" ++ minute ++ ":" ++ second ++ "+03:00" in
           let parsedDate := Date_parse isoString in
           if isNaN (getTime parsedDate) then
             Throw (Error ("Failed to create valid date from: " ++ isoString))
           else
             _ <- toISOString parsedDate ;;
             Return parsedDate
       else if len cleanDateStr =? 10 then
         let timestamp := StringToNumber cleanDateStr in
         if isNaN timestamp then
           Throw (Error ("Invalid timestamp: " ++ cleanDateStr))
         else
           let date := newDate (mul timestamp (ofZ 1000)) in
           _ <- toISOString date ;;
           Return date
       else
         Throw (Error ("Unexpected date format: " ++ dquote ++ cleanDateStr
                       ++ dquote ++ " (length: "
                       ++ stringOfZ (len cleanDateStr) ++ ")")))
    (fun error => Return (Some now)).

(** The parsed metadata: the five well-known fields and an open
    mapping for every other name. *)
Record CallbackMetadata : Type := {
  Amount : option Number;
  MpesaReceiptNumber : option string;
  Balance : option Number;
  TransactionDate : option Date;
  PhoneNumber : option string;
  others : gmap string Value
}.

Definition emptyMetadata : CallbackMetadata :=
  {| Amount := None; MpesaReceiptNumber := None; Balance := None;
     TransactionDate := None; PhoneNumber := None; others := ∅ |}.

Record CallbackItem : Set := { Name : string; Value : Js.Value }.

(** The body of the [forEach] callback, inside its [try]: the metadata
    after the item.  Each case assigns its field and then only logs, so
    a throw from a log line would leave the assignment in place. *)
Definition parseItem (now : Z) (metadata : CallbackMetadata)
  (item : CallbackItem) : Completion CallbackMetadata :=
  if negb (truthy (Name item)) then Return metadata
  else
    let name := trim (Name item) in
    let value := Value item in
    if String.eqb name "Amount" then
      Return {| Amount := Some (toNumber value);
                MpesaReceiptNumber := MpesaReceiptNumber metadata;
                Balance := Balance metadata;
                TransactionDate := TransactionDate metadata;
                PhoneNumber := PhoneNumber metadata;
                others := others metadata |}
    else if String.eqb name "MpesaReceiptNumber" then
      Return {| Amount := Amount metadata;
                MpesaReceiptNumber := Some (trim (toString value));
                Balance := Balance metadata;
                TransactionDate := TransactionDate metadata;
                PhoneNumber := PhoneNumber metadata;
                others := others metadata |}
    else if String.eqb name "Balance" then
      Return {| Amount := Amount metadata;
                MpesaReceiptNumber := MpesaReceiptNumber metadata;
                Balance := Some (toNumber value);
                TransactionDate := TransactionDate metadata;
                PhoneNumber := PhoneNumber metadata;
                others := others metadata |}
    else if String.eqb name "TransactionDate" then
      let dateStr := trim (toString value) in
      date <- parseTransactionDate now dateStr ;;
      Return {| Amount := Amount metadata;
                MpesaReceiptNumber := MpesaReceiptNumber metadata;
                Balance := Balance metadata;
                TransactionDate := Some date;
                PhoneNumber := PhoneNumber metadata;
                others := others metadata |}
    else if String.eqb name "PhoneNumber" then
      Return {| Amount := Amount metadata;
                MpesaReceiptNumber := MpesaReceiptNumber metadata;
                Balance := Balance metadata;
                TransactionDate := TransactionDate metadata;
                PhoneNumber := Some (trim (toString value));
                others := others metadata |}
    else
      Return {| Amount := Amount metadata;
                MpesaReceiptNumber := MpesaReceiptNumber metadata;
                Balance := Balance metadata;
                TransactionDate := TransactionDate metadata;
                PhoneNumber := PhoneNumber metadata;
                others := <[name := value]> (others metadata) |}.

(** [parseCallbackMetadata]: an item whose processing throws is logged
    and skipped. *)
Definition parseCallbackMetadata (now : Z) (items : list CallbackItem)
  : CallbackMetadata :=
  fold_left
    (fun metadata item =>
       match parseItem now metadata item with
       | Return metadata' => metadata'
       | Throw _ => metadata
       end)
    items emptyMetadata.

(** *** retryOperation

    [operation n] is the outcome of the [n]-th call of the operation and
    [random n] the value [Math.random()] returns in attempt [n].  The
    loop is run on the number of attempts left; its trace lists the
    calls of the operation and the sleeps, in order.  Delays are exact
    rationals: binary64 rounding of the product is not applied. *)

Inductive RetryEvent : Set :=
  | Call (attempt : nat)
  | Sleep (ms : Q).

Definition backoffDelay (baseDelay : Q) (attempt : nat) (r : Q) : Q :=
  let jitter := ((1 # 2) + r * (1 # 2))%Q in
  (baseDelay * inject_Z (2 ^ (Z.of_nat attempt - 1)) * jitter)%Q.

Section Retry.

Context {T : Type}.
Variable operation : nat -> Completion T.
Variable random : nat -> Q.
Variable maxRetries : nat.
Variable baseDelay : Q.

Fixpoint retryLoop (remaining attempt : nat)
  : Completion T * list RetryEvent :=
  match remaining with
  | O =>
      (Throw (NotFoundException "Operation failed after maximum retries"),
       [])
  | S remaining' =>
      match operation attempt with
      | Return v => (Return v, [Call attempt])
      | Throw _ =>
          let sleeps :=
            if (attempt <? maxRetries)%nat
            then [Sleep (backoffDelay baseDelay attempt (random attempt))]
            else [] in
          let '(result, events) := retryLoop remaining' (S attempt) in
          (result, Call attempt :: sleeps ++ events)
      end
  end.

(** [for (let attempt = 1; attempt <= maxRetries; attempt++)] *)
Definition retryOperation : Completion T * list RetryEvent :=
  retryLoop maxRetries 1%nat.

End Retry.

(** What the getters of a [Date] return in the time zone of the host:
    [getMonth] counts from 0. *)
Record LocalFields : Set := {
  getFullYear : Z;
  getMonth : Z;
  getDate : Z;
  getHours : Z;
  getMinutes : Z;
  getSeconds : Z
}.

(** [getTimestamp], on the local fields of [new Date()]. *)
Definition getTimestamp (date : LocalFields) : string :=
  stringOfZ (getFullYear date)
  ++ sliceLast 2 ("0" ++ stringOfZ (getMonth date + 1))
  ++ sliceLast 2 ("0" ++ stringOfZ (getDate date))
  ++ sliceLast 2 ("0" ++ stringOfZ (getHours date))
  ++ sliceLast 2 ("0" ++ stringOfZ (getMinutes date))
  ++ sliceLast 2 ("0" ++ stringOfZ (getSeconds date)).

Definition generatePassword (businessShortCode passkey timestamp : string)
  : string :=
  let concatenated := businessShortCode ++ passkey ++ timestamp in
  base64Encode (utf8Encode concatenated).

End MpesaUtils.

(** ** MpesaService *)

Module MpesaService.

Import Js.

Inductive CircuitBreakerState : Set := CLOSED | OPEN | HALF_OPEN.

Record CircuitBreakerStatus : Set := {
  state : CircuitBreakerState;
  failures : nat;
  lastFailureTime : option Z;
  nextAttemptTime : option Z
}.

Inductive TransactionStatus : Set :=
  | PENDING | SUCCESS | FAILED | CANCELLED | TIMEOUT.

(** A row of [mpesa_transactions].  The surrogate [id] the database
    generates is left out; [amount] is carried as an integer. *)
Record MpesaTransaction : Set := {
  merchantRequestID : string;
  checkoutRequestID : string;
  responseCode : option string;
  responseDescription : option string;
  customerMessage : option string;
  amount : Z;
  phoneNumber : string;
  accountReference : string;
  transactionDesc : string;
  mpesaReceiptNumber : option string;
  transactionDate : option Date;
  resultCode : option Z;
  resultDesc : option string;
  status : TransactionStatus;
  createdAt : Z;
  updatedAt : Z
}.

(** An outbound request to the gateway. *)
Inductive GatewayCall : Set :=
  | GetAccessToken
  | PostStkPush (partyA : string) (amountDue : Z)
      (reference description : string).

(** What a method of the service can read and change: the breaker of
    the service instance, the ledger behind the persistence client
    (keyed by [checkoutRequestID]) and the requests sent to the gateway
    so far, oldest first. *)
Record World : Type := {
  circuitBreaker : CircuitBreakerStatus;
  ledger : gmap string MpesaTransaction;
  outbound : list GatewayCall
}.

Definition initialBreaker : CircuitBreakerStatus :=
  {| state := CLOSED; failures := 0; lastFailureTime := None;
     nextAttemptTime := None |}.

Definition maxFailures : nat := 5.
Definition timeout : Z := 30000.
Definition resetTimeout : Z := 60000.

(** *** Methods as state transformers that may throw *)

Definition M (A : Type) : Type := World -> Completion A * World.

Definition ret {A : Type} (a : A) : M A := fun w => (Return a, w).

Definition throw {A : Type} (e : Exception) : M A := fun w => (Throw e, w).

Definition lift {A : Type} (c : Completion A) : M A := fun w => (c, w).

Definition bind {A B : Type} (m : M A) (k : A -> M B) : M B :=
  fun w =>
    match m w with
    | (Return a, w') => k a w'
    | (Throw e, w') => (Throw e, w')
    end.

(** [try { m } catch (error) { handler error }]: the handler runs in
    the world the failed block left behind. *)
Definition try {A : Type} (m : M A) (handler : Exception -> M A) : M A :=
  fun w =>
    match m w with
    | (Return a, w') => (Return a, w')
    | (Throw e, w') => handler e w'
    end.

Definition getBreaker : M CircuitBreakerStatus :=
  fun w => (Return (circuitBreaker w), w).

Definition modifyBreaker (f : CircuitBreakerStatus -> CircuitBreakerStatus)
  : M unit :=
  fun w =>
    (Return tt,
     {| circuitBreaker := f (circuitBreaker w); ledger := ledger w;
        outbound := outbound w |}).

Definition send (call : GatewayCall) : M unit :=
  fun w =>
    (Return tt,
     {| circuitBreaker := circuitBreaker w; ledger := ledger w;
        outbound := outbound w ++ [call] |}).

Declare Scope service_scope.
Delimit Scope service_scope with service.
Notation "x <- c ;; k" := (bind c (fun x => k))
  (at level 100, c at next level, right associativity) : service_scope.
Local Open Scope service_scope.

(** *** Circuit breaker *)

Definition recordSuccess (cb : CircuitBreakerStatus) : CircuitBreakerStatus :=
  match state cb with
  | HALF_OPEN =>
      {| state := CLOSED; failures := 0;
         lastFailureTime := lastFailureTime cb;
         nextAttemptTime := nextAttemptTime cb |}
  | CLOSED | OPEN => cb
  end.

Definition recordFailure (now : Z) (cb : CircuitBreakerStatus)
  : CircuitBreakerStatus :=
  let failures' := S (failures cb) in
  if (maxFailures <=? failures')%nat then
    {| state := OPEN; failures := failures';
       lastFailureTime := Some now;
       nextAttemptTime := Some (now + resetTimeout) |}
  else
    {| state := state cb; failures := failures';
       lastFailureTime := Some now;
       nextAttemptTime := nextAttemptTime cb |}.

(** The guard that opens [initiateStkPush]. *)
Definition checkCircuitBreaker (now : Z) : M unit :=
  cb <- getBreaker ;;
  match state cb with
  | OPEN =>
      if match nextAttemptTime cb with
         | Some t => now <? t
         | None => false
         end
      then throw (HttpException "M-Pesa service temporarily unavailable"
                    SERVICE_UNAVAILABLE)
      else modifyBreaker (fun cb =>
             {| state := HALF_OPEN; failures := failures cb;
                lastFailureTime := lastFailureTime cb;
                nextAttemptTime := nextAttemptTime cb |})
  | CLOSED | HALF_OPEN => ret tt
  end.

(** *** The gateway

    What the gateway answers during one initiation: a transport fault
    (a thrown [Error]) or the body of the response. *)

Record AuthResponse : Set := { access_token : option string }.

Record StkPushResponse : Set := {
  MerchantRequestID : string;
  CheckoutRequestID : string;
  ResponseCode : string;
  ResponseDescription : string;
  CustomerMessage : string
}.

Record Gateway : Set := {
  authReply : Completion AuthResponse;
  stkPushReply : Completion StkPushResponse
}.

(** The request of [initiateStkPush]; its fields carry the prefix [dto_]
    to keep them apart from the columns of the ledger. *)
Record StkPushDto : Set := {
  dto_amount : Z;
  dto_phoneNumber : string;
  dto_accountReference : string;
  dto_transactionDesc : option string
}.

(** [a || b] on strings *)
Definition orElse (a b : string) : string := if truthy a then a else b.

(** [getAccessToken]: every failure, of the transport or of the missing
    token, is recorded on the breaker before the 503 is thrown. *)
Definition getAccessToken (now : Z) (gw : Gateway) : M string :=
  try
    (_ <- send GetAccessToken ;;
     response <- lift (authReply gw) ;;
     match access_token response with
     | Some token =>
         if truthy token then ret token
         else throw (Error "No access token received from M-Pesa API")
     | None => throw (Error "No access token received from M-Pesa API")
     end)
    (fun error =>
       _ <- modifyBreaker (recordFailure now) ;;
       throw (HttpException "Failed to authenticate with M-Pesa API"
                SERVICE_UNAVAILABLE)).

(** *** The ledger *)

Definition setLedger (l : gmap string MpesaTransaction) : M unit :=
  fun w =>
    (Return tt,
     {| circuitBreaker := circuitBreaker w; ledger := l;
        outbound := outbound w |}).

(** [prisma.mpesaTransaction.create]: both request ids are unique. *)
Definition create (data : MpesaTransaction) : M unit :=
  fun w =>
    if bool_decide (is_Some (ledger w !! checkoutRequestID data))
       || bool_decide (map_Exists
            (fun _ t => merchantRequestID t = merchantRequestID data)
            (ledger w))
    then (Throw (PrismaError "P2002"), w)
    else setLedger (<[checkoutRequestID data := data]> (ledger w)) w.

(** [prisma.mpesaTransaction.findUnique] by [checkoutRequestID] *)
Definition findUnique (id : string) : M (option MpesaTransaction) :=
  fun w => (Return (ledger w !! id), w).

Definition saveTransaction (transactionData : MpesaTransaction) : M unit :=
  try (create transactionData) (fun error => ret tt).

(** [initiateStkPush].  The timestamp and the password of the payload
    ([getTimestamp], [generatePassword]) and the fields taken from the
    configuration cannot throw and only travel to the gateway; the trace
    keeps the fields that come from the request.  Everything thrown
    inside the [try], the rejection by the guard included, reaches the
    handler, which records a failure on the breaker. *)
Definition initiateStkPush (now : Z) (gw : Gateway) (stkPushData : StkPushDto)
  : M StkPushResponse :=
  try
    (_ <- checkCircuitBreaker now ;;
     accessToken <- getAccessToken now gw ;;
     formattedPhone <-
       lift (MpesaUtils.formatPhoneNumber (dto_phoneNumber stkPushData)) ;;
     let reference := orElse (dto_accountReference stkPushData) "Payment" in
     let description :=
       orElse (default "" (dto_transactionDesc stkPushData))
              "Payment for services" in
     _ <- send (PostStkPush formattedPhone (dto_amount stkPushData)
                  reference description) ;;
     data <- lift (stkPushReply gw) ;;
     if String.eqb (ResponseCode data) "0" then
       _ <- modifyBreaker recordSuccess ;;
       _ <- saveTransaction
              {| merchantRequestID := MerchantRequestID data;
                 checkoutRequestID := CheckoutRequestID data;
                 responseCode := Some (ResponseCode data);
                 responseDescription := Some (ResponseDescription data);
                 customerMessage := Some (CustomerMessage data);
                 amount := dto_amount stkPushData;
                 phoneNumber := formattedPhone;
                 accountReference := reference;
                 transactionDesc := description;
                 mpesaReceiptNumber := None;
                 transactionDate := None;
                 resultCode := None;
                 resultDesc := None;
                 status := PENDING;
                 createdAt := now;
                 updatedAt := now |} ;;
       ret data
     else
       throw (HttpException
                (orElse (ResponseDescription data) "STK Push failed")
                BAD_REQUEST))
    (fun error =>
       _ <- modifyBreaker (recordFailure now) ;;
       if instanceofHttpException error then throw error
       else throw (HttpException "Failed to initiate STK Push"
                     INTERNAL_SERVER_ERROR)).

(** *** Callback reconciliation *)

Module Callback.

Record CallbackMetadataDto : Set := {
  Item : option (list MpesaUtils.CallbackItem)
}.

(** [ResultCode] is a [number] that the ledger stores in an integer
    column; it is carried as an integer, on which [Number(ResultCode)]
    is the identity. *)
Record StkCallback : Set := {
  MerchantRequestID : string;
  CheckoutRequestID : string;
  ResultCode : Z;
  ResultDesc : string;
  CallbackMetadata : option CallbackMetadataDto
}.

Record CallbackBody : Set := { stkCallback : option StkCallback }.

Record MpesaCallbackDto : Set := { Body : option CallbackBody }.

End Callback.

(** The [data] of the update: [resultCode], [resultDesc], [updatedAt]
    and [status] are always present, the receipt number and the
    transaction date only where a branch assigns them. *)
Record UpdateData : Set := {
  u_resultCode : Z;
  u_resultDesc : option string;
  u_updatedAt : Z;
  u_status : TransactionStatus;
  u_mpesaReceiptNumber : option string;
  u_transactionDate : option Date
}.

(** A field absent from the update keeps its stored value. *)
Definition applyUpdate (u : UpdateData) (t : MpesaTransaction)
  : MpesaTransaction :=
  {| merchantRequestID := merchantRequestID t;
     checkoutRequestID := checkoutRequestID t;
     responseCode := responseCode t;
     responseDescription := responseDescription t;
     customerMessage := customerMessage t;
     amount := amount t;
     phoneNumber := phoneNumber t;
     accountReference := accountReference t;
     transactionDesc := transactionDesc t;
     mpesaReceiptNumber :=
       match u_mpesaReceiptNumber u with
       | Some r => Some r
       | None => mpesaReceiptNumber t
       end;
     transactionDate :=
       match u_transactionDate u with
       | Some d => Some d
       | None => transactionDate t
       end;
     resultCode := Some (u_resultCode u);
     resultDesc := u_resultDesc u;
     status := u_status u;
     createdAt := createdAt t;
     updatedAt := u_updatedAt u |}.

(** [prisma.mpesaTransaction.update] by [checkoutRequestID]: error
    P2025 when no such record exists. *)
Definition update (id : string) (data : UpdateData) : M MpesaTransaction :=
  fun w =>
    match ledger w !! id with
    | Some t =>
        let t' := applyUpdate data t in
        match setLedger (<[id := t']> (ledger w)) w with
        | (_, w') => (Return t', w')
        end
    | None => (Throw (PrismaError "P2025"), w)
    end.

(** The update computed from the callback (the statements between the
    lookup and the write).  The success branch logs
    [updateData.transactionDate.toISOString()], which throws on an
    Invalid Date. *)
Definition buildUpdateData (now : Z) (cb : Callback.StkCallback)
  : Completion UpdateData :=
  let resultCode := Callback.ResultCode cb in
  let resultDesc :=
    if truthy (Callback.ResultDesc cb) then Some (Callback.ResultDesc cb)
    else None in
  if resultCode =? 0 then
    match Callback.CallbackMetadata cb with
    | Some {| Callback.Item := Some items |} =>
        let metadata := MpesaUtils.parseCallbackMetadata now items in
        let receipt :=
          match MpesaUtils.MpesaReceiptNumber metadata with
          | Some r => if truthy r then Some r else None
          | None => None
          end in
        let date :=
          match MpesaUtils.TransactionDate metadata with
          | Some d => d
          | None => Some now
          end in
        (_ <- toISOString date ;;
         Return {| u_resultCode := resultCode; u_resultDesc := resultDesc;
                   u_updatedAt := now; u_status := SUCCESS;
                   u_mpesaReceiptNumber := receipt;
                   u_transactionDate := Some date |})%completion
    | _ =>
        Return {| u_resultCode := resultCode; u_resultDesc := resultDesc;
                  u_updatedAt := now; u_status := SUCCESS;
                  u_mpesaReceiptNumber := Some ("FALLBACK_" ++ stringOfZ now);
                  u_transactionDate := Some (Some now) |}
    end
  else
    Return {| u_resultCode := resultCode; u_resultDesc := resultDesc;
              u_updatedAt := now;
              u_status := if resultCode =? 1032 then CANCELLED
                          else if resultCode =? 1037 then TIMEOUT
                          else FAILED;
              u_mpesaReceiptNumber := None;
              u_transactionDate := None |}.

Definition handleCallback (now : Z) (callbackData : Callback.MpesaCallbackDto)
  : M unit :=
  try
    (match Callback.Body callbackData with
     | None =>
         throw (HttpException "Invalid callback format: missing Body"
                  BAD_REQUEST)
     | Some body =>
         match Callback.stkCallback body with
         | None =>
             throw (HttpException
                      "Invalid callback format: missing stkCallback"
                      BAD_REQUEST)
         | Some cb =>
             let id := Callback.CheckoutRequestID cb in
             existingTransaction <-
               try
                 (found <- findUnique id ;;
                  match found with
                  | Some t => ret t
                  | None =>
                      throw (HttpException
                               ("Transaction not found for CheckoutRequestID: "
                                ++ id)
                               NOT_FOUND)
                  end)
                 (fun error => throw error) ;;
             updateData <- lift (buildUpdateData now cb) ;;
             try
               (updatedTransaction <- update id updateData ;;
                ret tt)
               (fun dbError =>
                  match dbError with
                  | PrismaError "P2025" =>
                      throw (HttpException ("Transaction not found: " ++ id)
                               NOT_FOUND)
                  | _ =>
                      throw (HttpException "Database update failed"
                               INTERNAL_SERVER_ERROR)
                  end)
         end
     end)
    (fun error =>
       if instanceofHttpException error then throw error
       else throw (HttpException "Callback processing failed"
                     INTERNAL_SERVER_ERROR)).

(** *** Queries *)

(** The object [getTransactionStatus] returns (without the surrogate
    [id]). *)
Record TransactionView : Set := {
  v_checkoutRequestID : string;
  v_merchantRequestID : string;
  v_amount : Z;
  v_phoneNumber : string;
  v_accountReference : string;
  v_transactionDesc : string;
  v_status : TransactionStatus;
  v_mpesaReceiptNumber : option string;
  v_transactionDate : option Date;
  v_resultCode : option Z;
  v_resultDesc : option string;
  v_createdAt : Z;
  v_updatedAt : Z
}.

Definition getTransactionStatus (checkoutRequestId : string) : M TransactionView :=
  try
    (transaction <- findUnique checkoutRequestId ;;
     match transaction with
     | None =>
         throw (HttpException
                  ("Transaction with CheckoutRequestID " ++ checkoutRequestId
                   ++ " not found")
                  NOT_FOUND)
     | Some t =>
         ret {| v_checkoutRequestID := checkoutRequestID t;
                v_merchantRequestID := merchantRequestID t;
                v_amount := amount t;
                v_phoneNumber := phoneNumber t;
                v_accountReference := accountReference t;
                v_transactionDesc := transactionDesc t;
                v_status := status t;
                v_mpesaReceiptNumber := mpesaReceiptNumber t;
                v_transactionDate := transactionDate t;
                v_resultCode := resultCode t;
                v_resultDesc := resultDesc t;
                v_createdAt := createdAt t;
                v_updatedAt := updatedAt t |}
     end)
    (fun error => throw error).

(** [getCircuitBreakerStatus]: a copy of the breaker. *)
Definition getCircuitBreakerStatus : M CircuitBreakerStatus := getBreaker.

(** The columns of the ledger, the names [orderBy] accepts. *)
Definition columns : list string :=
  [ "id"; "merchantRequestID"; "checkoutRequestID"; "responseCode";
    "responseDescription"; "customerMessage"; "amount"; "phoneNumber";
    "accountReference"; "transactionDesc"; "mpesaReceiptNumber";
    "transactionDate"; "resultCode"; "resultDesc"; "status"; "createdAt";
    "updatedAt" ].

Record Pagination : Set := {
  total : nat;
  offset : nat;
  limit : nat;
  hasMore : bool
}.

Record Page : Set := {
  data : list MpesaTransaction;
  pagination : Pagination
}.

Section Listing.

(** The rows of the ledger in the order the database gives them for a
    column and a direction. *)
Variable orderBy :
  string -> string -> gmap string MpesaTransaction -> list MpesaTransaction.

(** [prisma.mpesaTransaction.findMany] with [skip], [take] and
    [orderBy]: a name that is no column, or a direction that is neither
    [asc] nor [desc], is refused by the client. *)
Definition findMany (skip take : nat) (sortBy sortOrder : string)
  : M (list MpesaTransaction) :=
  fun w =>
    if includes columns sortBy && includes ["asc"; "desc"] sortOrder then
      (Return (firstn take (skipn skip (orderBy sortBy sortOrder (ledger w)))),
       w)
    else (Throw (PrismaError "validation"), w).

(** [prisma.mpesaTransaction.count] *)
Definition count : M nat := fun w => (Return (size (ledger w)), w).

(** [getAllTransactions]; the [cursor] argument is not used by the
    code. *)
Definition getAllTransactions (offset limit : nat) (sortBy sortOrder : string)
  : M Page :=
  try
    (transactions <- findMany offset limit sortBy sortOrder ;;
     total <- count ;;
     ret {| data := transactions;
            pagination := {| total := total; offset := offset;
                             limit := limit;
                             hasMore := (offset + limit <? total)%nat |} |})
    (fun error =>
       throw (HttpException "Failed to retrieve transactions"
                INTERNAL_SERVER_ERROR)).

End Listing.

End MpesaService.

(** ** MpesaConfig *)

Module MpesaConfig.

Import Js.

(** [!configService.get(name)]: unset or empty. *)
Definition missing (env : gmap string string) (name : string) : bool :=
  match env !! name with
  | Some value => negb (truthy value)
  | None => true
  end.

Definition requiredVars : list string :=
  [ "MPESA_CONSUMER_KEY"; "MPESA_CONSUMER_SECRET";
    "MPESA_BUSINESS_SHORT_CODE"; "MPESA_PASSKEY"; "MPESA_CALLBACK_URL" ].

(** [validateConfig], run by the constructor. *)
Definition validateConfig (env : gmap string string) : Completion unit :=
  let missingVars := List.filter (missing env) requiredVars in
  if (0 <? length missingVars)%nat then
    Throw (Error ("Missing required M-Pesa configuration: "
                  ++ join ", " missingVars))
  else
    match env !! "MPESA_CALLBACK_URL" with
    | Some callbackUrl =>
        if truthy callbackUrl && negb (startsWith callbackUrl "http") then
          Throw (Error "MPESA_CALLBACK_URL must be a valid HTTP/HTTPS URL")
        else Return tt
    | None => Return tt
    end.

(** [environment]: the value of the variable, [sandbox] when it is
    unset or empty. *)
Definition environment (env : gmap string string) : string :=
  match env !! "MPESA_ENVIRONMENT" with
  | Some value => if truthy value then value else "sandbox"
  | None => "sandbox"
  end.

Definition baseUrl (env : gmap string string) : string :=
  if String.eqb (environment env) "production"
  then "https://api.safaricom.co.ke"
  else "https://sandbox.safaricom.co.ke".

Definition authUrl (env : gmap string string) : string :=
  baseUrl env ++ "/oauth/v1/generate?grant_type=client_credentials".

Definition stkPushUrl (env : gmap string string) : string :=
  baseUrl env ++ "/mpesa/stkpush/v1/processrequest".

Definition allowedCallbackIps : list string := [ "127.0.0.1"; "::1" ].

End MpesaConfig.

(** ** Request validation and the controller *)

Module StkPushDto.

Import Js.

(** [[17][0-9]{8}] up to the end of the input. *)
Definition nationalNumber (s : string) : bool :=
  match s with
  | String c r =>
      (isAscii 49 c || isAscii 55 c) && (len r =? 8) && allDigits r
  | EmptyString => false
  end.

(** [s] without the prefix [p], when it starts with it. *)
Definition dropPrefix (p s : string) : option string :=
  if startsWith s p
  then Some (substringFrom (String.length p) s)
  else None.

(** The pattern of the [phoneNumber] field,
    [/^(\+?254|0)?[17][0-9]{8}$/]: one of the prefixes [+254], [254],
    [0] or none, then the national number. *)
Definition matchesPhonePattern (s : string) : bool :=
  nationalNumber s
  || from_option nationalNumber false (dropPrefix "+254" s)
  || from_option nationalNumber false (dropPrefix "254" s)
  || from_option nationalNumber false (dropPrefix "0" s).

End StkPushDto.

Module MpesaController.

Import Js.

(** The parts of a request the guard reads. *)
Record Request : Set := {
  x_forwarded_for : option string;
  x_real_ip : option string;
  connection_remoteAddress : option string;
  socket_remoteAddress : option string
}.

(** [a || b] where [a] may be undefined. *)
Definition orString (a : option string) (b : string) : string :=
  match a with
  | Some s => if truthy s then s else b
  | None => b
  end.

(** [getClientIp] *)
Definition getClientIp (request : Request) : string :=
  trim (beforeComma
          (orString (x_forwarded_for request)
             (orString (x_real_ip request)
                (orString (connection_remoteAddress request)
                   (orString (socket_remoteAddress request) ""))))).

(** [IpWhitelistGuard.canActivate], given [process.env.NODE_ENV]. *)
Definition canActivate (nodeEnv : option string) (request : Request) : bool :=
  let clientIp := getClientIp request in
  let allowedIps := MpesaConfig.allowedCallbackIps in
  if from_option (fun env => String.eqb env "development") false nodeEnv
  then true
  else includes allowedIps clientIp.

Definition validSortFields : list string :=
  [ "createdAt"; "updatedAt"; "amount"; "phoneNumber"; "status" ].

Definition validSortOrders : list string := [ "asc"; "desc" ].

Section Listing.

Context {R : Type}.

(** The call of [mpesaService.getAllTransactions] with the offset, the
    limit, the column and the direction. *)
Variable service : Number -> Number -> string -> string -> Completion R.

(** [MpesaController.getAllTransactions], on the query parameters.  Of
    the body of the last 500 answer (a message, the text of the error
    and a timestamp) the message is kept. *)
Definition getAllTransactions (offset limit sortBy sortOrder : option string)
  : Completion R :=
  tryCatch
    (let offsetNum :=
       match offset with
       | Some o => if truthy o then Math_max (ofZ 0) (parseInt10 o) else ofZ 0
       | None => ofZ 0
       end in
     let limitNum :=
       match limit with
       | Some l =>
           if truthy l
           then Math_max (ofZ 1) (Math_min (ofZ 1000) (parseInt10 l))
           else ofZ 50
       | None => ofZ 50
       end in
     let sortBy := default "createdAt" sortBy in
     let sortOrder := default "desc" sortOrder in
     if negb (includes validSortFields sortBy) then
       Throw (HttpException
                ("Invalid sortBy field. Allowed values: "
                 ++ join ", " validSortFields)
                BAD_REQUEST)
     else if negb (includes validSortOrders sortOrder) then
       Throw (HttpException
                ("Invalid sortOrder. Allowed values: "
                 ++ join ", " validSortOrders)
                BAD_REQUEST)
     else service offsetNum limitNum sortBy sortOrder)
    (fun error =>
       if instanceofHttpException error then Throw error
       else Throw (HttpException "Failed to retrieve transactions"
                     INTERNAL_SERVER_ERROR)).

End Listing.

(** The handler the endpoints share: a status thrown by the service is
    passed on, any other error becomes a 500 (of whose body the message
    is kept). *)
Definition rethrow {A : Type} (message : string) (error : Exception)
  : MpesaService.M A :=
  if instanceofHttpException error then MpesaService.throw error
  else MpesaService.throw (HttpException message INTERNAL_SERVER_ERROR).

(** [MpesaController.initiateStkPush] *)
Definition initiateStkPush (now : Z) (gw : MpesaService.Gateway)
  (stkPushData : MpesaService.StkPushDto)
  : MpesaService.M MpesaService.StkPushResponse :=
  MpesaService.try
    (MpesaService.bind (MpesaService.initiateStkPush now gw stkPushData)
       (fun result => MpesaService.ret result))
    (rethrow "Failed to initiate STK Push").

(** [MpesaController.handleCallback], behind the guard: the message of
    its answer. *)
Definition handleCallback (now : Z)
  (callbackData : MpesaService.Callback.MpesaCallbackDto)
  : MpesaService.M string :=
  MpesaService.try
    (MpesaService.bind (MpesaService.handleCallback now callbackData)
       (fun _ => MpesaService.ret "Callback processed successfully"))
    (rethrow "Failed to process callback").

(** [MpesaController.getTransactionStatus] *)
Definition getTransactionStatus (checkoutRequestId : string)
  : MpesaService.M MpesaService.TransactionView :=
  MpesaService.try
    (MpesaService.getTransactionStatus checkoutRequestId)
    (rethrow "Failed to get transaction status").

(** What the health endpoint reports (besides a timestamp, the name of
    the service and its version). *)
Record Health : Set := {
  h_status : string;
  h_state : MpesaService.CircuitBreakerState;
  h_failures : nat
}.

(** [MpesaController.healthCheck] *)
Definition healthCheck : MpesaService.M Health :=
  MpesaService.try
    (MpesaService.bind MpesaService.getCircuitBreakerStatus
       (fun circuitBreakerStatus =>
          MpesaService.ret
            {| h_status := "healthy";
               h_state := MpesaService.state circuitBreakerStatus;
               h_failures := MpesaService.failures circuitBreakerStatus |}))
    (fun error =>
       MpesaService.throw
         (HttpException "Service unavailable" SERVICE_UNAVAILABLE)).

End MpesaController.

(** * Vocabulary of the properties

    Scenarios and reference readings against which the code above is
    compared.  Nothing here is used by the code. *)

Module Scenario.

Import Js MpesaService.

(** The token exchange fails: a transport fault, or a response without
    a usable [access_token]. *)
Definition authFails (gw : Gateway) : bool :=
  match authReply gw with
  | Throw _ => true
  | Return r =>
      match access_token r with
      | Some token => negb (truthy token)
      | None => true
      end
  end.

(** One initiation: the time it is made at, what the gateway answers
    during it, and the request. *)
Record Attempt : Set := {
  at_now : Z;
  at_gateway : Gateway;
  at_request : StkPushDto
}.

Definition initiate (a : Attempt) : M StkPushResponse :=
  initiateStkPush (at_now a) (at_gateway a) (at_request a).

(** Initiations made one after the other: their outcomes, in order,
    and the world they leave. *)
Fixpoint runInitiations (attempts : list Attempt) (w : World)
  : list (Completion StkPushResponse) * World :=
  match attempts with
  | [] => ([], w)
  | a :: rest =>
      let '(r, w1) := initiate a w in
      let '(rs, w2) := runInitiations rest w1 in
      (r :: rs, w2)
  end.

(** Failures recorded one after the other, at the given times. *)
Definition recordFailures (times : list Z) (cb : CircuitBreakerStatus)
  : CircuitBreakerStatus :=
  fold_left (fun cb t => recordFailure t cb) times cb.

Definition freshWorld : World :=
  {| circuitBreaker := initialBreaker; ledger := ∅; outbound := [] |}.

Definition withBreaker (cb : CircuitBreakerStatus) (w : World) : World :=
  {| circuitBreaker := cb; ledger := ledger w; outbound := outbound w |}.

(** What holds of the breaker in every world the service can reach: off
    CLOSED the counter is at the threshold or above, and an OPEN
    breaker has a [nextAttemptTime]. *)
Definition breakerInvariant (cb : CircuitBreakerStatus) : Prop :=
  (state cb <> CLOSED -> (maxFailures <= failures cb)%nat) /\
  (state cb = OPEN -> is_Some (nextAttemptTime cb)).

(** The breaker once the guard has moved it to HALF_OPEN. *)
Definition halfOpened (cb : CircuitBreakerStatus) : CircuitBreakerStatus :=
  {| state := HALF_OPEN; failures := failures cb;
     lastFailureTime := lastFailureTime cb;
     nextAttemptTime := nextAttemptTime cb |}.

Definition serviceUnavailable : Exception :=
  HttpException "M-Pesa service temporarily unavailable" SERVICE_UNAVAILABLE.

(** The initiation of [request] at [now] gets as far as the phone
    number and is stopped there: the breaker lets it in, the token
    exchange succeeds, and the number is rejected. *)
Definition failsWithInvalidPhoneNumber (now : Z) (gw : Gateway)
  (request : StkPushDto) (w : World) : Prop :=
  fst (checkCircuitBreaker now w) = Return tt /\
  authFails gw = false /\
  MpesaUtils.formatPhoneNumber (dto_phoneNumber request)
  = Throw (Error ("Invalid phone number format: " ++ dto_phoneNumber request)).

(** The frame property for rejected phone numbers, read literally. *)
Definition invalidPhoneLeavesBreakerAlone : Prop :=
  forall now gw request w,
    failsWithInvalidPhoneNumber now gw request w ->
    circuitBreaker (snd (initiateStkPush now gw request w))
    = circuitBreaker w.

(** A stricter reading of the recovery, with the deadline anchored at
    the time [t0] the breaker opened: whatever attempts were turned away
    inside the window, an attempt made at [t0 + resetTimeout] or later
    is let in.  The code does not have it, see
    [window_follows_last_rejection]. *)
Definition probeAtOpeningDeadline : Prop :=
  forall (t0 : Z) (earlier : list Attempt) (a : Attempt) (w0 : World),
    breakerInvariant (circuitBreaker w0) ->
    state (circuitBreaker w0) = OPEN ->
    nextAttemptTime (circuitBreaker w0) = Some (t0 + resetTimeout) ->
    Forall (fun e => t0 <= at_now e < t0 + resetTimeout) earlier ->
    t0 + resetTimeout <= at_now a ->
    fst (checkCircuitBreaker (at_now a) (snd (runInitiations earlier w0)))
    = Return tt.

(** The accepted shapes of a phone number, read on its digits. *)
Definition leadingZeroTenDigit (digits : string) : bool :=
  startsWith digits "0" && (len digits =? 10).

Definition canonicalTwelveDigit (digits : string) : bool :=
  startsWith digits "254" && (len digits =? 12).

Definition bareNineDigit (digits : string) : bool := len digits =? 9.

Definition acceptedForm (digits : string) : bool :=
  leadingZeroTenDigit digits || canonicalTwelveDigit digits
  || bareNineDigit digits.

(** *** Reconciliation *)

(** PENDING is the only state that is not terminal. *)
Definition terminal (s : TransactionStatus) : bool :=
  match s with
  | PENDING => false
  | SUCCESS | FAILED | CANCELLED | TIMEOUT => true
  end.

(** The outcome a result code stands for: 0 is success, 1032 a
    cancellation, 1037 a timeout, anything else a failure. *)
Definition outcomeOf (resultCode : Z) : TransactionStatus :=
  if resultCode =? 0 then SUCCESS
  else if resultCode =? 1032 then CANCELLED
  else if resultCode =? 1037 then TIMEOUT
  else FAILED.

(** A well-formed webhook payload around [cb]. *)
Definition payload (cb : Callback.StkCallback) : Callback.MpesaCallbackDto :=
  {| Callback.Body := Some {| Callback.stkCallback := Some cb |} |}.

(** The invariant on terminal states, read literally: a callback for a
    transaction in a terminal state leaves its status and its outcome
    fields as they were. *)
Definition terminalStatesAreFinal : Prop :=
  forall now cb w t,
    ledger w !! Callback.CheckoutRequestID cb = Some t ->
    terminal (status t) = true ->
    exists t',
      ledger (snd (handleCallback now (payload cb) w))
        !! Callback.CheckoutRequestID cb = Some t' /\
      status t' = status t /\
      mpesaReceiptNumber t' = mpesaReceiptNumber t /\
      transactionDate t' = transactionDate t /\
      resultCode t' = resultCode t /\
      resultDesc t' = resultDesc t.

(** A parsed date, when there is one, is a valid date. *)
Definition datesValid (m : MpesaUtils.CallbackMetadata) : Prop :=
  forall d, MpesaUtils.TransactionDate m = Some d -> exists t, d = Some t.

(** A payment that was reconciled as successful. *)
Definition paidTransaction : MpesaTransaction :=
  {| merchantRequestID := "m-1"; checkoutRequestID := "ws_CO_1";
     responseCode := Some "0";
     responseDescription := Some "Success. Request accepted";
     customerMessage := Some "Success";
     amount := 100; phoneNumber := "254712345678";
     accountReference := "ORDER123"; transactionDesc := "Payment for services";
     mpesaReceiptNumber := Some "NLJ7RT61SV";
     transactionDate := Some (Some 1748768400000);
     resultCode := Some 0;
     resultDesc := Some "The service request is processed successfully.";
     status := SUCCESS; createdAt := 1748768300000;
     updatedAt := 1748768401000 |}.

(** The same payment while it waits for its callback. *)
Definition pendingTransaction : MpesaTransaction :=
  {| merchantRequestID := "m-1"; checkoutRequestID := "ws_CO_1";
     responseCode := Some "0";
     responseDescription := Some "Success. Request accepted";
     customerMessage := Some "Success";
     amount := 100; phoneNumber := "254712345678";
     accountReference := "ORDER123"; transactionDesc := "Payment for services";
     mpesaReceiptNumber := None; transactionDate := None;
     resultCode := None; resultDesc := None;
     status := PENDING; createdAt := 1748768300000;
     updatedAt := 1748768300000 |}.

Definition worldWith (t : MpesaTransaction) : World :=
  {| circuitBreaker := initialBreaker;
     ledger := {[ checkoutRequestID t := t ]};
     outbound := [] |}.

Definition cancelledCallback : Callback.StkCallback :=
  {| Callback.MerchantRequestID := "m-1";
     Callback.CheckoutRequestID := "ws_CO_1";
     Callback.ResultCode := 1032;
     Callback.ResultDesc := "Request cancelled by user";
     Callback.CallbackMetadata := None |}.

Definition successCallback : Callback.StkCallback :=
  {| Callback.MerchantRequestID := "m-1";
     Callback.CheckoutRequestID := "ws_CO_1";
     Callback.ResultCode := 0;
     Callback.ResultDesc := "The service request is processed successfully.";
     Callback.CallbackMetadata :=
       Some {| Callback.Item :=
                 Some [ {| MpesaUtils.Name := "Amount";
                           MpesaUtils.Value := VNumber 100 |};
                        {| MpesaUtils.Name := "MpesaReceiptNumber";
                           MpesaUtils.Value := VString "NLJ7RT61SV" |};
                        {| MpesaUtils.Name := "TransactionDate";
                           MpesaUtils.Value := VNumber 20250601120000 |};
                        {| MpesaUtils.Name := "PhoneNumber";
                           MpesaUtils.Value := VNumber 254712345678 |} ] |} |}.

Definition strayCallback : Callback.StkCallback :=
  {| Callback.MerchantRequestID := "m-9";
     Callback.CheckoutRequestID := "ws_CO_9";
     Callback.ResultCode := 0;
     Callback.ResultDesc := "The service request is processed successfully.";
     Callback.CallbackMetadata := None |}.

(** *** Transaction dates *)

(** The six fields of a [YYYYMMDDHHMMSS] string, read as decimal
    numbers. *)
Definition yearOf (s : string) : Z := decimalValue (slice 0 4 s).
Definition monthOf (s : string) : Z := decimalValue (slice 4 6 s).
Definition dayOf (s : string) : Z := decimalValue (slice 6 8 s).
Definition hourOf (s : string) : Z := decimalValue (slice 8 10 s).
Definition minuteOf (s : string) : Z := decimalValue (slice 10 12 s).
Definition secondOf (s : string) : Z := decimalValue (slice 12 14 s).

(** The component validation: fourteen digits, year 2020-2030, month
    1-12, day 1-31, hour 0-23, minute and second 0-59. *)
Definition validComponents (s : string) : bool :=
  allDigits s
  && (between 2020 (yearOf s) 2030 && between 1 (monthOf s) 12
      && between 1 (dayOf s) 31 && between 0 (hourOf s) 23
      && between 0 (minuteOf s) 59 && between 0 (secondOf s) 59).

(** The instant the fields denote when read as a wall-clock time three
    hours ahead of UTC. *)
Definition instantUTC3 (s : string) : Z :=
  MakeDate (MakeDay (yearOf s) (monthOf s - 1) (dayOf s))
           (MakeTime (hourOf s) (minuteOf s) (secondOf s) 0)
  - 3 * 3600000.

(** *** Retry *)

(** The jitter factor drawn in an attempt where [Math.random()] gave
    [r]. *)
Definition jitter (r : Q) : Q := ((1 # 2) + r * (1 # 2))%Q.

(** The trace of [count] attempts in a row, from attempt [first] on,
    each failing and followed by its backoff sleep. *)
Definition failedAttempts (baseDelay : Q) (random : nat -> Q)
  (first count : nat) : list MpesaUtils.RetryEvent :=
  flat_map
    (fun i => [MpesaUtils.Call i;
               MpesaUtils.Sleep
                 (MpesaUtils.backoffDelay baseDelay i (random i))])
    (seq first count).

Definition retryExhausted : Exception :=
  NotFoundException "Operation failed after maximum retries".

(** An operation that fails twice and then answers 42. *)
Definition flaky (attempt : nat) : Completion Z :=
  if (attempt <? 3)%nat then Throw (Error "socket hang up") else Return 42.

Definition okGateway : Gateway :=
  {| authReply := Return {| access_token := Some "token" |};
     stkPushReply :=
       Return {| MerchantRequestID := "m-1"; CheckoutRequestID := "ws_CO_1";
                 ResponseCode := "0";
                 ResponseDescription := "Success. Request accepted";
                 CustomerMessage := "Success" |} |}.

Definition downGateway : Gateway :=
  {| authReply := Throw (Error "connect ETIMEDOUT");
     stkPushReply := Throw (Error "connect ETIMEDOUT") |}.

Definition request (phone : string) : StkPushDto :=
  {| dto_amount := 100; dto_phoneNumber := phone;
     dto_accountReference := "ORDER123"; dto_transactionDesc := None |}.

(** The breaker after five failures recorded at time 0. *)
Definition openedAtZero : World :=
  withBreaker (recordFailures [0; 0; 0; 0; 0] initialBreaker) freshWorld.

(** *** Initiation, path by path *)

(** The record [initiateStkPush] saves after the gateway accepted the
    request. *)
Definition pendingRecord (now : Z) (request : StkPushDto) (phone : string)
  (data : StkPushResponse) : MpesaTransaction :=
  {| merchantRequestID := MerchantRequestID data;
     checkoutRequestID := CheckoutRequestID data;
     responseCode := Some (ResponseCode data);
     responseDescription := Some (ResponseDescription data);
     customerMessage := Some (CustomerMessage data);
     amount := dto_amount request;
     phoneNumber := phone;
     accountReference := orElse (dto_accountReference request) "Payment";
     transactionDesc :=
       orElse (default "" (dto_transactionDesc request)) "Payment for services";
     mpesaReceiptNumber := None;
     transactionDate := None;
     resultCode := None;
     resultDesc := None;
     status := PENDING;
     createdAt := now;
     updatedAt := now |}.

(** One of the two request ids of [data] is already in the ledger. *)
Definition idsTaken (data : StkPushResponse)
  (l : gmap string MpesaTransaction) : bool :=
  bool_decide (is_Some (l !! CheckoutRequestID data))
  || bool_decide (map_Exists
       (fun _ t => merchantRequestID t = MerchantRequestID data) l).

(** The exception the handler of [initiateStkPush] throws for [e]. *)
Definition initiationError (e : Exception) : Exception :=
  if instanceofHttpException e then e
  else HttpException "Failed to initiate STK Push" INTERNAL_SERVER_ERROR.

Definition postOf (request : StkPushDto) (phone : string) : GatewayCall :=
  PostStkPush phone (dto_amount request)
    (orElse (dto_accountReference request) "Payment")
    (orElse (default "" (dto_transactionDesc request)) "Payment for services").

(** What an initiation does once the guard has let it in and left the
    world [w1], spelled out path by path: the token exchange fails, the
    phone number is refused, the request does not get through, the
    gateway declines it, or the gateway accepts it. *)
Definition afterGuard (now : Z) (gw : Gateway) (request : StkPushDto)
  (w1 : World) : Completion StkPushResponse * World :=
  let cb1 := circuitBreaker w1 in
  if authFails gw then
    (Throw (HttpException "Failed to authenticate with M-Pesa API"
              SERVICE_UNAVAILABLE),
     {| circuitBreaker := recordFailure now (recordFailure now cb1);
        ledger := ledger w1;
        outbound := outbound w1 ++ [GetAccessToken] |})
  else
    match MpesaUtils.formatPhoneNumber (dto_phoneNumber request) with
    | Throw e =>
        (Throw (initiationError e),
         {| circuitBreaker := recordFailure now cb1;
            ledger := ledger w1;
            outbound := outbound w1 ++ [GetAccessToken] |})
    | Return phone =>
        let sent :=
          (outbound w1 ++ [GetAccessToken; postOf request phone])%list in
        match stkPushReply gw with
        | Throw e =>
            (Throw (initiationError e),
             {| circuitBreaker := recordFailure now cb1;
                ledger := ledger w1; outbound := sent |})
        | Return data =>
            if String.eqb (ResponseCode data) "0" then
              (Return data,
               {| circuitBreaker := recordSuccess cb1;
                  ledger :=
                    if idsTaken data (ledger w1) then ledger w1
                    else <[CheckoutRequestID data :=
                             pendingRecord now request phone data]> (ledger w1);
                  outbound := sent |})
            else
              (Throw (HttpException
                        (orElse (ResponseDescription data) "STK Push failed")
                        BAD_REQUEST),
               {| circuitBreaker := recordFailure now cb1;
                  ledger := ledger w1; outbound := sent |})
        end
    end.

(** A gateway that hands out tokens and declines the payment. *)
Definition decliningGateway : Gateway :=
  {| authReply := Return {| access_token := Some "token" |};
     stkPushReply :=
       Return {| MerchantRequestID := ""; CheckoutRequestID := "";
                 ResponseCode := "1";
                 ResponseDescription := "Invalid Amount";
                 CustomerMessage := "" |} |}.

(** Every record sits under its own [checkoutRequestID], and no two
    records share a [merchantRequestID]: the two unique indexes of the
    table. *)
Definition ledgerConsistent (l : gmap string MpesaTransaction) : Prop :=
  (forall id t, l !! id = Some t -> checkoutRequestID t = id) /\
  (forall id1 id2 t1 t2,
     l !! id1 = Some t1 -> l !! id2 = Some t2 ->
     merchantRequestID t1 = merchantRequestID t2 -> id1 = id2).

(** The columns a callback has no business with. *)
Definition sameRequest (t t' : MpesaTransaction) : Prop :=
  merchantRequestID t' = merchantRequestID t /\
  checkoutRequestID t' = checkoutRequestID t /\
  responseCode t' = responseCode t /\
  responseDescription t' = responseDescription t /\
  customerMessage t' = customerMessage t /\
  amount t' = amount t /\
  phoneNumber t' = phoneNumber t /\
  accountReference t' = accountReference t /\
  transactionDesc t' = transactionDesc t /\
  createdAt t' = createdAt t.

(** *** Metadata *)

(** The item carries a name, and trimmed it is [name]. *)
Definition itemNamed (name : string) (item : MpesaUtils.CallbackItem) : bool :=
  truthy (MpesaUtils.Name item)
  && String.eqb (trim (MpesaUtils.Name item)) name.

(** The value of the last item of the list that is named [name]. *)
Fixpoint lastNamed (name : string) (items : list MpesaUtils.CallbackItem)
  : option Value :=
  match items with
  | [] => None
  | item :: rest =>
      match lastNamed name rest with
      | Some v => Some v
      | None => if itemNamed name item then Some (MpesaUtils.Value item) else None
      end
  end.

(** The date [parseTransactionDate] returns for a value. *)
Definition parsedDate (now : Z) (v : Value) : Date :=
  match MpesaUtils.parseTransactionDate now (trim (toString v)) with
  | Return d => d
  | Throw _ => None
  end.

Definition wellKnownNames : list string :=
  [ "Amount"; "MpesaReceiptNumber"; "Balance"; "TransactionDate";
    "PhoneNumber" ].

(** *** Retry traces *)

(** How often the operation was called. *)
Definition calls (events : list MpesaUtils.RetryEvent) : nat :=
  length (List.filter
            (fun e => match e with MpesaUtils.Call _ => true | _ => false end)
            events).

(** The time spent sleeping, in milliseconds. *)
Definition slept (events : list MpesaUtils.RetryEvent) : Q :=
  fold_right
    (fun e total =>
       match e with
       | MpesaUtils.Sleep ms => (ms + total)%Q
       | MpesaUtils.Call _ => total
       end)
    0%Q events.

(** An operation that never answers. *)
Definition failing (attempt : nat) : Completion Z :=
  Throw (Error "socket hang up").

(** *** Timestamps *)

(** Fields a clock can show, in a four-digit year. *)
Definition clockFields (date : MpesaUtils.LocalFields) : bool :=
  between 1000 (MpesaUtils.getFullYear date) 9999
  && between 0 (MpesaUtils.getMonth date) 11
  && between 1 (MpesaUtils.getDate date) 31
  && between 0 (MpesaUtils.getHours date) 23
  && between 0 (MpesaUtils.getMinutes date) 59
  && between 0 (MpesaUtils.getSeconds date) 59.

(** The instant at which a clock three hours ahead of UTC shows the
    fields. *)
Definition shownAtUTC3 (date : MpesaUtils.LocalFields) : Z :=
  MakeDate (MakeDay (MpesaUtils.getFullYear date) (MpesaUtils.getMonth date)
              (MpesaUtils.getDate date))
           (MakeTime (MpesaUtils.getHours date) (MpesaUtils.getMinutes date)
              (MpesaUtils.getSeconds date) 0)
  - 3 * 3600000.

(** 1 June 2025, 07:50:45 *)
Definition firstOfJune : MpesaUtils.LocalFields :=
  {| MpesaUtils.getFullYear := 2025; MpesaUtils.getMonth := 5;
     MpesaUtils.getDate := 1; MpesaUtils.getHours := 7;
     MpesaUtils.getMinutes := 50; MpesaUtils.getSeconds := 45 |}.

(** *** Reading a password back *)

(** The 6-bit value of a character of the base64 alphabet. *)
Definition base64Value (c : ascii) : Z :=
  let n := code c in
  if between 65 n 90 then n - 65
  else if between 97 n 122 then n - 71
  else if between 48 n 57 then n + 4
  else if n =? 43 then 62
  else 63.

(** Base64 decoding: four characters give three bytes, a padded last
    group one or two. *)
Fixpoint base64Decode (s : string) : list Z :=
  match s with
  | String a (String b (String c (String d rest))) =>
      let va := base64Value a in
      let vb := base64Value b in
      let vc := base64Value c in
      let vd := base64Value d in
      if isAscii 61 c then [va * 4 + vb / 16]
      else if isAscii 61 d
           then [va * 4 + vb / 16; vb mod 16 * 16 + vc / 4]
           else va * 4 + vb / 16 :: vb mod 16 * 16 + vc / 4
                :: vc mod 4 * 64 + vd :: base64Decode rest
  | _ => []
  end.

(** UTF-8 decoding of one- and two-byte sequences. *)
Fixpoint utf8Decode (bytes : list Z) : string :=
  match bytes with
  | [] => EmptyString
  | a :: rest =>
      if a <? 128
      then String (ascii_of_nat (Z.to_nat a)) (utf8Decode rest)
      else match rest with
           | b :: rest' =>
               String (ascii_of_nat (Z.to_nat ((a - 192) * 64 + (b - 128))))
                 (utf8Decode rest')
           | [] => EmptyString
           end
  end.

(** *** Listings *)

(** A database that gives the rows in the order of their ids, whatever
    the column and the direction. *)
Definition byCheckoutRequestID (sortBy sortOrder : string)
  (rows : gmap string MpesaTransaction) : list MpesaTransaction :=
  (map_to_list rows).*2.

(** A service that answers with the arguments it was called with. *)
Definition echo (offset limit : Number) (sortBy sortOrder : string)
  : Completion (Number * Number * string * string) :=
  Return (offset, limit, sortBy, sortOrder).

End Scenario.

(** * Properties *)

Import MpesaService Scenario.

(** Unfolds the plumbing of the state transformers. *)
Ltac run :=
  unfold try, bind, lift, ret, throw, getBreaker, modifyBreaker, send,
    setLedger in *; simpl in *.

(** ** Circuit breaker *)

Section Breaker.

Implicit Types (cb : CircuitBreakerStatus) (w : World) (now : Z).

Lemma recordFailure_failures now cb :
  failures (recordFailure now cb) = S (failures cb).
Proof. unfold recordFailure. by destruct (_ <=? _)%nat. Qed.

Lemma recordFailure_lastFailureTime now cb :
  lastFailureTime (recordFailure now cb) = Some now.
Proof. unfold recordFailure. by destruct (_ <=? _)%nat. Qed.

Lemma recordFailure_opens now cb :
  (maxFailures <= S (failures cb))%nat ->
  state (recordFailure now cb) = OPEN /\
  nextAttemptTime (recordFailure now cb) = Some (now + resetTimeout).
Proof.
  intros H. unfold recordFailure.
  destruct (Nat.leb_spec maxFailures (S (failures cb))); [done | lia].
Qed.

Lemma recordFailure_below now cb :
  (S (failures cb) < maxFailures)%nat ->
  state (recordFailure now cb) = state cb /\
  nextAttemptTime (recordFailure now cb) = nextAttemptTime cb.
Proof.
  intros H. unfold recordFailure.
  destruct (Nat.leb_spec maxFailures (S (failures cb))); [lia | done].
Qed.

(** C3. A success recorded while CLOSED changes nothing in the breaker;
    a success recorded while HALF_OPEN closes it and sets the failures
    counter to 0; and no other recorded outcome lowers the counter:
    [recordSuccess] changes it only from HALF_OPEN and [recordFailure]
    always raises it by one. *)
Theorem recordSuccess_resets_only_from_half_open cb :
  (state cb = CLOSED -> recordSuccess cb = cb) /\
  (state cb = HALF_OPEN ->
     state (recordSuccess cb) = CLOSED /\ failures (recordSuccess cb) = 0%nat) /\
  (failures (recordSuccess cb) <> failures cb -> state cb = HALF_OPEN) /\
  (forall now, failures (recordFailure now cb) = S (failures cb)).
Proof.
  unfold recordSuccess. repeat split.
  - by intros ->.
  - by rewrite H.
  - by rewrite H.
  - destruct (state cb); congruence.
  - intros now. apply recordFailure_failures.
Qed.

Lemma recordSuccess_resets_only_from_half_open_witness :
  recordSuccess {| state := CLOSED; failures := 3;
                   lastFailureTime := Some 10; nextAttemptTime := None |}
  = {| state := CLOSED; failures := 3;
       lastFailureTime := Some 10; nextAttemptTime := None |}
  /\ failures (recordSuccess
                 {| state := HALF_OPEN; failures := 5;
                    lastFailureTime := Some 10;
                    nextAttemptTime := Some 60010 |}) = 0%nat.
Proof.
  split.
  - apply (recordSuccess_resets_only_from_half_open
             {| state := CLOSED; failures := 3;
                lastFailureTime := Some 10; nextAttemptTime := None |}).
    reflexivity.
  - apply (recordSuccess_resets_only_from_half_open
             {| state := HALF_OPEN; failures := 5;
                lastFailureTime := Some 10;
                nextAttemptTime := Some 60010 |}).
    reflexivity.
Defined.

(** *** The guard *)

Lemma checkCircuitBreaker_not_open now w :
  state (circuitBreaker w) <> OPEN ->
  checkCircuitBreaker now w = (Return tt, w).
Proof.
  intros H. unfold checkCircuitBreaker. run.
  by destruct (state (circuitBreaker w)).
Qed.

Lemma checkCircuitBreaker_rejects now w t :
  state (circuitBreaker w) = OPEN ->
  nextAttemptTime (circuitBreaker w) = Some t ->
  now < t ->
  checkCircuitBreaker now w = (Throw serviceUnavailable, w).
Proof.
  intros Hs Ht Hlt. unfold checkCircuitBreaker. run. rewrite Hs, Ht.
  by destruct (Z.ltb_spec now t); [|lia].
Qed.

Lemma checkCircuitBreaker_probe now w t :
  state (circuitBreaker w) = OPEN ->
  nextAttemptTime (circuitBreaker w) = Some t ->
  t <= now ->
  checkCircuitBreaker now w
  = (Return tt, withBreaker (halfOpened (circuitBreaker w)) w).
Proof.
  intros Hs Ht Hle. unfold checkCircuitBreaker. run. rewrite Hs, Ht.
  by destruct (Z.ltb_spec now t); [lia|].
Qed.

(** The guard either throws and leaves the world alone, or lets the
    call in and at most moves the breaker to HALF_OPEN. *)
Lemma checkCircuitBreaker_cases now w :
  checkCircuitBreaker now w = (Throw serviceUnavailable, w) \/
  checkCircuitBreaker now w = (Return tt, w) \/
  (state (circuitBreaker w) = OPEN /\
   checkCircuitBreaker now w
   = (Return tt, withBreaker (halfOpened (circuitBreaker w)) w)).
Proof.
  unfold checkCircuitBreaker. run.
  destruct (state (circuitBreaker w)) eqn:Hs; auto.
  destruct (nextAttemptTime (circuitBreaker w)) as [t|]; auto.
  destruct (now <? t); auto.
Qed.

(** *** The token exchange *)

Lemma getAccessToken_fails now gw w :
  authFails gw = true ->
  getAccessToken now gw w
  = (Throw (HttpException "Failed to authenticate with M-Pesa API"
              SERVICE_UNAVAILABLE),
     {| circuitBreaker := recordFailure now (circuitBreaker w);
        ledger := ledger w;
        outbound := outbound w ++ [GetAccessToken] |}).
Proof.
  unfold authFails, getAccessToken. run.
  destruct (authReply gw) as [[[token|]]|]; simpl; try done.
  by destruct (Js.truthy token).
Qed.

Lemma getAccessToken_succeeds now gw w :
  authFails gw = false ->
  exists token,
    getAccessToken now gw w
    = (Return token,
       {| circuitBreaker := circuitBreaker w; ledger := ledger w;
          outbound := outbound w ++ [GetAccessToken] |}).
Proof.
  unfold authFails, getAccessToken. run.
  destruct (authReply gw) as [[[token|]]|]; simpl; try done.
  destruct (Js.truthy token); [|done]. by exists token.
Qed.

(** An initiation whose token exchange fails, once the guard let it in
    and left the breaker as [cb]. *)
Lemma initiateStkPush_auth_fails now gw request w w1 :
  checkCircuitBreaker now w = (Return tt, w1) ->
  authFails gw = true ->
  initiateStkPush now gw request w
  = (Throw (HttpException "Failed to authenticate with M-Pesa API"
              SERVICE_UNAVAILABLE),
     {| circuitBreaker :=
          recordFailure now (recordFailure now (circuitBreaker w1));
        ledger := ledger w1;
        outbound := outbound w1 ++ [GetAccessToken] |}).
Proof.
  intros Hgate Hauth. unfold initiateStkPush.
  unfold try at 1. unfold bind at 1. rewrite Hgate.
  unfold bind at 1. rewrite (getAccessToken_fails _ _ _ Hauth).
  reflexivity.
Qed.

(** C10. An initiation that the guard lets in and whose token exchange
    fails raises the failures counter by exactly two: by one inside
    [getAccessToken] and by one more in the handler of
    [initiateStkPush].  Hence, from a closed breaker with a counter of
    0, two such initiations leave it CLOSED at 4 and the third opens
    it. *)
Theorem auth_failure_counts_twice now gw request w a1 a2 a3 w0 :
  authFails gw = true ->
  fst (checkCircuitBreaker now w) = Return tt ->
  state (circuitBreaker w0) = CLOSED ->
  failures (circuitBreaker w0) = 0%nat ->
  authFails (at_gateway a1) = true ->
  authFails (at_gateway a2) = true ->
  authFails (at_gateway a3) = true ->
  failures (circuitBreaker (snd (getAccessToken now gw w)))
  = S (failures (circuitBreaker w)) /\
  failures (circuitBreaker (snd (initiateStkPush now gw request w)))
  = S (S (failures (circuitBreaker w))) /\
  (let cb2 := circuitBreaker (snd (runInitiations [a1; a2] w0)) in
   state cb2 = CLOSED /\ failures cb2 = 4%nat) /\
  (let cb3 := circuitBreaker (snd (runInitiations [a1; a2; a3] w0)) in
   state cb3 = OPEN /\ failures cb3 = 6%nat).
Proof.
  intros Hauth Hgate Hs0 Hf0 H1 H2 H3.
  split; [|split].
  - rewrite (getAccessToken_fails _ _ _ Hauth). simpl.
    apply recordFailure_failures.
  - destruct (checkCircuitBreaker_cases now w) as [E|[E|[_ E]]];
      rewrite E in Hgate; try discriminate;
      rewrite (initiateStkPush_auth_fails _ _ _ _ _ E Hauth); simpl;
      by rewrite !recordFailure_failures.
  - assert (Hstep : forall a w1,
               authFails (at_gateway a) = true ->
               state (circuitBreaker w1) = CLOSED ->
               circuitBreaker (snd (initiate a w1))
               = recordFailure (at_now a)
                   (recordFailure (at_now a) (circuitBreaker w1))).
    { intros a w1 Ha Hc. unfold initiate.
      rewrite (initiateStkPush_auth_fails _ _ _ w1 w1); [done| |done].
      apply checkCircuitBreaker_not_open. congruence. }
    assert (Hbelow : forall t cb,
               (S (S (failures cb)) < maxFailures)%nat ->
               state (recordFailure t (recordFailure t cb)) = state cb).
    { intros t cb Hlt.
      destruct (recordFailure_below t (recordFailure t cb)) as [-> _].
      - rewrite recordFailure_failures. lia.
      - apply recordFailure_below. lia. }
    simpl.
    destruct (initiate a1 w0) as [r1 w1] eqn:E1.
    pose proof (Hstep a1 w0 H1 Hs0) as C1. rewrite E1 in C1. simpl in C1.
    assert (Hf1 : failures (circuitBreaker w1) = 2%nat)
      by (rewrite C1, !recordFailure_failures; lia).
    assert (Hs1 : state (circuitBreaker w1) = CLOSED)
      by (rewrite C1, Hbelow; [done | unfold maxFailures; lia]).
    destruct (initiate a2 w1) as [r2 w2] eqn:E2.
    pose proof (Hstep a2 w1 H2 Hs1) as C2. rewrite E2 in C2. simpl in C2.
    assert (Hf2 : failures (circuitBreaker w2) = 4%nat)
      by (rewrite C2, !recordFailure_failures; lia).
    assert (Hs2 : state (circuitBreaker w2) = CLOSED)
      by (rewrite C2, Hbelow; [done | unfold maxFailures; lia]).
    destruct (initiate a3 w2) as [r3 w3] eqn:E3.
    pose proof (Hstep a3 w2 H3 Hs2) as C3. rewrite E3 in C3. simpl in C3.
    simpl. split; [done|].
    rewrite C3. split.
    + apply recordFailure_opens. rewrite recordFailure_failures.
      unfold maxFailures. lia.
    + rewrite !recordFailure_failures. lia.
Qed.

Lemma auth_failure_counts_twice_witness :
  failures (circuitBreaker
              (snd (initiateStkPush 1000 downGateway (request "0712345678")
                      freshWorld))) = 2%nat
  /\ state (circuitBreaker
              (snd (runInitiations
                      [ {| at_now := 1; at_gateway := downGateway;
                           at_request := request "0712345678" |};
                        {| at_now := 2; at_gateway := downGateway;
                           at_request := request "0712345678" |};
                        {| at_now := 3; at_gateway := downGateway;
                           at_request := request "0712345678" |} ]
                      freshWorld))) = OPEN.
Proof.
  pose proof
    (auth_failure_counts_twice 1000 downGateway (request "0712345678")
       freshWorld
       {| at_now := 1; at_gateway := downGateway;
          at_request := request "0712345678" |}
       {| at_now := 2; at_gateway := downGateway;
          at_request := request "0712345678" |}
       {| at_now := 3; at_gateway := downGateway;
          at_request := request "0712345678" |}
       freshWorld
       eq_refl eq_refl eq_refl eq_refl eq_refl eq_refl eq_refl) as H.
  split; [apply H | apply H].
Defined.

(** A successful initiation while the breaker is CLOSED leaves the
    breaker as it was, failures counter included. *)
Lemma initiateStkPush_success_closed now gw request w phone data :
  state (circuitBreaker w) = CLOSED ->
  authFails gw = false ->
  MpesaUtils.formatPhoneNumber (dto_phoneNumber request) = Return phone ->
  stkPushReply gw = Return data ->
  ResponseCode data = "0" ->
  fst (initiateStkPush now gw request w) = Return data /\
  circuitBreaker (snd (initiateStkPush now gw request w)) = circuitBreaker w.
Proof.
  intros Hs Hauth Hphone Hreply Hcode.
  destruct (initiateStkPush now gw request w) as [r w'] eqn:E. simpl.
  unfold initiateStkPush in E. unfold try at 1 in E. unfold bind at 1 in E.
  rewrite checkCircuitBreaker_not_open in E by congruence.
  unfold bind at 1 in E.
  destruct (getAccessToken_succeeds now gw w Hauth) as [token Htoken].
  rewrite Htoken in E. unfold bind at 1, lift at 1 in E. rewrite Hphone in E.
  run. rewrite Hreply, Hcode in E. simpl in E.
  unfold saveTransaction, create, recordSuccess in E. run. rewrite Hs in E.
  destruct (_ || _) in E; by injection E as <- <-.
Qed.

(** *** Rejected phone numbers *)

(** An initiation that the guard lets in (leaving the world [w1]),
    whose token exchange succeeds and whose phone number is rejected. *)
Lemma initiateStkPush_invalid_phone now gw request w w1 :
  checkCircuitBreaker now w = (Return tt, w1) ->
  authFails gw = false ->
  MpesaUtils.formatPhoneNumber (dto_phoneNumber request)
  = Throw (Error ("Invalid phone number format: " ++ dto_phoneNumber request)) ->
  initiateStkPush now gw request w
  = (Throw (HttpException "Failed to initiate STK Push" INTERNAL_SERVER_ERROR),
     {| circuitBreaker := recordFailure now (circuitBreaker w1);
        ledger := ledger w1;
        outbound := outbound w1 ++ [GetAccessToken] |}).
Proof.
  intros Hgate Hauth Hphone. unfold initiateStkPush.
  unfold try at 1. unfold bind at 1. rewrite Hgate.
  unfold bind at 1.
  destruct (getAccessToken_succeeds now gw w1 Hauth) as [token ->].
  unfold bind at 1, lift at 1. rewrite Hphone. reflexivity.
Qed.

(** C2, as stated, fails: with a healthy gateway and a fresh breaker,
    the initiation for the number 12345 is stopped at the phone number
    and leaves the failures counter at 1. *)
Lemma invalid_phone_charges_breaker : ~ invalidPhoneLeavesBreakerAlone.
Proof.
  intros H.
  specialize (H 1000 okGateway (request "12345") freshWorld).
  assert (Hfails : failsWithInvalidPhoneNumber 1000 okGateway
                     (request "12345") freshWorld)
    by (repeat split; reflexivity).
  specialize (H Hfails).
  apply (f_equal failures) in H. vm_compute in H. discriminate.
Qed.

(** C2, amended.  An initiation stopped at the phone number is recorded
    as one breaker failure by the handler of [initiateStkPush]: the
    counter rises by exactly one and [lastFailureTime] becomes the time
    of the attempt; the breaker opens, with [nextAttemptTime] 60 s
    later, when the counter reaches [maxFailures], and otherwise keeps
    the state and deadline the guard left.  The caller gets the
    internal-error exception, only the token request went out and the
    ledger is untouched. *)
Theorem invalid_phone_records_one_failure now gw request w :
  failsWithInvalidPhoneNumber now gw request w ->
  let cb1 := circuitBreaker (snd (checkCircuitBreaker now w)) in
  let w' := snd (initiateStkPush now gw request w) in
  fst (initiateStkPush now gw request w)
  = Throw (HttpException "Failed to initiate STK Push" INTERNAL_SERVER_ERROR) /\
  circuitBreaker w' = recordFailure now cb1 /\
  failures (circuitBreaker w') = S (failures (circuitBreaker w)) /\
  lastFailureTime (circuitBreaker w') = Some now /\
  ((maxFailures <= S (failures (circuitBreaker w)))%nat ->
     state (circuitBreaker w') = OPEN /\
     nextAttemptTime (circuitBreaker w') = Some (now + resetTimeout)) /\
  ((S (failures (circuitBreaker w)) < maxFailures)%nat ->
     state (circuitBreaker w') = state cb1 /\
     nextAttemptTime (circuitBreaker w') = nextAttemptTime (circuitBreaker w)) /\
  ledger w' = ledger w /\
  outbound w' = (outbound w ++ [GetAccessToken])%list.
Proof.
  intros (Hgate & Hauth & Hphone). simpl.
  assert (Hw1 : exists w1,
             checkCircuitBreaker now w = (Return tt, w1) /\
             failures (circuitBreaker w1) = failures (circuitBreaker w) /\
             nextAttemptTime (circuitBreaker w1)
             = nextAttemptTime (circuitBreaker w) /\
             ledger w1 = ledger w /\ outbound w1 = outbound w).
  { destruct (checkCircuitBreaker_cases now w) as [E|[E|[_ E]]];
      rewrite E in Hgate; try discriminate; rewrite E; eauto 10. }
  destruct Hw1 as (w1 & E & Hf & Hn & Hl & Ho).
  rewrite (initiateStkPush_invalid_phone _ _ _ _ _ E Hauth Hphone).
  rewrite E. simpl. rewrite Hl, Ho, <- Hf, <- Hn.
  repeat split; auto using recordFailure_failures,
    recordFailure_lastFailureTime;
    intros; by (apply recordFailure_opens || apply recordFailure_below).
Qed.

Lemma invalid_phone_records_one_failure_witness :
  failsWithInvalidPhoneNumber 1000 okGateway (request "12345") freshWorld /\
  failures (circuitBreaker
              (snd (initiateStkPush 1000 okGateway (request "12345")
                      freshWorld))) = 1%nat.
Proof.
  assert (Hfails : failsWithInvalidPhoneNumber 1000 okGateway
                     (request "12345") freshWorld)
    by (repeat split; reflexivity).
  split; [exact Hfails|].
  apply (invalid_phone_records_one_failure 1000 okGateway (request "12345")
           freshWorld Hfails).
Defined.

(** *** Opening, the open window and the probe *)

Lemma recordFailures_snoc times t cb :
  recordFailures (times ++ [t]) cb = recordFailure t (recordFailures times cb).
Proof. unfold recordFailures. by rewrite fold_left_app. Qed.

Lemma recordFailures_failures times cb :
  failures (recordFailures times cb) = (length times + failures cb)%nat.
Proof.
  revert cb. induction times as [|t times IH]; intros cb; [done|].
  simpl. change (fold_left _ times ?c) with (recordFailures times c).
  rewrite IH, recordFailure_failures. lia.
Qed.

Lemma recordFailure_invariant now cb :
  breakerInvariant cb -> breakerInvariant (recordFailure now cb).
Proof.
  intros [Hc Ho]. unfold breakerInvariant, recordFailure.
  destruct (Nat.leb_spec maxFailures (S (failures cb))); simpl.
  - split; [lia | eauto].
  - split; [intros Hs; specialize (Hc Hs); lia | auto].
Qed.

(** An attempt made while the breaker is OPEN and before its current
    deadline: it is turned away, and the handler of [initiateStkPush]
    records that as one more failure. *)
Lemma initiateStkPush_rejected now gw request w deadline :
  state (circuitBreaker w) = OPEN ->
  nextAttemptTime (circuitBreaker w) = Some deadline ->
  now < deadline ->
  initiateStkPush now gw request w
  = (Throw serviceUnavailable,
     withBreaker (recordFailure now (circuitBreaker w)) w).
Proof.
  intros Hs Hd Hlt. unfold initiateStkPush.
  unfold try at 1. unfold bind at 1.
  by rewrite (checkCircuitBreaker_rejects _ _ _ Hs Hd Hlt).
Qed.

(** The gateway is reached as soon as the guard lets a call in. *)
Lemma initiateStkPush_calls_gateway now gw request w w1 :
  checkCircuitBreaker now w = (Return tt, w1) ->
  exists rest,
    outbound (snd (initiateStkPush now gw request w))
    = (outbound w1 ++ GetAccessToken :: rest)%list.
Proof.
  intros Hgate. unfold initiateStkPush.
  unfold try at 1. unfold bind at 1. rewrite Hgate. unfold bind at 1.
  destruct (authFails gw) eqn:Hauth.
  - rewrite (getAccessToken_fails _ _ _ Hauth). by exists [].
  - destruct (getAccessToken_succeeds now gw w1 Hauth) as [token ->].
    unfold bind at 1, lift at 1.
    destruct (MpesaUtils.formatPhoneNumber _) as [phone|e];
      [|run; destruct (instanceofHttpException e); by exists []].
    run. destruct (stkPushReply gw) as [data|e]; simpl.
    + destruct (String.eqb (ResponseCode data) "0"); simpl.
      * unfold saveTransaction, create. run.
        destruct (_ || _); simpl; rewrite <- app_assoc; eauto.
      * rewrite <- app_assoc. eauto.
    + destruct (instanceofHttpException e); simpl;
        rewrite <- app_assoc; eauto.
Qed.

(** Attempts made one after the other inside the window that opened at
    [t0] are all turned away, and nothing reaches the gateway or the
    ledger. *)
Lemma runInitiations_inside_window t0 attempts : forall w deadline,
  (maxFailures <= failures (circuitBreaker w))%nat ->
  state (circuitBreaker w) = OPEN ->
  nextAttemptTime (circuitBreaker w) = Some deadline ->
  t0 + resetTimeout <= deadline ->
  Forall (fun a => t0 <= at_now a < t0 + resetTimeout) attempts ->
  Forall (fun r => r = Throw serviceUnavailable)
    (fst (runInitiations attempts w)) /\
  outbound (snd (runInitiations attempts w)) = outbound w /\
  ledger (snd (runInitiations attempts w)) = ledger w /\
  state (circuitBreaker (snd (runInitiations attempts w))) = OPEN.
Proof.
  induction attempts as [|a attempts IH]; intros w deadline Hf Hs Hd Hle Hall.
  - simpl. auto.
  - inversion Hall as [|? ? Ha Hrest]; subst. simpl. unfold initiate.
    rewrite (initiateStkPush_rejected _ _ _ _ deadline Hs Hd); [|lia].
    destruct (recordFailure_opens (at_now a) (circuitBreaker w)) as [Hs' Hd'];
      [lia|].
    specialize (IH (withBreaker (recordFailure (at_now a) (circuitBreaker w)) w)
                  (at_now a + resetTimeout)).
    destruct (runInitiations attempts _) as [rs w2]. simpl in *.
    rewrite recordFailure_failures in IH.
    destruct IH as (Hr & Ho & Hl & Hst); auto; try lia.
Qed.

Lemma recordSuccess_invariant cb :
  breakerInvariant cb -> breakerInvariant (recordSuccess cb).
Proof.
  intros Hinv. unfold recordSuccess.
  destruct (state cb) eqn:Hs; [exact Hinv | exact Hinv |].
  split; simpl; [intros H; by destruct H | intros H; discriminate H].
Qed.

Lemma halfOpened_invariant cb :
  state cb = OPEN -> breakerInvariant cb -> breakerInvariant (halfOpened cb).
Proof.
  intros Hs [Hc Ho]. split; simpl; [|done].
  intros _. apply Hc. congruence.
Qed.

(** The breaker an initiation leaves behind is the one it found,
    possibly moved to HALF_OPEN by the guard, with one or two failures
    recorded or with a success recorded: what holds of all of these
    holds of it. *)
Lemma initiateStkPush_breaker (P : CircuitBreakerStatus -> Prop)
  now gw request w :
  (forall cb1,
     cb1 = circuitBreaker w \/
     (state (circuitBreaker w) = OPEN /\ cb1 = halfOpened (circuitBreaker w)) ->
     P (recordFailure now cb1) /\
     P (recordFailure now (recordFailure now cb1)) /\
     P (recordSuccess cb1)) ->
  P (circuitBreaker (snd (initiateStkPush now gw request w))).
Proof.
  intros HP.
  assert (Hin : forall w1,
             checkCircuitBreaker now w = (Return tt, w1) ->
             P (recordFailure now (circuitBreaker w1)) /\
             P (recordFailure now (recordFailure now (circuitBreaker w1))) /\
             P (recordSuccess (circuitBreaker w1)) ->
             P (circuitBreaker (snd (initiateStkPush now gw request w)))).
  { intros w1 Hgate (P1 & P2 & P3). unfold initiateStkPush.
    unfold try at 1. unfold bind at 1. rewrite Hgate. unfold bind at 1.
    destruct (authFails gw) eqn:Hauth.
    - by rewrite (getAccessToken_fails _ _ _ Hauth).
    - destruct (getAccessToken_succeeds now gw w1 Hauth) as [token ->].
      unfold bind at 1, lift at 1.
      destruct (MpesaUtils.formatPhoneNumber _) as [phone|e];
        [|run; by destruct (instanceofHttpException e)].
      run. destruct (stkPushReply gw) as [data|e]; simpl.
      + destruct (String.eqb (ResponseCode data) "0"); simpl; [|done].
        unfold saveTransaction, create. run.
        by destruct (_ || _).
      + by destruct (instanceofHttpException e). }
  destruct (checkCircuitBreaker_cases now w) as [E|[E|[Hs E]]].
  - unfold initiateStkPush. unfold try at 1. unfold bind at 1. rewrite E.
    apply HP. auto.
  - apply (Hin _ E). apply HP. auto.
  - apply (Hin _ E). apply HP. auto.
Qed.

(** Every initiation keeps the invariant of the breaker, which holds of
    the breaker the service starts with. *)
Lemma initiateStkPush_invariant now gw request w :
  breakerInvariant (circuitBreaker w) ->
  breakerInvariant (circuitBreaker (snd (initiateStkPush now gw request w))).
Proof.
  intros Hinv. apply initiateStkPush_breaker. intros cb1 Hcb1.
  assert (Hinv1 : breakerInvariant cb1).
  { destruct Hcb1 as [->|[Hs ->]]; [done|]. by apply halfOpened_invariant. }
  auto using recordFailure_invariant, recordSuccess_invariant.
Qed.

Lemma initialBreaker_invariant : breakerInvariant initialBreaker.
Proof. split; [done | discriminate]. Qed.

(** Hence it holds after any run of initiations from a fresh service. *)
Lemma runInitiations_invariant attempts : forall w,
  breakerInvariant (circuitBreaker w) ->
  breakerInvariant (circuitBreaker (snd (runInitiations attempts w))).
Proof.
  induction attempts as [|a attempts IH]; intros w Hinv; [done|].
  simpl. pose proof (initiateStkPush_invariant (at_now a) (at_gateway a)
                       (at_request a) w Hinv) as Hstep.
  unfold initiate. destruct (initiateStkPush _ _ _ w) as [r w1].
  specialize (IH w1 Hstep). by destruct (runInitiations attempts w1).
Qed.

(** The open window is measured from the last attempt that was turned
    away, not from the opening: the breaker opens at time 0 with a
    deadline of 60000, an attempt at 30000 is turned away and moves the
    deadline to 90000, so the attempt at 60000 is turned away too. *)
Lemma window_follows_last_rejection : ~ probeAtOpeningDeadline.
Proof.
  intros H.
  specialize (H 0 [ {| at_now := 30000; at_gateway := okGateway;
                       at_request := request "0712345678" |} ]
                {| at_now := 60000; at_gateway := okGateway;
                   at_request := request "0712345678" |}
                openedAtZero).
  assert (Hinv : breakerInvariant (circuitBreaker openedAtZero)).
  { split; intros _; vm_compute; [lia | eauto]. }
  specialize (H Hinv eq_refl eq_refl).
  assert (Hearlier :
            Forall (fun e => 0 <= at_now e < 0 + resetTimeout)
              [ {| at_now := 30000; at_gateway := okGateway;
                   at_request := request "0712345678" |} ]).
  { repeat constructor; vm_compute; congruence. }
  specialize (H Hearlier).
  assert (Hlate : 0 + resetTimeout <= 60000) by (vm_compute; congruence).
  specialize (H Hlate). vm_compute in H. discriminate.
Qed.



End Breaker.

(** ** Phone normalisation *)

Section Phone.

Import Js.

Lemma allDigits_replaceNonDigits s : allDigits (replaceNonDigits s) = true.
Proof.
  induction s as [|c s IH]; [done|]. simpl.
  destruct (isDigit c) eqn:Hc; [|done]. simpl. by rewrite Hc.
Qed.

Lemma allDigits_app s t :
  allDigits (s ++ t) = allDigits s && allDigits t.
Proof.
  induction s as [|c s IH]; [done|]. simpl. by rewrite IH, andb_assoc.
Qed.

Lemma substring_all s : String.substring 0 (String.length s) s = s.
Proof. induction s as [|c s IH]; [done|]. simpl. by rewrite IH. Qed.

Lemma substringFrom_tail c s : substringFrom 1 (String c s) = s.
Proof.
  unfold substringFrom. simpl. rewrite Nat.sub_0_r. apply substring_all.
Qed.

(** The digits of a number never start with a plus sign: the third
    test of [formatPhoneNumber] never holds. *)
Lemma plus_prefix_unreachable s :
  startsWith (replaceNonDigits s) "+254" = false.
Proof.
  pose proof (allDigits_replaceNonDigits s) as H.
  destruct (replaceNonDigits s) as [|c d]; [done|].
  unfold startsWith.
  change (String.prefix "+254" (String c d))
    with (if ascii_dec "+" c then String.prefix "254" d else false).
  destruct (ascii_dec "+" c) as [<-|]; [|done].
  by vm_compute in H.
Qed.

Lemma startsWith_254 d : startsWith ("254" ++ d) "254" = true.
Proof. by destruct d. Qed.

Lemma length_254 d :
  String.length ("254" ++ d) = S (S (S (String.length d))).
Proof. reflexivity. Qed.

Lemma len_length s : len s = Z.of_nat (String.length s).
Proof. done. Qed.



End Phone.

(** ** Callback reconciliation *)

Section Reconciliation.

Implicit Types (w : World) (now : Z) (cb : Callback.StkCallback).

(** Whatever [parseTransactionDate] is given, it returns, and what it
    returns is a valid date. *)
Lemma parseTransactionDate_valid now dateStr :
  exists t, MpesaUtils.parseTransactionDate now dateStr = Return (Some t).
Proof.
  unfold MpesaUtils.parseTransactionDate. cbv zeta.
  assert (Hguard : forall d : Js.Date,
             exists t, tryCatch (_ <- Js.toISOString d ;; Return d)%completion
                         (fun _ => Return (Some now)) = Return (Some t)).
  { intros [t|]; simpl; eauto. }
  repeat match goal with
         | |- context [if ?b then _ else _] => destruct b
         end; simpl tryCatch; eauto.
Qed.

Lemma parseItem_datesValid now m item :
  datesValid m ->
  match MpesaUtils.parseItem now m item with
  | Return m' => datesValid m'
  | Throw _ => True
  end.
Proof.
  intros Hm. unfold MpesaUtils.parseItem. cbv zeta.
  destruct (parseTransactionDate_valid now
              (Js.trim (Js.toString (MpesaUtils.Value item)))) as [t Ht].
  rewrite Ht.
  repeat match goal with
         | |- context [if ?b then _ else _] => destruct b
         end; simpl; try exact Hm.
  intros d [= <-]. eauto.
Qed.

Lemma parseCallbackMetadata_datesValid now items :
  datesValid (MpesaUtils.parseCallbackMetadata now items).
Proof.
  unfold MpesaUtils.parseCallbackMetadata.
  assert (H0 : datesValid MpesaUtils.emptyMetadata) by (intros d [=]).
  revert H0. generalize MpesaUtils.emptyMetadata.
  induction items as [|item items IH]; intros m Hm; [done|].
  simpl. apply IH.
  pose proof (parseItem_datesValid now m item Hm) as H.
  by destruct (MpesaUtils.parseItem now m item).
Qed.

(** The update is always computed, and its status is the outcome the
    result code stands for. *)
Lemma buildUpdateData_returns now cb :
  exists u,
    buildUpdateData now cb = Return u /\
    u_status u = outcomeOf (Callback.ResultCode cb) /\
    u_resultCode u = Callback.ResultCode cb /\
    u_resultDesc u = (if Js.truthy (Callback.ResultDesc cb)
                      then Some (Callback.ResultDesc cb) else None) /\
    u_updatedAt u = now.
Proof.
  unfold buildUpdateData, outcomeOf. cbv zeta.
  destruct (Callback.ResultCode cb =? 0) eqn:H0; [|eauto 10].
  destruct (Callback.CallbackMetadata cb) as [[[items|]]|]; [|eauto 10..].
  pose proof (parseCallbackMetadata_datesValid now items) as Hvalid.
  destruct (MpesaUtils.TransactionDate _) as [d|] eqn:Hd.
  - destruct (Hvalid d Hd) as [t ->]. simpl. eauto 10.
  - simpl. eauto 10.
Qed.

(** A callback for a known transaction writes the computed update
    under its id, whatever the record holds. *)
Lemma handleCallback_known now cb w t u :
  ledger w !! Callback.CheckoutRequestID cb = Some t ->
  buildUpdateData now cb = Return u ->
  handleCallback now (payload cb) w
  = (Return tt,
     {| circuitBreaker := circuitBreaker w;
        ledger := <[Callback.CheckoutRequestID cb := applyUpdate u t]> (ledger w);
        outbound := outbound w |}).
Proof.
  intros Ht Hu. unfold handleCallback, payload, findUnique, update. run.
  by rewrite Ht, Hu, Ht.
Qed.

(** C6. A callback whose CheckoutRequestID matches no stored
    transaction throws the not-found exception and leaves the whole
    world, the ledger in particular, exactly as it was. *)
Theorem handleCallback_unknown_transaction now cb w :
  ledger w !! Callback.CheckoutRequestID cb = None ->
  handleCallback now (payload cb) w
  = (Throw (HttpException
              ("Transaction not found for CheckoutRequestID: "
               ++ Callback.CheckoutRequestID cb) NOT_FOUND),
     w).
Proof.
  intros Hnone. unfold handleCallback, payload, findUnique. run.
  by rewrite Hnone.
Qed.

Lemma handleCallback_unknown_transaction_witness :
  handleCallback 1748768400000 (payload strayCallback)
    (worldWith pendingTransaction)
  = (Throw (HttpException
              "Transaction not found for CheckoutRequestID: ws_CO_9"
              NOT_FOUND),
     worldWith pendingTransaction).
Proof.
  apply (handleCallback_unknown_transaction 1748768400000 strayCallback
           (worldWith pendingTransaction)).
  reflexivity.
Defined.

(** The update of a successful callback that carries an item list. *)
Lemma buildUpdateData_success_items now cb items :
  Callback.ResultCode cb = 0 ->
  Callback.CallbackMetadata cb = Some {| Callback.Item := Some items |} ->
  let metadata := MpesaUtils.parseCallbackMetadata now items in
  exists u,
    buildUpdateData now cb = Return u /\
    u_mpesaReceiptNumber u
    = match MpesaUtils.MpesaReceiptNumber metadata with
      | Some r => if Js.truthy r then Some r else None
      | None => None
      end /\
    u_transactionDate u
    = Some match MpesaUtils.TransactionDate metadata with
           | Some d => d
           | None => Some now
           end.
Proof.
  intros H0 Hitems. unfold buildUpdateData. cbv zeta.
  rewrite H0, Hitems. simpl.
  pose proof (parseCallbackMetadata_datesValid now items) as Hvalid.
  destruct (MpesaUtils.TransactionDate _) as [d|] eqn:Hd.
  - destruct (Hvalid d Hd) as [t ->]. simpl. eauto.
  - simpl. eauto.
Qed.

Lemma truthy_nonempty r : r <> "" -> Js.truthy r = true.
Proof.
  intros H. unfold Js.truthy. destruct (String.eqb_spec r ""); done.
Qed.

(** C5. A callback for a known transaction is processed to the end and
    leaves under its id a record whose status follows from the result
    code alone: 0 gives SUCCESS, 1032 CANCELLED, 1037 TIMEOUT and every
    other code FAILED; the result code itself is stored.  On success
    with an item list, a non-empty receipt number and the transaction
    date found by the metadata parser are the ones stored. *)
Theorem handleCallback_status_from_result_code now cb w t :
  ledger w !! Callback.CheckoutRequestID cb = Some t ->
  exists t',
    fst (handleCallback now (payload cb) w) = Return tt /\
    ledger (snd (handleCallback now (payload cb) w))
      !! Callback.CheckoutRequestID cb = Some t' /\
    (Callback.ResultCode cb = 0 -> status t' = SUCCESS) /\
    (Callback.ResultCode cb = 1032 -> status t' = CANCELLED) /\
    (Callback.ResultCode cb = 1037 -> status t' = TIMEOUT) /\
    (Callback.ResultCode cb <> 0 -> Callback.ResultCode cb <> 1032 ->
     Callback.ResultCode cb <> 1037 -> status t' = FAILED) /\
    resultCode t' = Some (Callback.ResultCode cb) /\
    (Callback.ResultCode cb = 0 ->
     forall items,
       Callback.CallbackMetadata cb = Some {| Callback.Item := Some items |} ->
       let metadata := MpesaUtils.parseCallbackMetadata now items in
       (forall r, MpesaUtils.MpesaReceiptNumber metadata = Some r ->
                  r <> "" -> mpesaReceiptNumber t' = Some r) /\
       (forall d, MpesaUtils.TransactionDate metadata = Some d ->
                  transactionDate t' = Some d)).
Proof.
  intros Ht.
  destruct (buildUpdateData_returns now cb) as (u & Hu & Hst & Hrc & _).
  exists (applyUpdate u t).
  rewrite (handleCallback_known _ _ _ _ _ Ht Hu). simpl.
  rewrite lookup_insert_eq, Hst, Hrc. unfold outcomeOf.
  split; [done|]. split; [done|].
  split; [by intros ->|]. split; [by intros ->|]. split; [by intros ->|].
  split.
  { intros H0 H1 H2.
    destruct (Z.eqb_spec (Callback.ResultCode cb) 0); [done|].
    destruct (Z.eqb_spec (Callback.ResultCode cb) 1032); [done|].
    by destruct (Z.eqb_spec (Callback.ResultCode cb) 1037). }
  split; [done|].
  intros H0 items Hitems.
  destruct (buildUpdateData_success_items now cb items H0 Hitems)
    as (u' & Hu' & Hr & Hd).
  rewrite Hu in Hu'. injection Hu' as <-.
  cbv zeta in *. rewrite Hr, Hd. split.
  - intros r -> Hne. by rewrite (truthy_nonempty r Hne).
  - by intros d ->.
Qed.

Lemma handleCallback_status_from_result_code_witness :
  exists t',
    ledger (snd (handleCallback 1748768401000 (payload successCallback)
                   (worldWith pendingTransaction)))
      !! "ws_CO_1" = Some t' /\
    status t' = SUCCESS /\
    mpesaReceiptNumber t' = Some "NLJ7RT61SV" /\
    transactionDate t' = Some (Some 1748768400000).
Proof.
  destruct (handleCallback_status_from_result_code 1748768401000
              successCallback (worldWith pendingTransaction)
              pendingTransaction eq_refl)
    as (t' & _ & Hl & H0 & _ & _ & _ & _ & Hmeta).
  exists t'. split; [exact Hl|]. split; [exact (H0 eq_refl)|].
  destruct (Hmeta eq_refl _ eq_refl) as [Hr Hd]. split.
  - apply Hr; [reflexivity | discriminate].
  - apply Hd. reflexivity.
Defined.

(** C1, as stated, fails: a transaction reconciled as SUCCESS becomes
    CANCELLED when a callback with result code 1032 arrives for it. *)
Lemma terminal_state_overwritten : ~ terminalStatesAreFinal.
Proof.
  intros H.
  destruct (H 1748768500000 cancelledCallback (worldWith paidTransaction)
              paidTransaction eq_refl eq_refl)
    as (t' & Hl & Hs & _).
  vm_compute in Hl. injection Hl as <-. discriminate Hs.
Qed.

(** C1, amended.  The write of [handleCallback] does not look at the
    stored status: for a known transaction, whatever its status was,
    the status, result code and result description after the callback
    are those of the callback, so the old status survives exactly when
    the result code stands for it.  Records under other ids are not
    touched, no record is added or removed, and the breaker is left
    alone. *)
Theorem handleCallback_overwrites_any_status now cb w t :
  ledger w !! Callback.CheckoutRequestID cb = Some t ->
  let w' := snd (handleCallback now (payload cb) w) in
  exists t',
    ledger w' !! Callback.CheckoutRequestID cb = Some t' /\
    status t' = outcomeOf (Callback.ResultCode cb) /\
    resultCode t' = Some (Callback.ResultCode cb) /\
    resultDesc t' = (if Js.truthy (Callback.ResultDesc cb)
                     then Some (Callback.ResultDesc cb) else None) /\
    (status t' = status t <-> status t = outcomeOf (Callback.ResultCode cb)) /\
    (forall id, id <> Callback.CheckoutRequestID cb ->
                ledger w' !! id = ledger w !! id) /\
    dom (ledger w') = dom (ledger w) /\
    circuitBreaker w' = circuitBreaker w.
Proof.
  intros Ht.
  destruct (buildUpdateData_returns now cb) as (u & Hu & Hst & Hrc & Hrd & _).
  exists (applyUpdate u t).
  rewrite (handleCallback_known _ _ _ _ _ Ht Hu). simpl.
  rewrite lookup_insert_eq, Hst, Hrc, Hrd.
  split; [done|]. split; [done|]. split; [done|]. split; [done|].
  split; [split; congruence|]. split.
  - intros id Hne. by rewrite lookup_insert_ne.
  - split; [|done]. apply dom_insert_lookup_L. by rewrite Ht.
Qed.

Lemma handleCallback_overwrites_any_status_witness :
  exists t',
    ledger (snd (handleCallback 1748768500000 (payload cancelledCallback)
                   (worldWith paidTransaction)))
      !! "ws_CO_1" = Some t' /\
    status t' = CANCELLED.
Proof.
  destruct (handleCallback_overwrites_any_status 1748768500000
              cancelledCallback (worldWith paidTransaction)
              paidTransaction eq_refl)
    as (t' & Hl & Hs & _).
  exists t'. split; [exact Hl | exact Hs].
Defined.

End Reconciliation.

(** ** Bounded retry *)

Section RetryProperties.

Context {T : Type}.
Variable operation : nat -> Completion T.
Variable random : nat -> Q.
Variable maxRetries : nat.
Variable baseDelay : Q.

(** [n] failing attempts in a row, none of them the last one allowed,
    each leave a call and a sleep in the trace and hand over to the
    next attempt. *)
Lemma retryLoop_failed_prefix n : forall remaining attempt,
  (forall i, (attempt <= i < attempt + n)%nat -> exists e, operation i = Throw e) ->
  (attempt + n <= maxRetries)%nat ->
  MpesaUtils.retryLoop operation random maxRetries baseDelay (n + remaining)%nat attempt
  = (fst (MpesaUtils.retryLoop operation random maxRetries baseDelay remaining (attempt + n)%nat),
     (failedAttempts baseDelay random attempt n
      ++ snd (MpesaUtils.retryLoop operation random maxRetries baseDelay remaining (attempt + n)%nat))%list).
Proof.
  induction n as [|n IH]; intros remaining attempt Hfail Hle.
  - rewrite Nat.add_0_r. simpl. by destruct (MpesaUtils.retryLoop operation random maxRetries baseDelay remaining attempt).
  - simpl. destruct (Hfail attempt) as [e ->]; [lia|].
    destruct (Nat.ltb_spec attempt maxRetries); [|lia].
    rewrite IH; [|intros i Hi; apply Hfail; lia | lia].
    replace (S attempt + n)%nat with (attempt + S n)%nat by lia.
    reflexivity.
Qed.


End RetryProperties.


Section JsFacts.
Import Js.

Lemma roundHalfEven_unit n : roundHalfEven n 1 = n.
Proof.
  unfold roundHalfEven. rewrite Z.div_1_r, Z.mod_1_r. reflexivity.
Qed.

Lemma floorLog2_unit a : 0 < a -> floorLog2 a 1 = Z.log2 a.
Proof.
  intros Ha. unfold floorLog2. simpl (Z.log2 1). rewrite Z.sub_0_r.
  pose proof (Z.log2_nonneg a) as Hk.
  destruct (Z.leb_spec 0 (Z.log2 a)); [|lia].
  pose proof (Z.log2_spec a Ha) as [Hlo _].
  destruct (Z.ltb_spec a (1 * 2 ^ Z.log2 a)); [lia|done].
Qed.

Lemma Qred_integer q z : (q == inject_Z z)%Q -> Qred q = inject_Z z.
Proof.
  intros H. rewrite <- (inject_Z_Qred z). by apply Qred_complete.
Qed.

Lemma roundToDouble_exact z :
  Z.abs z < 2 ^ 53 -> roundToDouble (inject_Z z) = ofZ z.
Proof.
  intros Hz. unfold roundToDouble, ofZ.
  change (Qnum (inject_Z z)) with z. change (Zpos (Qden (inject_Z z))) with 1.
  destruct (Z.eqb_spec z 0) as [->|Hnz]; [done|].
  cbv zeta.
  assert (Ha : 0 < Z.abs z) by lia.
  rewrite (floorLog2_unit _ Ha).
  set (k := Z.log2 (Z.abs z)).
  assert (Hk : 0 <= k <= 52).
  { split; [apply Z.log2_nonneg|].
    assert (k < 53); [|lia]. apply Z.log2_lt_pow2; [lia|done]. }
  rewrite Z.max_l by lia.
  destruct (Z.leb_spec 0 (k - 52)) as [H0|H0].
  - assert (k - 52 = 0) as -> by lia.
    rewrite roundHalfEven_unit. simpl (2 ^ 0). rewrite !Z.mul_1_r.
    simpl ((971 <? 0) || _). f_equal.
    destruct (Z.ltb_spec z 0); apply Qred_integer; unfold Qeq; simpl; lia.
  - rewrite roundHalfEven_unit.
    destruct (Z.ltb_spec 971 (k - 52)); [lia|].
    destruct (Z.eqb_spec (k - 52) 971); [lia|]. cbn [orb andb].
    f_equal.
    assert (Hp : 0 < 2 ^ (- (k - 52))) by (apply Z.pow_pos_nonneg; lia).
    destruct (Z.ltb_spec z 0); apply Qred_integer; unfold Qeq; simpl;
      rewrite Z2Pos.id by lia; lia.
Qed.

Lemma ltb_ofZ a b : ltb (ofZ a) (ofZ b) = (a <? b).
Proof.
  unfold ltb, ofZ, Qcompare. simpl. rewrite !Z.mul_1_r.
  unfold Z.ltb. by destruct (a ?= b).
Qed.

Lemma gtb_ofZ a b : gtb (ofZ a) (ofZ b) = (b <? a).
Proof. apply ltb_ofZ. Qed.

Lemma TimeClip_ofZ t :
  Z.abs t <= 8640000000000000 -> TimeClip (ofZ t) = Some t.
Proof.
  intros Ht. unfold TimeClip, ofZ.
  assert (H : Qle_bool (Qabs (inject_Z t)) (inject_Z 8640000000000000) = true).
  { apply Qle_bool_iff. unfold Qle, Qabs. simpl. lia. }
  rewrite H. simpl. by rewrite Z.quot_1_r.
Qed.

Lemma mul_ofZ a b :
  Z.abs (a * b) < 2 ^ 53 -> mul (ofZ a) (ofZ b) = ofZ (a * b).
Proof.
  intros H. unfold mul, ofZ.
  change (inject_Z a * inject_Z b)%Q with (Qmake (a * b) 1).
  by apply roundToDouble_exact.
Qed.

Lemma digitIn_digit c : isDigit c = true -> digitIn 10 c = Some (digitValue c).
Proof.
  intros H. unfold digitIn, hexDigitValue, digitValue. rewrite H.
  unfold isDigit in H. apply andb_prop in H as [H1 H2].
  apply Z.leb_le in H1, H2.
  destruct (Z.ltb_spec (code c - 48) 10); [done|lia].
Qed.

Lemma digitValue_range c : isDigit c = true -> 0 <= digitValue c <= 9.
Proof.
  unfold isDigit, digitValue. intros H. apply andb_prop in H as [H1 H2].
  apply Z.leb_le in H1, H2. lia.
Qed.

(** On a string of digits [readDigits] reads everything. *)
Lemma readDigits_allDigits s : forall count acc,
  allDigits s = true ->
  exists v, readDigits 10 s count acc = (count + len s, v, EmptyString) /\
            (0 <= acc -> acc * 10 ^ len s <= v < (acc + 1) * 10 ^ len s).
Proof.
  induction s as [|c s IH]; intros count acc H.
  - exists acc. split; [unfold len; simpl; f_equal; f_equal; lia|].
    unfold len. simpl. lia.
  - simpl in H. apply andb_prop in H as [Hc Hs]. simpl.
    rewrite (digitIn_digit _ Hc).
    destruct (IH (count + 1) (acc * 10 + digitValue c) Hs) as (v & -> & Hv).
    exists v. pose proof (digitValue_range c Hc).
    assert (Hlen : len (String c s) = len s + 1) by (unfold len; simpl; lia).
    rewrite Hlen. split; [f_equal; f_equal; lia|].
    intros Hacc. rewrite Z.pow_add_r by (unfold len; lia).
    assert (0 < 10 ^ len s) by (apply Z.pow_pos_nonneg; unfold len; lia).
    specialize (Hv ltac:(lia)). nia.
Qed.

Lemma readDigits_count_irrelevant radix s : forall count count' acc,
  snd (fst (readDigits radix s count acc))
  = snd (fst (readDigits radix s count' acc)) /\
  snd (readDigits radix s count acc) = snd (readDigits radix s count' acc).
Proof.
  induction s as [|c s IH]; intros count count' acc; [done|]. simpl.
  destruct (digitIn radix c); [apply IH | done].
Qed.

Lemma readDigits_decimalValue s count :
  allDigits s = true ->
  readDigits 10 s count 0 = (count + len s, decimalValue s, EmptyString).
Proof.
  intros H. destruct (readDigits_allDigits s count 0 H) as (v & Hv & _).
  rewrite Hv. unfold decimalValue.
  destruct (readDigits_count_irrelevant 10 s 0 count 0) as [Heq _].
  rewrite Heq, Hv. reflexivity.
Qed.

Lemma decimalValue_range s :
  allDigits s = true -> 0 <= decimalValue s < 10 ^ len s.
Proof.
  intros H. destruct (readDigits_allDigits s 0 0 H) as (v & Hv & Hr).
  unfold decimalValue. rewrite Hv. simpl. specialize (Hr ltac:(lia)). lia.
Qed.

(** A digit is none of the other characters the numeral readers test
    for. *)
Lemma digit_code c : isDigit c = true -> 48 <= code c <= 57.
Proof.
  unfold isDigit. intros H. apply andb_prop in H as [H1 H2].
  apply Z.leb_le in H1, H2. lia.
Qed.

Lemma digit_not_whiteSpace c : isDigit c = true -> isWhiteSpace c = false.
Proof.
  intros H%digit_code. unfold isWhiteSpace.
  destruct (Z.leb_spec 9 (code c)), (Z.leb_spec (code c) 13),
    (Z.eqb_spec (code c) 32), (Z.eqb_spec (code c) 160); simpl; lia.
Qed.

Lemma digit_not_ascii n c :
  isDigit c = true -> (n < 48 \/ 57 < n)%nat -> isAscii n c = false.
Proof.
  intros H%digit_code Hn. unfold isAscii.
  destruct (Z.eqb_spec (code c) (Z.of_nat n)); [lia|done].
Qed.

Lemma readSign_digit c r :
  isDigit c = true -> readSign (String c r) = (1, String c r).
Proof.
  intros H. unfold readSign.
  by rewrite !(digit_not_ascii _ c H) by lia.
Qed.

Lemma stripRadixPrefix_digits lower upper s :
  allDigits s = true -> (57 < lower)%nat -> (57 < upper)%nat ->
  stripRadixPrefix lower upper s = None.
Proof.
  intros H Hl Hu. destruct s as [|z [|x r]]; try done.
  simpl in H. apply andb_prop in H as [_ H]. apply andb_prop in H as [Hx _].
  unfold stripRadixPrefix.
  rewrite !(digit_not_ascii _ x Hx) by lia. by rewrite andb_false_r.
Qed.

Lemma trimStart_digits s : allDigits s = true -> trimStart s = s.
Proof.
  destruct s as [|c r]; [done|]. simpl. intros H.
  apply andb_prop in H as [Hc _]. by rewrite (digit_not_whiteSpace c Hc).
Qed.

Lemma trimEnd_digits s : allDigits s = true -> trimEnd s = s.
Proof.
  induction s as [|c r IH]; [done|]. simpl. intros H.
  apply andb_prop in H as [Hc Hr]. rewrite (IH Hr).
  destruct r; [|done]. by rewrite (digit_not_whiteSpace c Hc).
Qed.

Lemma trim_digits s : allDigits s = true -> trim s = s.
Proof.
  intros H. unfold trim. rewrite (trimStart_digits s H).
  by apply trimEnd_digits.
Qed.

Lemma len_pos c r : 0 < len (String c r).
Proof. unfold len. simpl. lia. Qed.

(** [parseInt] on a non-empty string of digits is its decimal value. *)
Lemma parseInt_digits s :
  allDigits s = true -> s <> EmptyString -> decimalValue s < 2 ^ 53 ->
  parseInt s = ofZ (decimalValue s).
Proof.
  intros H Hne Hv. unfold parseInt.
  rewrite (trimStart_digits s H).
  destruct s as [|c r]; [done|].
  pose proof H as Hc. simpl in Hc. apply andb_prop in Hc as [Hc _].
  rewrite (readSign_digit c r Hc).
  rewrite (stripRadixPrefix_digits 120 88 _ H) by lia.
  rewrite (readDigits_decimalValue _ 0 H).
  pose proof (len_pos c r).
  destruct (Z.eqb_spec (0 + len (String c r)) 0); [lia|].
  replace (1 * decimalValue (String c r)) with (decimalValue (String c r))
    by lia.
  apply roundToDouble_exact.
  pose proof (decimalValue_range _ H). lia.
Qed.

Lemma scale10_unit v : (inject_Z 1 * scale10 v (- 0))%Q = inject_Z v.
Proof.
  unfold scale10, Qmult, inject_Z. simpl. f_equal. lia.
Qed.

(** [Number] on a non-empty string of digits is its decimal value. *)
Lemma StringToNumber_digits s :
  allDigits s = true -> s <> EmptyString -> decimalValue s < 2 ^ 53 ->
  StringToNumber s = ofZ (decimalValue s).
Proof.
  intros H Hne Hv. unfold StringToNumber.
  rewrite (trim_digits s H). cbv zeta.
  destruct s as [|c r]; [done|].
  pose proof H as Hc. simpl in Hc. apply andb_prop in Hc as [Hc _].
  change (String.eqb (String c r) EmptyString) with false. cbv iota.
  rewrite !(stripRadixPrefix_digits _ _ _ H) by lia.
  rewrite (readSign_digit c r Hc).
  assert (Hinf : String.eqb (String c r) "Infinity" = false).
  { change (String.eqb (String c r) "Infinity")
      with (Ascii.eqb c "I" && String.eqb r "nfinity").
    destruct (Ascii.eqb_spec c "I") as [->|]; [by vm_compute in Hc | done]. }
  rewrite Hinf. unfold unsignedDecimal.
  rewrite (readDigits_decimalValue _ 0 H).
  pose proof (len_pos c r).
  destruct (Z.eqb_spec (0 + len (String c r) + 0) 0); [lia|].
  rewrite scale10_unit.
  apply roundToDouble_exact.
  pose proof (decimalValue_range _ H). lia.
Qed.

(** What [new Date] makes of the string [parseTransactionDate] builds
    from six fields of the right widths. *)
Lemma Date_parse_iso (y mo d h mi se : string) :
  String.length y = 4%nat -> String.length mo = 2%nat ->
  String.length d = 2%nat -> String.length h = 2%nat ->
  String.length mi = 2%nat -> String.length se = 2%nat ->
  Date_parse (y ++ "-" ++ mo ++ "-" ++ d ++ "T" ++ h ++ ":" ++ mi ++ ":"
              ++ se ++ "+03:00")
  = (year ← fixedNumber 4 y;
     month ← fixedNumber 2 mo;
     day ← fixedNumber 2 d;
     hour ← fixedNumber 2 h;
     minute ← fixedNumber 2 mi;
     second ← fixedNumber 2 se;
     if between 1 month 12 && between 1 day 31 && between 0 hour 24
        && between 0 minute 59 && between 0 second 59
        && ((hour <? 24) || ((minute =? 0) && (second =? 0)))
     then TimeClip (ofZ (MakeDate (MakeDay year (month - 1) day)
                                  (MakeTime hour minute second 0)
                         - 3 * 3600000))
     else None).
Proof.
  intros Hy Hmo Hd Hh Hmi Hse.
  destruct y as [|y1 [|y2 [|y3 [|y4 [|]]]]]; try discriminate Hy.
  destruct mo as [|mo1 [|mo2 [|]]]; try discriminate Hmo.
  destruct d as [|d1 [|d2 [|]]]; try discriminate Hd.
  destruct h as [|h1 [|h2 [|]]]; try discriminate Hh.
  destruct mi as [|mi1 [|mi2 [|]]]; try discriminate Hmi.
  destruct se as [|se1 [|se2 [|]]]; try discriminate Hse.
  unfold Date_parse.
  set (iso := (_ ++ _)%string).
  assert (E0 : negb (len iso =? 25) = false) by reflexivity.
  assert (E1 : negb (String.eqb (slice 4 5 iso) "-"
                     && String.eqb (slice 7 8 iso) "-"
                     && String.eqb (slice 10 11 iso) "T"
                     && String.eqb (slice 13 14 iso) ":"
                     && String.eqb (slice 16 17 iso) ":"
                     && String.eqb (slice 22 23 iso) ":") = false)
    by reflexivity.
  rewrite E0, E1.
  change (slice 0 4 iso) with (String y1 (String y2 (String y3 (String y4 "")))).
  change (slice 5 7 iso) with (String mo1 (String mo2 "")).
  change (slice 8 10 iso) with (String d1 (String d2 "")).
  change (slice 11 13 iso) with (String h1 (String h2 "")).
  change (slice 14 16 iso) with (String mi1 (String mi2 "")).
  change (slice 17 19 iso) with (String se1 (String se2 "")).
  change (String.eqb (slice 19 20 iso) "+") with true.
  change (fixedNumber 2 (slice 20 22 iso)) with (Some 3).
  change (fixedNumber 2 (slice 23 25 iso)) with (Some 0).
  destruct (fixedNumber 4 _) as [year|]; [|done].
  destruct (fixedNumber 2 _) as [month|]; [|done].
  destruct (fixedNumber 2 _) as [day|]; [|done].
  destruct (fixedNumber 2 _) as [hour|]; [|done].
  destruct (fixedNumber 2 _) as [minute|]; [|done].
  destruct (fixedNumber 2 _) as [second|]; [|done].
  simpl mbind.
  change (between 0 3 23) with true. change (between 0 0 59) with true.
  by rewrite !andb_true_r.
Qed.

Lemma fixedNumber_digits n s :
  String.length s = n -> allDigits s = true ->
  fixedNumber n s = Some (decimalValue s).
Proof.
  intros Hn Hs. unfold fixedNumber. by rewrite Hn, Nat.eqb_refl, Hs.
Qed.

Lemma fixedNumber_not_digits n s :
  allDigits s = false -> fixedNumber n s = None.
Proof. intros Hs. unfold fixedNumber. by rewrite Hs, andb_false_r. Qed.

Lemma daysBeforeMonth_range leap m : 0 <= daysBeforeMonth leap m <= 335.
Proof.
  unfold daysBeforeMonth.
  repeat match goal with
         | |- context [if ?b then _ else _] => destruct b
         end; lia.
Qed.

Lemma DayFromYear_range y :
  2020 <= y <= 2030 -> 18262 <= DayFromYear y <= 21915.
Proof. intros H. unfold DayFromYear. Z.div_mod_to_equations. lia. Qed.

Lemma Date_parse_iso_not_digits (y mo d h mi se : string) :
  String.length y = 4%nat -> String.length mo = 2%nat ->
  String.length d = 2%nat -> String.length h = 2%nat ->
  String.length mi = 2%nat -> String.length se = 2%nat ->
  allDigits y && allDigits mo && allDigits d && allDigits h
  && allDigits mi && allDigits se = false ->
  Date_parse (y ++ "-" ++ mo ++ "-" ++ d ++ "T" ++ h ++ ":" ++ mi ++ ":"
              ++ se ++ "+03:00") = None.
Proof.
  intros Hy Hmo Hd Hh Hmi Hse Hall.
  rewrite Date_parse_iso by done.
  destruct (allDigits y) eqn:Ey;
    [rewrite (fixedNumber_digits 4 y Hy Ey)
    | by rewrite (fixedNumber_not_digits 4 y Ey)].
  destruct (allDigits mo) eqn:Emo;
    [rewrite (fixedNumber_digits 2 mo Hmo Emo)
    | by rewrite (fixedNumber_not_digits 2 mo Emo)].
  destruct (allDigits d) eqn:Ed;
    [rewrite (fixedNumber_digits 2 d Hd Ed)
    | by rewrite (fixedNumber_not_digits 2 d Ed)].
  destruct (allDigits h) eqn:Eh;
    [rewrite (fixedNumber_digits 2 h Hh Eh)
    | by rewrite (fixedNumber_not_digits 2 h Eh)].
  destruct (allDigits mi) eqn:Emi;
    [rewrite (fixedNumber_digits 2 mi Hmi Emi)
    | by rewrite (fixedNumber_not_digits 2 mi Emi)].
  destruct (allDigits se) eqn:Ese; [done|].
  by rewrite (fixedNumber_not_digits 2 se Ese).
Qed.

Lemma Date_parse_iso_valid (y mo d h mi se : string) :
  String.length y = 4%nat -> String.length mo = 2%nat ->
  String.length d = 2%nat -> String.length h = 2%nat ->
  String.length mi = 2%nat -> String.length se = 2%nat ->
  allDigits y = true -> allDigits mo = true -> allDigits d = true ->
  allDigits h = true -> allDigits mi = true -> allDigits se = true ->
  2020 <= decimalValue y <= 2030 -> 1 <= decimalValue mo <= 12 ->
  1 <= decimalValue d <= 31 -> 0 <= decimalValue h <= 23 ->
  0 <= decimalValue mi <= 59 -> 0 <= decimalValue se <= 59 ->
  Date_parse (y ++ "-" ++ mo ++ "-" ++ d ++ "T" ++ h ++ ":" ++ mi ++ ":"
              ++ se ++ "+03:00")
  = Some (MakeDate (MakeDay (decimalValue y) (decimalValue mo - 1)
                      (decimalValue d))
                   (MakeTime (decimalValue h) (decimalValue mi)
                      (decimalValue se) 0)
          - 3 * 3600000).
Proof.
  intros Hy Hmo Hd Hh Hmi Hse Ey Emo Ed Eh Emi Ese Ry Rmo Rd Rh Rmi Rse.
  rewrite Date_parse_iso by done.
  rewrite (fixedNumber_digits 4 y Hy Ey), (fixedNumber_digits 2 mo Hmo Emo),
    (fixedNumber_digits 2 d Hd Ed), (fixedNumber_digits 2 h Hh Eh),
    (fixedNumber_digits 2 mi Hmi Emi), (fixedNumber_digits 2 se Hse Ese).
  simpl mbind. unfold between.
  repeat match goal with
         | |- context [?a <=? ?b] =>
             destruct (Z.leb_spec a b); [|lia]
         | |- context [?a <? ?b] =>
             destruct (Z.ltb_spec a b); [|lia]
         end.
  cbn [andb orb]. apply TimeClip_ofZ.
  pose proof (DayFromYear_range _ Ry).
  pose proof (daysBeforeMonth_range (InLeapYear (decimalValue y))
                (decimalValue mo - 1)).
  unfold MakeDate, MakeDay, MakeTime, msPerDay. lia.
Qed.

Lemma string14 c :
  len c = 14 ->
  exists y mo d h mi se,
    c = (y ++ mo ++ d ++ h ++ mi ++ se)%string /\
    slice 0 4 c = y /\ slice 4 6 c = mo /\ slice 6 8 c = d /\
    slice 8 10 c = h /\ slice 10 12 c = mi /\ slice 12 14 c = se /\
    String.length y = 4%nat /\ String.length mo = 2%nat /\
    String.length d = 2%nat /\ String.length h = 2%nat /\
    String.length mi = 2%nat /\ String.length se = 2%nat.
Proof.
  intros Hlen. unfold len in Hlen.
  destruct c as [|c1 [|c2 [|c3 [|c4 [|c5 [|c6 [|c7 [|c8 [|c9 [|c10 [|c11 [|c12 [|c13 [|c14 [|c15 r]]]]]]]]]]]]]]];
    try (exfalso; simpl in Hlen; lia).
  exists (String c1 (String c2 (String c3 (String c4 "")))),
    (String c5 (String c6 "")), (String c7 (String c8 "")),
    (String c9 (String c10 "")), (String c11 (String c12 "")),
    (String c13 (String c14 "")).
  repeat split; reflexivity.
Qed.

(** The validation test of [parseTransactionDate] on exact numbers is
    the negation of the six range checks. *)
Lemma validation_ranges y mo d h mi se :
  ltb (ofZ y) (ofZ 2020) || gtb (ofZ y) (ofZ 2030)
  || ltb (ofZ mo) (ofZ 1) || gtb (ofZ mo) (ofZ 12)
  || ltb (ofZ d) (ofZ 1) || gtb (ofZ d) (ofZ 31)
  || ltb (ofZ h) (ofZ 0) || gtb (ofZ h) (ofZ 23)
  || ltb (ofZ mi) (ofZ 0) || gtb (ofZ mi) (ofZ 59)
  || ltb (ofZ se) (ofZ 0) || gtb (ofZ se) (ofZ 59)
  = negb (between 2020 y 2030 && between 1 mo 12 && between 1 d 31
          && between 0 h 23 && between 0 mi 59 && between 0 se 59).
Proof.
  rewrite !ltb_ofZ, !gtb_ofZ. unfold between. rewrite !Z.ltb_antisym.
  repeat match goal with
         | |- context [?a <=? ?b] =>
             destruct (a <=? b); cbn [negb orb andb]; try reflexivity
         end.
Qed.

Lemma trim_nonempty s n : len (trim s) = n -> 0 < n -> String.eqb s "" = false.
Proof. intros H Hn. destruct s; [vm_compute in H; lia | done]. Qed.

(** A fourteen-character date: the instant of its fields when they are
    digits within the validated ranges, the current time otherwise. *)
Lemma parseTransactionDate_fourteen now s :
  len (trim s) = 14 ->
  MpesaUtils.parseTransactionDate now s
  = Return (Some (if validComponents (trim s) then instantUTC3 (trim s)
                  else now)).
Proof.
  intros Hlen.
  unfold MpesaUtils.parseTransactionDate.
  rewrite (trim_nonempty s 14 Hlen) by lia. cbv zeta. rewrite Hlen.
  change (14 =? 14) with true. cbv iota.
  unfold validComponents, instantUTC3, yearOf, monthOf, dayOf, hourOf,
    minuteOf, secondOf.
  destruct (string14 _ Hlen)
    as (y & mo & d & h & mi & se & Hc & -> & -> & -> & -> & -> & ->
        & Hy & Hmo & Hd & Hh & Hmi & Hse).
  rewrite Hc, !allDigits_app.
  destruct (allDigits y && (allDigits mo && (allDigits d && (allDigits h
            && (allDigits mi && allDigits se))))) eqn:Hall.
  - apply andb_prop in Hall as [Ey Hall]. apply andb_prop in Hall as [Emo Hall].
    apply andb_prop in Hall as [Ed Hall]. apply andb_prop in Hall as [Eh Hall].
    apply andb_prop in Hall as [Emi Ese].
    assert (Hsmall : forall f, allDigits f = true ->
              (String.length f <= 4)%nat ->
              f <> EmptyString -> parseInt f = ofZ (decimalValue f)).
    { intros f Ef Hf Hne. apply parseInt_digits; [done..|].
      pose proof (decimalValue_range f Ef) as [_ Hr].
      assert (10 ^ len f <= 10 ^ 4)
        by (apply Z.pow_le_mono_r; unfold len; lia).
      lia. }
    rewrite (Hsmall y), (Hsmall mo), (Hsmall d), (Hsmall h), (Hsmall mi),
      (Hsmall se); try done; try lia;
      try (intros ->; discriminate).
    rewrite validation_ranges. cbn [andb].
    destruct (between 2020 (decimalValue y) 2030
              && between 1 (decimalValue mo) 12
              && between 1 (decimalValue d) 31
              && between 0 (decimalValue h) 23
              && between 0 (decimalValue mi) 59
              && between 0 (decimalValue se) 59) eqn:Hrange;
      [|reflexivity].
    unfold between in Hrange.
    repeat (apply andb_prop in Hrange as [Hrange ?]).
    repeat match goal with
           | H : (_ <=? _) = true |- _ => apply Z.leb_le in H
           end.
    simpl negb. cbv iota.
    rewrite Date_parse_iso_valid by (done || lia).
    reflexivity.
  - assert (Hall' : allDigits y && allDigits mo && allDigits d && allDigits h
                    && allDigits mi && allDigits se = false)
      by (by rewrite <- !andb_assoc).
    rewrite (Date_parse_iso_not_digits y mo d h mi se) by done.
    cbn [andb].
    by destruct (_ || _).
Qed.

(** A ten-character date: the instant [Number] and [new Date] make of
    it as epoch seconds, the current time when they make none. *)
Lemma parseTransactionDate_ten now s :
  len (trim s) = 10 ->
  MpesaUtils.parseTransactionDate now s
  = Return (Some (default now
                    (newDate (mul (StringToNumber (trim s)) (ofZ 1000))))).
Proof.
  intros Hlen. unfold MpesaUtils.parseTransactionDate.
  rewrite (trim_nonempty s 10 Hlen) by lia. cbv zeta. rewrite Hlen.
  change (10 =? 14) with false. change (10 =? 10) with true. cbv iota.
  destruct (StringToNumber (trim s)) as [|negative|q]; [done| |].
  - by destruct negative.
  - simpl isNaN. cbv iota.
    by destruct (newDate (mul (Finite q) (ofZ 1000))).
Qed.

Lemma parseTransactionDate_other_length now s :
  len (trim s) <> 14 -> len (trim s) <> 10 ->
  MpesaUtils.parseTransactionDate now s = Return (Some now).
Proof.
  intros H14 H10. unfold MpesaUtils.parseTransactionDate. cbv zeta.
  destruct (String.eqb s ""); [done|].
  destruct (Z.eqb_spec (len (trim s)) 14); [done|].
  by destruct (Z.eqb_spec (len (trim s)) 10).
Qed.

Lemma epoch_seconds_digits c :
  len c = 10 -> allDigits c = true ->
  newDate (mul (StringToNumber c) (ofZ 1000)) = Some (decimalValue c * 1000).
Proof.
  intros Hlen Hc.
  pose proof (decimalValue_range c Hc) as Hr. rewrite Hlen in Hr.
  rewrite StringToNumber_digits; [|done|by intros ->|lia].
  rewrite mul_ofZ by lia. apply TimeClip_ofZ. lia.
Qed.

End JsFacts.

(** ** Transaction dates *)

Section TransactionDate.

Import Js.



End TransactionDate.

(** * Further properties *)

(** ** Initiation, path by path *)

Section Initiation.

Implicit Types (cb : CircuitBreakerStatus) (w : World) (now : Z).

(** Once the guard has let an initiation in, it does what [afterGuard]
    spells out. *)
Lemma initiateStkPush_after_guard now gw request w w1 :
  checkCircuitBreaker now w = (Return tt, w1) ->
  initiateStkPush now gw request w = afterGuard now gw request w1.
Proof.
  intros Hgate. unfold initiateStkPush, afterGuard.
  unfold try at 1. unfold bind at 1. rewrite Hgate. unfold bind at 1.
  destruct (authFails gw) eqn:Hauth.
  - by rewrite (getAccessToken_fails _ _ _ Hauth).
  - destruct (getAccessToken_succeeds now gw w1 Hauth) as [token ->].
    unfold bind at 1, lift at 1.
    destruct (MpesaUtils.formatPhoneNumber _) as [phone|e];
      [|run; unfold initiationError; by destruct (instanceofHttpException e)].
    run. unfold postOf. rewrite <- !app_assoc. simpl.
    destruct (stkPushReply gw) as [data|e]; simpl.
    + destruct (String.eqb (ResponseCode data) "0"); simpl; [|done].
      unfold saveTransaction, create, idsTaken, pendingRecord. run.
      by destruct (_ || _).
    + unfold initiationError. by destruct (instanceofHttpException e).
Qed.

(** What the guard leaves when it lets a call in: a breaker that is not
    OPEN, with the counter it had, and the ledger and the trace as they
    were. *)
Lemma checkCircuitBreaker_let_in now w w1 :
  checkCircuitBreaker now w = (Return tt, w1) ->
  state (circuitBreaker w1) <> OPEN /\
  (circuitBreaker w1 = circuitBreaker w \/
   (state (circuitBreaker w) = OPEN /\
    circuitBreaker w1 = halfOpened (circuitBreaker w))) /\
  failures (circuitBreaker w1) = failures (circuitBreaker w) /\
  ledger w1 = ledger w /\ outbound w1 = outbound w.
Proof.
  unfold checkCircuitBreaker. run.
  destruct (state (circuitBreaker w)) eqn:Hs.
  - intros [= <-]. rewrite Hs. auto 10.
  - destruct (nextAttemptTime (circuitBreaker w)) as [t|];
      [destruct (now <? t); [done|]|]; intros [= <-]; simpl; auto 10.
  - intros [= <-]. rewrite Hs. auto 10.
Qed.

(** X1. An initiation the gateway accepts, for request ids the ledger
    does not hold yet, returns the gateway's answer and adds exactly one
    record: PENDING, under the CheckoutRequestID, with the normalised
    phone number and no outcome fields.  Every other id reads as
    before. *)
Theorem initiateStkPush_saves_pending now gw request w phone data :
  fst (checkCircuitBreaker now w) = Return tt ->
  authFails gw = false ->
  MpesaUtils.formatPhoneNumber (dto_phoneNumber request) = Return phone ->
  stkPushReply gw = Return data ->
  ResponseCode data = "0" ->
  ledger w !! CheckoutRequestID data = None ->
  (forall id t, ledger w !! id = Some t ->
                merchantRequestID t <> MerchantRequestID data) ->
  let w' := snd (initiateStkPush now gw request w) in
  fst (initiateStkPush now gw request w) = Return data /\
  ledger w' !! CheckoutRequestID data
  = Some (pendingRecord now request phone data) /\
  status (pendingRecord now request phone data) = PENDING /\
  phoneNumber (pendingRecord now request phone data) = phone /\
  (forall id, id <> CheckoutRequestID data -> ledger w' !! id = ledger w !! id).
Proof.
  intros Hgate Hauth Hphone Hreply Hcode Hfresh Hmerchant.
  destruct (checkCircuitBreaker now w) as [r w1] eqn:E. simpl in Hgate.
  subst r. destruct (checkCircuitBreaker_let_in _ _ _ E) as (_ & _ & _ & Hl & _).
  simpl. rewrite (initiateStkPush_after_guard _ _ _ _ _ E).
  unfold afterGuard. rewrite Hauth, Hphone, Hreply, Hcode. simpl.
  assert (Hfree : idsTaken data (ledger w1) = false).
  { unfold idsTaken. rewrite Hl, Hfresh.
    rewrite bool_decide_eq_false_2 by (intros [? [=]]).
    rewrite bool_decide_eq_false_2; [done|].
    intros (id & t & Ht & Heq). by apply (Hmerchant id t). }
  rewrite Hfree, Hl. split; [done|]. split; [by rewrite lookup_insert_eq|].
  split; [done|]. split; [done|].
  intros id Hne. by rewrite lookup_insert_ne.
Qed.

Lemma initiateStkPush_saves_pending_witness :
  ledger (snd (initiateStkPush 1748768300000 okGateway (request "0712345678")
                 freshWorld)) !! "ws_CO_1"
  = Some (pendingRecord 1748768300000 (request "0712345678") "254712345678"
            {| MerchantRequestID := "m-1"; CheckoutRequestID := "ws_CO_1";
               ResponseCode := "0";
               ResponseDescription := "Success. Request accepted";
               CustomerMessage := "Success" |}).
Proof.
  apply (initiateStkPush_saves_pending 1748768300000 okGateway
           (request "0712345678") freshWorld "254712345678" _
           eq_refl eq_refl eq_refl eq_refl eq_refl eq_refl).
  intros id t Ht. simpl in Ht. by rewrite lookup_empty in Ht.
Defined.

(** X2. The save is fail-open: when one of the two request ids of the
    gateway's answer is already in the ledger, the initiation still
    returns the answer to the caller, records the success on the
    breaker, and leaves the ledger exactly as it was. *)
Theorem initiateStkPush_duplicate_ids_fail_open now gw request w phone data :
  fst (checkCircuitBreaker now w) = Return tt ->
  authFails gw = false ->
  MpesaUtils.formatPhoneNumber (dto_phoneNumber request) = Return phone ->
  stkPushReply gw = Return data ->
  ResponseCode data = "0" ->
  (is_Some (ledger w !! CheckoutRequestID data) \/
   exists id t, ledger w !! id = Some t /\
                merchantRequestID t = MerchantRequestID data) ->
  fst (initiateStkPush now gw request w) = Return data /\
  ledger (snd (initiateStkPush now gw request w)) = ledger w /\
  circuitBreaker (snd (initiateStkPush now gw request w))
  = recordSuccess (circuitBreaker (snd (checkCircuitBreaker now w))).
Proof.
  intros Hgate Hauth Hphone Hreply Hcode Htaken.
  destruct (checkCircuitBreaker now w) as [r w1] eqn:E. simpl in Hgate.
  subst r. destruct (checkCircuitBreaker_let_in _ _ _ E) as (_ & _ & _ & Hl & _).
  simpl. rewrite (initiateStkPush_after_guard _ _ _ _ _ E).
  unfold afterGuard. rewrite Hauth, Hphone, Hreply, Hcode. simpl.
  assert (Hdup : idsTaken data (ledger w1) = true).
  { unfold idsTaken. rewrite Hl. apply orb_true_iff.
    destruct Htaken as [H|H]; [left | right]; by apply bool_decide_eq_true_2. }
  by rewrite Hdup, Hl.
Qed.

Lemma initiateStkPush_duplicate_ids_fail_open_witness :
  fst (initiateStkPush 1748768300000 okGateway (request "0712345678")
         (worldWith paidTransaction))
  = Return {| MerchantRequestID := "m-1"; CheckoutRequestID := "ws_CO_1";
              ResponseCode := "0";
              ResponseDescription := "Success. Request accepted";
              CustomerMessage := "Success" |}
  /\ ledger (snd (initiateStkPush 1748768300000 okGateway
                    (request "0712345678") (worldWith paidTransaction)))
     = ledger (worldWith paidTransaction).
Proof.
  destruct (initiateStkPush_duplicate_ids_fail_open 1748768300000 okGateway
              (request "0712345678") (worldWith paidTransaction)
              "254712345678" _ eq_refl eq_refl eq_refl eq_refl eq_refl)
    as (Hr & Hl & _).
  - left. by exists paidTransaction.
  - split; [exact Hr | exact Hl].
Defined.

(** An initiation is either turned away by the guard or let in. *)
Lemma initiateStkPush_paths now gw request w :
  (exists deadline,
     state (circuitBreaker w) = OPEN /\
     nextAttemptTime (circuitBreaker w) = Some deadline /\ now < deadline /\
     initiateStkPush now gw request w
     = (Throw serviceUnavailable,
        withBreaker (recordFailure now (circuitBreaker w)) w)) \/
  (exists w1,
     checkCircuitBreaker now w = (Return tt, w1) /\
     initiateStkPush now gw request w = afterGuard now gw request w1).
Proof.
  destruct (checkCircuitBreaker now w) as [[[]|e] w1] eqn:E.
  - right. exists w1. split; [done|]. by apply initiateStkPush_after_guard.
  - left. revert E. unfold checkCircuitBreaker. run.
    destruct (state (circuitBreaker w)) eqn:Hs; try done.
    destruct (nextAttemptTime (circuitBreaker w)) as [t|] eqn:Ht; [|done].
    destruct (Z.ltb_spec now t); [|done]. intros _.
    exists t. repeat split; try done.
    by apply (initiateStkPush_rejected _ _ _ _ t).
Qed.

(** X3. An initiation never changes or removes a record that is in the
    ledger, and an initiation that throws leaves the whole ledger as it
    was. *)
Theorem initiateStkPush_keeps_records now gw request w :
  (forall id t, ledger w !! id = Some t ->
     ledger (snd (initiateStkPush now gw request w)) !! id = Some t) /\
  (forall e, fst (initiateStkPush now gw request w) = Throw e ->
     ledger (snd (initiateStkPush now gw request w)) = ledger w).
Proof.
  destruct (initiateStkPush_paths now gw request w)
    as [(t & _ & _ & _ & ->)|(w1 & Hgate & ->)]; [done|].
  destruct (checkCircuitBreaker_let_in _ _ _ Hgate) as (_ & _ & _ & Hl & _).
  unfold afterGuard.
  destruct (authFails gw); [simpl; by rewrite Hl|].
  destruct (MpesaUtils.formatPhoneNumber _) as [phone|e];
    [|simpl; by rewrite Hl].
  destruct (stkPushReply gw) as [data|e]; [|simpl; by rewrite Hl].
  destruct (String.eqb (ResponseCode data) "0"); [|simpl; by rewrite Hl].
  simpl. split; [|done].
  destruct (idsTaken data (ledger w1)) eqn:Htaken; [by rewrite Hl|].
  intros id t Ht. rewrite lookup_insert_ne; [by rewrite Hl|].
  intros <-. unfold idsTaken in Htaken. apply orb_false_iff in Htaken as [H _].
  apply bool_decide_eq_false_1 in H. apply H. rewrite Hl. eauto.
Qed.

Lemma initiateStkPush_keeps_records_witness :
  ledger (snd (initiateStkPush 1748768300000 okGateway (request "0712345678")
                 (worldWith paidTransaction))) !! "ws_CO_1"
  = Some paidTransaction.
Proof.
  apply (initiateStkPush_keeps_records 1748768300000 okGateway
           (request "0712345678") (worldWith paidTransaction)).
  reflexivity.
Defined.

(** X4. The two unique indexes hold in every ledger the service
    produces: an initiation and a callback, whatever its payload, take a
    ledger in which every record sits under its own CheckoutRequestID
    and no two records share a MerchantRequestID to a ledger of the same
    kind. *)
Theorem ledgerConsistent_preserved now gw request callbackData w :
  ledgerConsistent (ledger w) ->
  ledgerConsistent (ledger (snd (initiateStkPush now gw request w))) /\
  ledgerConsistent (ledger (snd (handleCallback now callbackData w))).
Proof.
  intros Hinv. pose proof Hinv as [Hkey Huniq]. split.
  - destruct (initiateStkPush_paths now gw request w)
      as [(t & _ & _ & _ & ->)|(w1 & Hgate & ->)]; [done|].
    destruct (checkCircuitBreaker_let_in _ _ _ Hgate) as (_ & _ & _ & Hl & _).
    unfold afterGuard.
    destruct (authFails gw); [simpl; by rewrite Hl|].
    destruct (MpesaUtils.formatPhoneNumber _) as [phone|e];
      [|simpl; by rewrite Hl].
    destruct (stkPushReply gw) as [data|e]; [|simpl; by rewrite Hl].
    destruct (String.eqb (ResponseCode data) "0"); [|simpl; by rewrite Hl].
    simpl. rewrite Hl.
    destruct (idsTaken data (ledger w)) eqn:Htaken; [done|].
    unfold idsTaken in Htaken. apply orb_false_iff in Htaken as [_ Hm].
    apply bool_decide_eq_false_1 in Hm.
    assert (Hnew : forall id t, ledger w !! id = Some t ->
                     merchantRequestID t <> MerchantRequestID data).
    { intros id t Ht Heq. apply Hm. by exists id, t. }
    split.
    + intros id t. destruct (decide (CheckoutRequestID data = id)) as [<-|Hne].
      * rewrite lookup_insert_eq. by intros [= <-].
      * rewrite lookup_insert_ne by done. apply Hkey.
    + intros id1 id2 t1 t2.
      destruct (decide (CheckoutRequestID data = id1)) as [<-|Hne1];
        destruct (decide (CheckoutRequestID data = id2)) as [<-|Hne2];
        rewrite ?lookup_insert_eq, ?lookup_insert_ne by done; try done.
      * intros [= <-] H2 Heq. exfalso. by apply (Hnew _ _ H2).
      * intros H1 [= <-] Heq. exfalso. by apply (Hnew _ _ H1).
      * apply Huniq.
  - assert (Hcases :
      ledger (snd (handleCallback now callbackData w)) = ledger w \/
      exists id t u, ledger w !! id = Some t /\
        ledger (snd (handleCallback now callbackData w))
        = <[id := applyUpdate u t]> (ledger w)).
    { unfold handleCallback, findUnique, update. run.
      destruct (Callback.Body callbackData) as [[[cb|]]|]; simpl; auto.
      destruct (ledger w !! Callback.CheckoutRequestID cb) as [t|] eqn:Ht;
        simpl; auto.
      destruct (buildUpdateData now cb) as [u|e]; simpl.
      - rewrite Ht. simpl. right. eauto.
      - destruct (instanceofHttpException e); auto. }
    destruct Hcases as [->|(id & t & u & Ht & ->)]; [done|].
    split.
    + intros id' t'. destruct (decide (id = id')) as [<-|Hne].
      * rewrite lookup_insert_eq. intros [= <-]. simpl. by apply Hkey.
      * rewrite lookup_insert_ne by done. apply Hkey.
    + intros id1 id2 t1 t2.
      destruct (decide (id = id1)) as [<-|Hne1];
        destruct (decide (id = id2)) as [<-|Hne2];
        rewrite ?lookup_insert_eq, ?lookup_insert_ne by done; try done.
      * intros [= <-] H2. simpl. intros Heq. by apply (Huniq _ _ _ _ Ht H2).
      * intros H1 [= <-]. simpl. intros Heq. by apply (Huniq _ _ _ _ H1 Ht).
      * apply Huniq.
Qed.

Lemma ledgerConsistent_preserved_witness :
  ledgerConsistent
    (ledger (snd (handleCallback 1748768401000 (payload successCallback)
                    (worldWith pendingTransaction)))).
Proof.
  apply (ledgerConsistent_preserved 1748768401000 okGateway
           (request "0712345678") (payload successCallback)
           (worldWith pendingTransaction)).
  split.
  - intros id t Ht. simpl in Ht. apply lookup_singleton_Some in Ht as [<- <-].
    reflexivity.
  - intros id1 id2 t1 t2 H1 H2 _. simpl in H1, H2.
    apply lookup_singleton_Some in H1 as [<- _].
    by apply lookup_singleton_Some in H2 as [<- _].
Defined.

(** X5. The breaker follows the outcome of each initiation: one that
    throws, the rejection by the guard included, raises the failures
    counter by one or by two, and one that returns leaves the breaker
    CLOSED with a counter that has not grown. *)
Theorem initiateStkPush_outcome_on_breaker now gw request w :
  let cb := circuitBreaker w in
  let cb' := circuitBreaker (snd (initiateStkPush now gw request w)) in
  (forall e, fst (initiateStkPush now gw request w) = Throw e ->
     failures cb' = S (failures cb) \/ failures cb' = S (S (failures cb))) /\
  (forall answer, fst (initiateStkPush now gw request w) = Return answer ->
     state cb' = CLOSED /\ (failures cb' <= failures cb)%nat).
Proof.
  simpl.
  destruct (initiateStkPush_paths now gw request w)
    as [(t & _ & _ & _ & ->)|(w1 & Hgate & ->)].
  { simpl. split; [|done]. intros _ _. left. apply recordFailure_failures. }
  destruct (checkCircuitBreaker_let_in _ _ _ Hgate) as (Hopen & _ & Hf & _ & _).
  unfold afterGuard.
  destruct (authFails gw);
    [simpl; rewrite !recordFailure_failures, Hf; split; [auto|done]|].
  destruct (MpesaUtils.formatPhoneNumber _) as [phone|e];
    [|simpl; rewrite !recordFailure_failures, Hf; split; [auto|done]].
  destruct (stkPushReply gw) as [data|e];
    [|simpl; rewrite !recordFailure_failures, Hf; split; [auto|done]].
  destruct (String.eqb (ResponseCode data) "0");
    [|simpl; rewrite !recordFailure_failures, Hf; split; [auto|done]].
  simpl. split; [done|]. intros _ _. unfold recordSuccess.
  destruct (state (circuitBreaker w1)) eqn:Hs; simpl; rewrite ?Hs, ?Hf;
    try done; split; (done || lia).
Qed.

(** X6. When the gateway answers with a response code other than "0",
    the caller gets a 400 carrying the gateway's description, or
    "STK Push failed" when the description is empty; the refusal counts
    as one failure on the breaker and nothing is saved. *)
Theorem initiateStkPush_gateway_declines now gw request w phone data :
  fst (checkCircuitBreaker now w) = Return tt ->
  authFails gw = false ->
  MpesaUtils.formatPhoneNumber (dto_phoneNumber request) = Return phone ->
  stkPushReply gw = Return data ->
  ResponseCode data <> "0" ->
  let w' := snd (initiateStkPush now gw request w) in
  fst (initiateStkPush now gw request w)
  = Throw (HttpException
             (if Js.truthy (ResponseDescription data)
              then ResponseDescription data else "STK Push failed")
             BAD_REQUEST) /\
  failures (circuitBreaker w') = S (failures (circuitBreaker w)) /\
  ledger w' = ledger w /\
  outbound w' = (outbound w ++ [GetAccessToken; postOf request phone])%list.
Proof.
  intros Hgate Hauth Hphone Hreply Hcode.
  destruct (checkCircuitBreaker now w) as [r w1] eqn:E. simpl in Hgate.
  subst r.
  destruct (checkCircuitBreaker_let_in _ _ _ E) as (_ & _ & Hf & Hl & Ho).
  simpl. rewrite (initiateStkPush_after_guard _ _ _ _ _ E).
  unfold afterGuard. rewrite Hauth, Hphone, Hreply.
  destruct (String.eqb_spec (ResponseCode data) "0"); [done|]. simpl.
  by rewrite recordFailure_failures, Hf, Hl, Ho.
Qed.

Lemma initiateStkPush_gateway_declines_witness :
  fst (initiateStkPush 1000 decliningGateway (request "0712345678") freshWorld)
  = Throw (HttpException "Invalid Amount" BAD_REQUEST).
Proof.
  apply (initiateStkPush_gateway_declines 1000 decliningGateway
           (request "0712345678") freshWorld "254712345678"
           {| MerchantRequestID := ""; CheckoutRequestID := "";
              ResponseCode := "1"; ResponseDescription := "Invalid Amount";
              CustomerMessage := "" |}
           eq_refl eq_refl eq_refl eq_refl).
  discriminate.
Defined.

(** X7. The probe decides.  Take an OPEN breaker whose deadline has
    passed, in a world the service can reach.  If the initiation made
    then returns, the breaker is CLOSED with a counter of 0; if it
    throws, the breaker is OPEN again with a deadline 60 s after the
    probe. *)
Theorem probe_outcome_decides now gw request w deadline :
  breakerInvariant (circuitBreaker w) ->
  state (circuitBreaker w) = OPEN ->
  nextAttemptTime (circuitBreaker w) = Some deadline ->
  deadline <= now ->
  let cb' := circuitBreaker (snd (initiateStkPush now gw request w)) in
  (forall answer, fst (initiateStkPush now gw request w) = Return answer ->
     state cb' = CLOSED /\ failures cb' = 0%nat) /\
  (forall e, fst (initiateStkPush now gw request w) = Throw e ->
     state cb' = OPEN /\ nextAttemptTime cb' = Some (now + resetTimeout)).
Proof.
  intros Hinv Hs Hd Hle. simpl.
  assert (Hf : (maxFailures <= failures (circuitBreaker w))%nat)
    by (apply Hinv; congruence).
  pose proof (checkCircuitBreaker_probe _ _ _ Hs Hd Hle) as Hgate.
  rewrite (initiateStkPush_after_guard _ _ _ _ _ Hgate).
  assert (Hreopen : forall cb,
             (maxFailures <= failures cb)%nat ->
             state (recordFailure now cb) = OPEN /\
             nextAttemptTime (recordFailure now cb) = Some (now + resetTimeout))
    by (intros cb Hcb; apply recordFailure_opens; lia).
  unfold afterGuard. simpl.
  destruct (authFails gw).
  { simpl. split; [done|]. intros _ _. apply Hreopen.
    rewrite recordFailure_failures. simpl. lia. }
  destruct (MpesaUtils.formatPhoneNumber _) as [phone|e];
    [|simpl; split; [done|]; intros _ _; by apply Hreopen].
  destruct (stkPushReply gw) as [data|e];
    [|simpl; split; [done|]; intros _ _; by apply Hreopen].
  destruct (String.eqb (ResponseCode data) "0");
    [|simpl; split; [done|]; intros _ _; by apply Hreopen].
  simpl. split; [|done]. by intros _ _.
Qed.

Lemma probe_outcome_decides_witness :
  state (circuitBreaker
           (snd (initiateStkPush 60000 okGateway (request "0712345678")
                   openedAtZero))) = CLOSED
  /\ state (circuitBreaker
              (snd (initiateStkPush 60000 downGateway (request "0712345678")
                      openedAtZero))) = OPEN.
Proof.
  assert (Hinv : breakerInvariant (circuitBreaker openedAtZero)).
  { split; intros _; vm_compute; [lia | eauto]. }
  assert (Hle : 60000 <= 60000) by lia.
  split.
  - destruct (probe_outcome_decides 60000 okGateway (request "0712345678")
                openedAtZero 60000 Hinv eq_refl eq_refl Hle) as [Hok _].
    eapply Hok. reflexivity.
  - destruct (probe_outcome_decides 60000 downGateway (request "0712345678")
                openedAtZero 60000 Hinv eq_refl eq_refl Hle) as [_ Hko].
    eapply Hko. reflexivity.
Defined.

End Initiation.

(** ** Callbacks and queries *)

Section CallbacksAndQueries.

Implicit Types (w : World) (now : Z) (cb : Callback.StkCallback).

(** The four ways a callback can go. *)
Lemma handleCallback_cases now callbackData w :
  handleCallback now callbackData w
  = (Throw (HttpException "Invalid callback format: missing Body" BAD_REQUEST),
     w) \/
  handleCallback now callbackData w
  = (Throw (HttpException "Invalid callback format: missing stkCallback"
              BAD_REQUEST), w) \/
  (exists cb,
     callbackData = payload cb /\
     ledger w !! Callback.CheckoutRequestID cb = None /\
     handleCallback now callbackData w
     = (Throw (HttpException
                 ("Transaction not found for CheckoutRequestID: "
                  ++ Callback.CheckoutRequestID cb) NOT_FOUND), w)) \/
  (exists cb t u,
     callbackData = payload cb /\
     ledger w !! Callback.CheckoutRequestID cb = Some t /\
     buildUpdateData now cb = Return u /\
     handleCallback now callbackData w
     = (Return tt,
        {| circuitBreaker := circuitBreaker w;
           ledger := <[Callback.CheckoutRequestID cb := applyUpdate u t]>
                       (ledger w);
           outbound := outbound w |})).
Proof.
  destruct callbackData as [[[[cb|]]|]]; [| right; left | left].
  - destruct (ledger w !! Callback.CheckoutRequestID cb) as [t|] eqn:Ht.
    + destruct (buildUpdateData_returns now cb) as (u & Hu & _).
      do 3 right. exists cb, t, u. repeat split; try done.
      by apply handleCallback_known.
    + do 2 right. left. exists cb. repeat split; try done.
      unfold handleCallback, payload, findUnique. run. by rewrite Ht.
  - destruct w. reflexivity.
  - destruct w. reflexivity.
Qed.

(** X8. A callback that fails leaves no trace: whenever [handleCallback]
    throws, the world is exactly as before, and what it throws is a 400
    (no Body, or no stkCallback in it) or a 404 (no transaction under the
    CheckoutRequestID). *)
Theorem handleCallback_failure_leaves_no_trace now callbackData w e :
  fst (handleCallback now callbackData w) = Throw e ->
  snd (handleCallback now callbackData w) = w /\
  exists message,
    e = HttpException message BAD_REQUEST \/
    e = HttpException message NOT_FOUND.
Proof.
  destruct (handleCallback_cases now callbackData w)
    as [->|[->|[(cb & _ & _ & ->)|(cb & t & u & _ & _ & _ & ->)]]];
    simpl; intros [= <-]; eauto.
Qed.

Lemma handleCallback_failure_leaves_no_trace_witness :
  snd (handleCallback 1748768400000 {| Callback.Body := None |}
         (worldWith pendingTransaction))
  = worldWith pendingTransaction.
Proof.
  eapply (handleCallback_failure_leaves_no_trace 1748768400000
            {| Callback.Body := None |} (worldWith pendingTransaction)).
  reflexivity.
Defined.

(** X9. A processed callback rewrites outcome columns only: the request
    ids, the answer of the gateway at initiation, the amount, the phone
    number, the references and the creation time of the record stay as
    they were; and when the result code is not 0 the receipt number and
    the transaction date stay as well. *)
Theorem handleCallback_keeps_request_columns now cb w t :
  ledger w !! Callback.CheckoutRequestID cb = Some t ->
  exists t',
    ledger (snd (handleCallback now (payload cb) w))
      !! Callback.CheckoutRequestID cb = Some t' /\
    sameRequest t t' /\
    (Callback.ResultCode cb <> 0 ->
       mpesaReceiptNumber t' = mpesaReceiptNumber t /\
       transactionDate t' = transactionDate t).
Proof.
  intros Ht.
  destruct (buildUpdateData now cb) as [u|e] eqn:Hu;
    [|destruct (buildUpdateData_returns now cb) as (u & Hu' & _); congruence].
  exists (applyUpdate u t).
  rewrite (handleCallback_known _ _ _ _ _ Ht Hu). simpl.
  rewrite lookup_insert_eq. split; [done|]. split; [by repeat split|].
  intros Hcode. unfold buildUpdateData in Hu. cbv zeta in Hu.
  destruct (Z.eqb_spec (Callback.ResultCode cb) 0); [done|].
  by injection Hu as <-.
Qed.

Lemma handleCallback_keeps_request_columns_witness :
  exists t',
    ledger (snd (handleCallback 1748768500000 (payload cancelledCallback)
                   (worldWith paidTransaction))) !! "ws_CO_1" = Some t' /\
    mpesaReceiptNumber t' = Some "NLJ7RT61SV" /\ amount t' = 100.
Proof.
  destruct (handleCallback_keeps_request_columns 1748768500000
              cancelledCallback (worldWith paidTransaction) paidTransaction
              eq_refl) as (t' & Hl & Hsame & Hkeep).
  exists t'. split; [exact Hl|]. split.
  - destruct Hkeep as [-> _]; [discriminate | reflexivity].
  - destruct Hsame as (_ & _ & _ & _ & _ & -> & _). reflexivity.
Defined.

(** X10. A successful callback never leaves the record without a
    transaction date: with result code 0 the stored date is a valid
    instant, the parsed one when an item carried it and the current time
    otherwise; and when the callback carries no item list at all the
    receipt number is the placeholder made of FALLBACK_ and the current
    time. *)
Theorem handleCallback_success_always_dated now cb w t :
  ledger w !! Callback.CheckoutRequestID cb = Some t ->
  Callback.ResultCode cb = 0 ->
  exists t',
    ledger (snd (handleCallback now (payload cb) w))
      !! Callback.CheckoutRequestID cb = Some t' /\
    (exists instant, transactionDate t' = Some (Some instant)) /\
    (forall items,
       Callback.CallbackMetadata cb = Some {| Callback.Item := Some items |} ->
       MpesaUtils.TransactionDate (MpesaUtils.parseCallbackMetadata now items)
       = None ->
       transactionDate t' = Some (Some now)) /\
    ((Callback.CallbackMetadata cb = None \/
      Callback.CallbackMetadata cb = Some {| Callback.Item := None |}) ->
       transactionDate t' = Some (Some now) /\
       mpesaReceiptNumber t' = Some ("FALLBACK_" ++ Js.stringOfZ now)).
Proof.
  intros Ht Hcode.
  destruct (buildUpdateData now cb) as [u|e] eqn:Hu;
    [|destruct (buildUpdateData_returns now cb) as (u & Hu' & _); congruence].
  exists (applyUpdate u t).
  rewrite (handleCallback_known _ _ _ _ _ Ht Hu). simpl.
  rewrite lookup_insert_eq. split; [done|].
  unfold buildUpdateData in Hu. cbv zeta in Hu. rewrite Hcode in Hu.
  simpl in Hu.
  destruct (Callback.CallbackMetadata cb) as [[[items|]]|].
  - pose proof (parseCallbackMetadata_datesValid now items) as Hvalid.
    destruct (MpesaUtils.TransactionDate _) as [d|] eqn:Hd.
    + destruct (Hvalid d Hd) as [instant ->]. simpl in Hu.
      injection Hu as <-. simpl. split; [eauto|].
      split; [by intros items' [= <-]; rewrite Hd | by intros [|]].
    + simpl in Hu. injection Hu as <-. simpl. split; [eauto|].
      split; [done | by intros [|]].
  - injection Hu as <-. simpl. split; [eauto|]. split; [done|]. done.
  - injection Hu as <-. simpl. split; [eauto|]. split; [done|]. done.
Qed.

Lemma handleCallback_success_always_dated_witness :
  exists t',
    ledger (snd (handleCallback 1748768400000 (payload
                   {| Callback.MerchantRequestID := "m-1";
                      Callback.CheckoutRequestID := "ws_CO_1";
                      Callback.ResultCode := 0;
                      Callback.ResultDesc := "ok";
                      Callback.CallbackMetadata := None |})
                   (worldWith pendingTransaction))) !! "ws_CO_1" = Some t' /\
    mpesaReceiptNumber t' = Some "FALLBACK_1748768400000".
Proof.
  destruct (handleCallback_success_always_dated 1748768400000
              {| Callback.MerchantRequestID := "m-1";
                 Callback.CheckoutRequestID := "ws_CO_1";
                 Callback.ResultCode := 0;
                 Callback.ResultDesc := "ok";
                 Callback.CallbackMetadata := None |}
              (worldWith pendingTransaction) pendingTransaction
              eq_refl eq_refl) as (t' & Hl & _ & _ & Hnone).
  exists t'. split; [exact Hl|].
  destruct Hnone as [_ ->]; [by left | reflexivity].
Defined.

Lemma applyUpdate_twice u t : applyUpdate u (applyUpdate u t) = applyUpdate u t.
Proof.
  unfold applyUpdate. simpl.
  by destruct (u_mpesaReceiptNumber u), (u_transactionDate u).
Qed.

(** X11. Delivering the same callback again is harmless: processed a
    second time at the same instant, it has the same outcome and leaves
    the world the first delivery left. *)
Theorem handleCallback_redelivery now callbackData w :
  handleCallback now callbackData (snd (handleCallback now callbackData w))
  = handleCallback now callbackData w.
Proof.
  destruct (handleCallback_cases now callbackData w)
    as [E|[E|[(cb & -> & Hnone & E)|(cb & t & u & -> & Ht & Hu & E)]]];
    rewrite E; simpl; try done.
  rewrite (handleCallback_known now cb _ (applyUpdate u t) u);
    [|simpl; by rewrite lookup_insert_eq | done].
  simpl. by rewrite applyUpdate_twice, insert_insert_eq.
Qed.

(** X12. From initiation to reconciliation: after an initiation the
    gateway accepted for fresh request ids, the callback for its
    CheckoutRequestID is processed, and the record then carries the
    outcome of the result code together with the amount and the
    normalised phone number of the request. *)
Theorem callback_after_initiation now gw request w phone data later cb :
  fst (checkCircuitBreaker now w) = Return tt ->
  authFails gw = false ->
  MpesaUtils.formatPhoneNumber (dto_phoneNumber request) = Return phone ->
  stkPushReply gw = Return data ->
  ResponseCode data = "0" ->
  ledger w !! CheckoutRequestID data = None ->
  (forall id t, ledger w !! id = Some t ->
                merchantRequestID t <> MerchantRequestID data) ->
  Callback.CheckoutRequestID cb = CheckoutRequestID data ->
  let w1 := snd (initiateStkPush now gw request w) in
  let w2 := snd (handleCallback later (payload cb) w1) in
  fst (handleCallback later (payload cb) w1) = Return tt /\
  exists t,
    ledger w2 !! CheckoutRequestID data = Some t /\
    status t = outcomeOf (Callback.ResultCode cb) /\
    resultCode t = Some (Callback.ResultCode cb) /\
    amount t = dto_amount request /\
    phoneNumber t = phone /\
    createdAt t = now /\ updatedAt t = later.
Proof.
  intros Hgate Hauth Hphone Hreply Hcode Hfresh Hmerchant Hid.
  destruct (checkCircuitBreaker now w) as [r w0] eqn:E. simpl in Hgate.
  subst r. destruct (checkCircuitBreaker_let_in _ _ _ E) as (_ & _ & _ & Hl & _).
  simpl. rewrite (initiateStkPush_after_guard _ _ _ _ _ E).
  unfold afterGuard. rewrite Hauth, Hphone, Hreply, Hcode. simpl.
  assert (Hfree : idsTaken data (ledger w0) = false).
  { unfold idsTaken. rewrite Hl, Hfresh.
    rewrite bool_decide_eq_false_2 by (intros [? [=]]).
    rewrite bool_decide_eq_false_2; [done|].
    intros (id & t & Ht & Heq). by apply (Hmerchant id t). }
  rewrite Hfree.
  destruct (buildUpdateData_returns later cb)
    as (u & Hu & Hst & Hrc & _ & Hup).
  rewrite (handleCallback_known later cb _
             (pendingRecord now request phone data) u);
    [|simpl; by rewrite Hid, lookup_insert_eq | done].
  simpl. split; [done|].
  exists (applyUpdate u (pendingRecord now request phone data)).
  rewrite Hid, lookup_insert_eq. simpl. by rewrite Hst, Hrc, Hup.
Qed.

Lemma callback_after_initiation_witness :
  exists t,
    ledger (snd (handleCallback 1748768401000 (payload successCallback)
                   (snd (initiateStkPush 1748768300000 okGateway
                           (request "0712345678") freshWorld)))) !! "ws_CO_1"
    = Some t /\
    status t = SUCCESS /\ phoneNumber t = "254712345678".
Proof.
  destruct (callback_after_initiation 1748768300000 okGateway
              (request "0712345678") freshWorld "254712345678"
              {| MerchantRequestID := "m-1"; CheckoutRequestID := "ws_CO_1";
                 ResponseCode := "0";
                 ResponseDescription := "Success. Request accepted";
                 CustomerMessage := "Success" |}
              1748768401000 successCallback
              eq_refl eq_refl eq_refl eq_refl eq_refl eq_refl)
    as (_ & t & Hl & Hs & _ & _ & Hp & _).
  - intros id t Ht. simpl in Ht. by rewrite lookup_empty in Ht.
  - reflexivity.
  - exists t. split; [exact Hl|]. split; [exact Hs | exact Hp].
Defined.

(** X13. [getTransactionStatus] only reads: it never changes the world;
    for an id the ledger does not hold it throws a 404; and right after
    a processed callback it reports the status, the result code and the
    result description of that callback. *)
Theorem getTransactionStatus_reports_callback now cb w t id :
  ledger w !! Callback.CheckoutRequestID cb = Some t ->
  ledger w !! id = None ->
  let w' := snd (handleCallback now (payload cb) w) in
  snd (getTransactionStatus (Callback.CheckoutRequestID cb) w') = w' /\
  (exists view,
     fst (getTransactionStatus (Callback.CheckoutRequestID cb) w') = Return view /\
     v_status view = outcomeOf (Callback.ResultCode cb) /\
     v_resultCode view = Some (Callback.ResultCode cb) /\
     v_resultDesc view = (if Js.truthy (Callback.ResultDesc cb)
                          then Some (Callback.ResultDesc cb) else None) /\
     v_amount view = amount t /\ v_phoneNumber view = phoneNumber t) /\
  getTransactionStatus id w
  = (Throw (HttpException
              ("Transaction with CheckoutRequestID " ++ id ++ " not found")
              NOT_FOUND), w).
Proof.
  intros Ht Hnone.
  destruct (buildUpdateData_returns now cb)
    as (u & Hu & Hst & Hrc & Hrd & _).
  simpl. rewrite (handleCallback_known _ _ _ _ _ Ht Hu).
  unfold getTransactionStatus, findUnique. run.
  rewrite lookup_insert_eq, Hnone. simpl.
  split; [done|]. split; [|by destruct w].
  eexists. split; [reflexivity|]. simpl. by rewrite Hst, Hrc, Hrd.
Qed.

Lemma getTransactionStatus_reports_callback_witness :
  exists view,
    fst (getTransactionStatus "ws_CO_1"
           (snd (handleCallback 1748768401000 (payload successCallback)
                   (worldWith pendingTransaction)))) = Return view /\
    v_status view = SUCCESS.
Proof.
  destruct (getTransactionStatus_reports_callback 1748768401000
              successCallback (worldWith pendingTransaction)
              pendingTransaction "ws_CO_9" eq_refl eq_refl)
    as (_ & (view & Hv & Hs & _) & _).
  exists view. split; [exact Hv | exact Hs].
Defined.

End CallbacksAndQueries.

(** ** Callback metadata *)

Section Metadata.

Import Js.

(** The parser from any metadata on: the loop of [parseCallbackMetadata]
    started from [m]. *)
Local Abbreviation parseFrom now items m :=
  (fold_left
     (fun metadata item =>
        match MpesaUtils.parseItem now metadata item with
        | Return metadata' => metadata'
        | Throw _ => metadata
        end) items m).

Local Ltac literal_name :=
  eexists; split; [reflexivity|];
  cbn [MpesaUtils.Amount MpesaUtils.MpesaReceiptNumber MpesaUtils.Balance
       MpesaUtils.TransactionDate MpesaUtils.PhoneNumber MpesaUtils.others
       bindC];
  repeat split; try reflexivity;
  let n := fresh "n" in
  let Hn := fresh "Hn" in
  intros n Hn;
  match goal with
  | |- context [String.eqb ?lit n] =>
      destruct (String.eqb_spec lit n) as [<-|];
      [vm_compute in Hn; discriminate Hn | reflexivity]
  end.

(** What one item does to the metadata. *)
Lemma parseItem_effect now m item :
  exists m',
    MpesaUtils.parseItem now m item = Return m' /\
    MpesaUtils.Amount m'
    = (if itemNamed "Amount" item
       then Some (toNumber (MpesaUtils.Value item)) else MpesaUtils.Amount m) /\
    MpesaUtils.MpesaReceiptNumber m'
    = (if itemNamed "MpesaReceiptNumber" item
       then Some (trim (toString (MpesaUtils.Value item)))
       else MpesaUtils.MpesaReceiptNumber m) /\
    MpesaUtils.Balance m'
    = (if itemNamed "Balance" item
       then Some (toNumber (MpesaUtils.Value item)) else MpesaUtils.Balance m) /\
    MpesaUtils.TransactionDate m'
    = (if itemNamed "TransactionDate" item
       then Some (parsedDate now (MpesaUtils.Value item))
       else MpesaUtils.TransactionDate m) /\
    MpesaUtils.PhoneNumber m'
    = (if itemNamed "PhoneNumber" item
       then Some (trim (toString (MpesaUtils.Value item)))
       else MpesaUtils.PhoneNumber m) /\
    (forall name, includes wellKnownNames name = false ->
       MpesaUtils.others m' !! name
       = if itemNamed name item then Some (MpesaUtils.Value item)
         else MpesaUtils.others m !! name) /\
    (forall name, includes wellKnownNames name = true ->
       MpesaUtils.others m' !! name = MpesaUtils.others m !! name).
Proof.
  unfold MpesaUtils.parseItem, itemNamed, parsedDate. cbv zeta.
  destruct (parseTransactionDate_valid now
              (trim (toString (MpesaUtils.Value item)))) as [instant ->].
  destruct (truthy (MpesaUtils.Name item)); cbn [negb andb].
  2:{ eexists. split; [reflexivity|]. repeat split; reflexivity. }
  remember (trim (MpesaUtils.Name item)) as name eqn:Hname. clear Hname.
  destruct (name =? "Amount")%string eqn:E1;
    [apply String.eqb_eq in E1; subst name; literal_name|].
  destruct (name =? "MpesaReceiptNumber")%string eqn:E2;
    [apply String.eqb_eq in E2; subst name; literal_name|].
  destruct (name =? "Balance")%string eqn:E3;
    [apply String.eqb_eq in E3; subst name; literal_name|].
  destruct (name =? "TransactionDate")%string eqn:E4;
    [apply String.eqb_eq in E4; subst name; literal_name|].
  destruct (name =? "PhoneNumber")%string eqn:E5;
    [apply String.eqb_eq in E5; subst name; literal_name|].
  eexists. split; [reflexivity|].
  cbn [MpesaUtils.Amount MpesaUtils.MpesaReceiptNumber MpesaUtils.Balance
       MpesaUtils.TransactionDate MpesaUtils.PhoneNumber MpesaUtils.others
       bindC].
  repeat split; try reflexivity.
  - intros n Hn. destruct (String.eqb_spec name n) as [<-|Hne].
    + by rewrite lookup_insert_eq.
    + by rewrite lookup_insert_ne.
  - intros n Hn. rewrite lookup_insert_ne; [done|]. intros <-.
    unfold includes, wellKnownNames in Hn. cbn [existsb] in Hn.
    rewrite ?E1, ?E2, ?E3, ?E4, ?E5 in Hn. discriminate Hn.
Qed.

(** A field that each item either sets from its value or leaves alone
    holds, after the loop, what the last item that sets it gave. *)
Lemma parseFrom_last {A} (proj : MpesaUtils.CallbackMetadata -> option A)
  (f : Value -> A) name now :
  (forall m item, exists m',
      MpesaUtils.parseItem now m item = Return m' /\
      proj m' = if itemNamed name item then Some (f (MpesaUtils.Value item))
                else proj m) ->
  forall items m,
    proj (parseFrom now items m)
    = match lastNamed name items with
      | Some v => Some (f v)
      | None => proj m
      end.
Proof.
  intros Hstep. induction items as [|item rest IH]; intros m; [reflexivity|].
  cbn [fold_left lastNamed]. rewrite IH.
  destruct (lastNamed name rest); [reflexivity|].
  destruct (Hstep m item) as (m' & -> & ->).
  by destruct (itemNamed name item).
Qed.

(** A field no item touches is after the loop what it was before. *)
Lemma parseFrom_untouched {A} (proj : MpesaUtils.CallbackMetadata -> A) now :
  (forall m item, exists m',
      MpesaUtils.parseItem now m item = Return m' /\ proj m' = proj m) ->
  forall items m, proj (parseFrom now items m) = proj m.
Proof.
  intros Hstep. induction items as [|item rest IH]; intros m; [reflexivity|].
  cbn [fold_left]. rewrite IH.
  by destruct (Hstep m item) as (m' & -> & ->).
Qed.


(** X15. Items without a name do not count: [parseCallbackMetadata]
    gives for any list what it gives for the list without them, so a
    nameless item neither changes a field nor stops the items after it
    from being read. *)
Theorem parseCallbackMetadata_ignores_nameless now items :
  MpesaUtils.parseCallbackMetadata now items
  = MpesaUtils.parseCallbackMetadata now
      (List.filter (fun item => truthy (MpesaUtils.Name item)) items).
Proof.
  unfold MpesaUtils.parseCallbackMetadata.
  generalize MpesaUtils.emptyMetadata.
  induction items as [|item rest IH]; intros m; [reflexivity|].
  cbn [List.filter fold_left].
  destruct (truthy (MpesaUtils.Name item)) eqn:Hname.
  - cbn [fold_left]. apply IH.
  - replace (MpesaUtils.parseItem now m item) with (Return m)
      by (unfold MpesaUtils.parseItem; by rewrite Hname).
    apply IH.
Qed.

End Metadata.

(** ** Phone numbers *)

Section PhoneNumbers.

Import Js.

(** [formatPhoneNumber] by the digits of its input, the unreachable
    third test left out. *)
Lemma formatPhoneNumber_by_digits phoneNumber :
  MpesaUtils.formatPhoneNumber phoneNumber
  = let digits := replaceNonDigits phoneNumber in
    if startsWith digits "0" && (len digits =? 10)
    then Return ("254" ++ substringFrom 1 digits)
    else if startsWith digits "254" && (len digits =? 12)
         then Return digits
         else if len digits =? 9
              then Return ("254" ++ digits)
              else Throw (Error ("Invalid phone number format: "
                                 ++ phoneNumber)).
Proof.
  unfold MpesaUtils.formatPhoneNumber, tryCatch. cbv zeta.
  rewrite plus_prefix_unreachable.
  by repeat match goal with
            | |- context [if ?b then _ else _] => destruct b
            end.
Qed.

Lemma replaceNonDigits_digits s :
  allDigits s = true -> replaceNonDigits s = s.
Proof.
  induction s as [|c s IH]; [done|]. simpl.
  intros [Hc Hs]%andb_prop. rewrite Hc. by rewrite IH.
Qed.

Lemma dropPrefix_Some p s n :
  StkPushDto.dropPrefix p s = Some n -> s = p ++ n.
Proof.
  unfold StkPushDto.dropPrefix, startsWith, substringFrom.
  revert s. induction p as [|a p IH]; intros s.
  - destruct s; intros [= <-]; [reflexivity|].
    rewrite substring_all. reflexivity.
  - destruct s as [|c s]; [done|].
    change (String.prefix (String a p) (String c s))
      with (if ascii_dec a c then String.prefix p s else false).
    destruct (ascii_dec a c) as [<-|]; [|done].
    change (String.substring (String.length (String a p))
              (String.length (String a s) - String.length (String a p))
              (String a s))
      with (String.substring (String.length p)
              (String.length s - String.length p) s).
    intros H. apply IH in H. change (String a p ++ n) with (String a (p ++ n)).
    by rewrite <- H.
Qed.

(** A national number is nine digits, the first a 1 or a 7. *)
Lemma nationalNumber_shape n :
  StkPushDto.nationalNumber n = true ->
  len n = 9 /\ allDigits n = true /\ startsWith n "0" = false.
Proof.
  destruct n as [|c r]; [done|]. unfold StkPushDto.nationalNumber.
  intros [[Hc Hl]%andb_prop Hr]%andb_prop. apply Z.eqb_eq in Hl.
  unfold len in *. cbn [String.length]. split; [lia|]. split.
  - cbn [allDigits]. rewrite Hr, andb_true_r.
    unfold isAscii, isDigit in *.
    destruct (code c =? Z.of_nat 49) eqn:E1.
    + apply Z.eqb_eq in E1. rewrite E1. reflexivity.
    + destruct (code c =? Z.of_nat 55) eqn:E2; [|done].
      apply Z.eqb_eq in E2. rewrite E2. reflexivity.
  - unfold startsWith.
    change (String.prefix "0" (String c r))
      with (if ascii_dec "0" c then String.prefix "" r else false).
    destruct (ascii_dec "0" c) as [<-|]; [|done].
    by vm_compute in Hc.
Qed.

(** What [formatPhoneNumber] returns is twelve digits starting with
    254. *)
Lemma formatPhoneNumber_canonical phoneNumber r :
  MpesaUtils.formatPhoneNumber phoneNumber = Return r ->
  len r = 12 /\ startsWith r "254" = true /\ allDigits r = true.
Proof.
  rewrite formatPhoneNumber_by_digits. cbv zeta.
  pose proof (allDigits_replaceNonDigits phoneNumber) as Hd.
  set (digits := replaceNonDigits phoneNumber) in *.
  destruct (startsWith digits "0" && (len digits =? 10)) eqn:H0.
  { apply andb_prop in H0 as [_ Hl]. apply Z.eqb_eq in Hl.
    intros [= <-]. destruct digits as [|c d]; [done|].
    rewrite substringFrom_tail. unfold len in *. cbn [String.length] in Hl.
    change (allDigits (String c d)) with (isDigit c && allDigits d) in Hd.
    apply andb_prop in Hd as [_ Hd].
    split; [rewrite length_254; lia|].
    split; [apply startsWith_254|]. by rewrite allDigits_app, Hd. }
  destruct (startsWith digits "254" && (len digits =? 12)) eqn:H1.
  { apply andb_prop in H1 as [Hp Hl]. apply Z.eqb_eq in Hl.
    by intros [= <-]. }
  destruct (len digits =? 9) eqn:H9; [|done].
  apply Z.eqb_eq in H9. intros [= <-]. unfold len in *.
  split; [rewrite length_254; lia|].
  split; [apply startsWith_254|]. by rewrite allDigits_app, Hd.
Qed.

(** X16. Every phone number the pattern of [StkPushDto] accepts is one
    that [formatPhoneNumber] formats: it is a national number (nine
    digits, the first a 1 or a 7) after one of the prefixes +254, 254, 0
    or none, and [formatPhoneNumber] returns 254 followed by that
    national number and does not throw. *)
Theorem validated_phone_numbers_format phoneNumber :
  StkPushDto.matchesPhonePattern phoneNumber = true ->
  exists national,
    StkPushDto.nationalNumber national = true /\
    (phoneNumber = national \/ phoneNumber = "+254" ++ national \/
     phoneNumber = "254" ++ national \/ phoneNumber = "0" ++ national) /\
    MpesaUtils.formatPhoneNumber phoneNumber = Return ("254" ++ national).
Proof.
  unfold StkPushDto.matchesPhonePattern. intros H.
  rewrite formatPhoneNumber_by_digits. cbv zeta.
  destruct (StkPushDto.nationalNumber phoneNumber) eqn:Hbare.
  { exists phoneNumber. split; [done|]. split; [by left|].
    destruct (nationalNumber_shape _ Hbare) as (Hl & Hd & Hz).
    rewrite (replaceNonDigits_digits _ Hd), Hz, Hl. cbn [andb].
    by rewrite andb_false_r. }
  destruct (StkPushDto.dropPrefix "+254" phoneNumber) as [n|] eqn:Hplus.
  { cbn [orb from_option] in H.
    destruct (StkPushDto.nationalNumber n) eqn:Hn.
    - exists n. split; [done|].
      apply dropPrefix_Some in Hplus. split; [by right; left|]. subst.
      destruct (nationalNumber_shape _ Hn) as (Hl & Hd & Hz).
      change (replaceNonDigits ("+254" ++ n))
        with ("254" ++ replaceNonDigits n).
      rewrite (replaceNonDigits_digits _ Hd), startsWith_254.
      unfold len in *. rewrite length_254.
      replace (Z.of_nat (S (S (S (String.length n)))) =? 10) with false
        by (symmetry; apply Z.eqb_neq; lia).
      replace (Z.of_nat (S (S (S (String.length n)))) =? 12) with true
        by (symmetry; apply Z.eqb_eq; lia).
      by rewrite andb_false_r.
    - cbn [orb] in H. exfalso.
      (* the input starts with a plus sign, so neither of the two
         remaining prefixes is its prefix *)
      apply dropPrefix_Some in Hplus. subst.
      revert H. unfold StkPushDto.dropPrefix, startsWith.
      change (String.prefix "254" ("+254" ++ n)) with false.
      change (String.prefix "0" ("+254" ++ n)) with false. done. }
  cbn [orb from_option] in H.
  destruct (StkPushDto.dropPrefix "254" phoneNumber) as [n|] eqn:H254.
  { cbn [orb from_option] in H.
    destruct (StkPushDto.nationalNumber n) eqn:Hn.
    - exists n. split; [done|].
      apply dropPrefix_Some in H254. split; [by right; right; left|]. subst.
      destruct (nationalNumber_shape _ Hn) as (Hl & Hd & Hz).
      assert (Hall : allDigits ("254" ++ n) = true)
        by (by rewrite allDigits_app, Hd).
      rewrite (replaceNonDigits_digits _ Hall), startsWith_254.
      unfold len in *. rewrite length_254.
      replace (Z.of_nat (S (S (S (String.length n)))) =? 10) with false
        by (symmetry; apply Z.eqb_neq; lia).
      replace (Z.of_nat (S (S (S (String.length n)))) =? 12) with true
        by (symmetry; apply Z.eqb_eq; lia).
      by rewrite andb_false_r.
    - cbn [orb] in H. exfalso.
      apply dropPrefix_Some in H254. subst.
      revert H. unfold StkPushDto.dropPrefix, startsWith.
      change (String.prefix "0" ("254" ++ n)) with false. done. }
  cbn [orb from_option] in H.
  destruct (StkPushDto.dropPrefix "0" phoneNumber) as [n|] eqn:H0; [|done].
  cbn [from_option] in H. exists n. split; [done|].
  apply dropPrefix_Some in H0. split; [by right; right; right|]. subst.
  destruct (nationalNumber_shape _ H) as (Hl & Hd & Hz).
  assert (Hall : allDigits ("0" ++ n) = true)
    by (by rewrite allDigits_app, Hd).
  rewrite (replaceNonDigits_digits _ Hall).
  change (startsWith ("0" ++ n) "0") with (String.prefix "" n).
  replace (String.prefix "" n) with true by (by destruct n).
  change (len ("0" ++ n)) with (Z.of_nat (S (String.length n))).
  unfold len in Hl.
  replace (Z.of_nat (S (String.length n)) =? 10) with true
    by (symmetry; apply Z.eqb_eq; lia).
  cbn [andb]. change ("0" ++ n) with (String "0" n).
  by rewrite substringFrom_tail.
Qed.

Lemma validated_phone_numbers_format_witness :
  exists national,
    StkPushDto.nationalNumber national = true /\
    MpesaUtils.formatPhoneNumber "+254712345678"
    = Return ("254" ++ national).
Proof.
  destruct (validated_phone_numbers_format "+254712345678" eq_refl)
    as (national & Hn & _ & Hf).
  exists national. split; [exact Hn | exact Hf].
Defined.

(** X17. [formatPhoneNumber] is idempotent: what it returns it returns
    again when applied to it, so a number that was formatted once is
    never rejected or changed by formatting it again. *)
Theorem formatPhoneNumber_idempotent phoneNumber formatted :
  MpesaUtils.formatPhoneNumber phoneNumber = Return formatted ->
  MpesaUtils.formatPhoneNumber formatted = Return formatted.
Proof.
  intros H. destruct (formatPhoneNumber_canonical _ _ H) as (Hl & Hp & Hd).
  rewrite formatPhoneNumber_by_digits. cbv zeta.
  rewrite (replaceNonDigits_digits _ Hd), Hp, Hl. cbn [andb].
  by rewrite andb_false_r.
Qed.

Lemma formatPhoneNumber_idempotent_witness :
  MpesaUtils.formatPhoneNumber "254712345678" = Return "254712345678".
Proof.
  apply (formatPhoneNumber_idempotent "0712 345 678"). reflexivity.
Defined.

End PhoneNumbers.

(** ** Retries *)

Section RetryBounds.

Context {T : Type}.
Variable operation : nat -> Completion T.
Variable random : nat -> Q.
Variable maxRetries : nat.
Variable baseDelay : Q.

Lemma calls_cons_call i events :
  calls (MpesaUtils.Call i :: events) = S (calls events).
Proof. reflexivity. Qed.

Lemma calls_sleeps (b : bool) d events :
  calls ((if b then [MpesaUtils.Sleep d] else []) ++ events)%list
  = calls events.
Proof. by destruct b. Qed.

(** The loop from any attempt on: it stops at the first attempt that
    answers, or runs out of attempts. *)
Lemma retryLoop_first_answer : forall remaining attempt,
  let '(result, events) :=
    MpesaUtils.retryLoop operation random maxRetries baseDelay
      remaining attempt in
  (result = Throw retryExhausted /\ calls events = remaining /\
   (forall i, (attempt <= i < attempt + remaining)%nat ->
      exists e, operation i = Throw e)) \/
  (exists k v,
      (attempt <= k < attempt + remaining)%nat /\
      operation k = Return v /\ result = Return v /\
      calls events = (k - attempt + 1)%nat /\
      (forall i, (attempt <= i < k)%nat -> exists e, operation i = Throw e)).
Proof.
  induction remaining as [|remaining IH]; intros attempt.
  - left. repeat split. intros i Hi. lia.
  - cbn [MpesaUtils.retryLoop].
    destruct (operation attempt) as [v|e] eqn:Hop.
    + right. exists attempt, v. repeat split; try done; try lia.
      rewrite calls_cons_call. cbn. lia.
    + specialize (IH (S attempt)).
      destruct (MpesaUtils.retryLoop operation random maxRetries baseDelay
                  remaining (S attempt)) as [result events].
      rewrite calls_cons_call, calls_sleeps.
      destruct IH as [(-> & Hc & Hall)|(k & v & Hk & Hv & -> & Hc & Hall)].
      * left. repeat split; [by rewrite Hc|].
        intros i Hi. destruct (decide (i = attempt)) as [->|]; [eauto|].
        apply Hall. lia.
      * right. exists k, v. repeat split; try done; try lia.
        intros i Hi. destruct (decide (i = attempt)) as [->|]; [eauto|].
        apply Hall. lia.
Qed.

(** X18. Whatever the operation does, [retryOperation] calls it at most
    [maxRetries] times and never passes one of its errors on: either it
    returns the answer of the first attempt that answers, having called
    the operation exactly that often, or every allowed attempt failed
    and it throws its own retries-exhausted exception.  With
    [maxRetries] zero it throws without calling the operation. *)
Theorem retryOperation_first_answer_or_exhausted :
  let '(result, events) :=
    MpesaUtils.retryOperation operation random maxRetries baseDelay in
  (calls events <= maxRetries)%nat /\
  ((result = Throw retryExhausted /\ calls events = maxRetries /\
    (forall i, (1 <= i <= maxRetries)%nat -> exists e, operation i = Throw e))
   \/
   (exists k v,
       (1 <= k <= maxRetries)%nat /\ operation k = Return v /\
       result = Return v /\ calls events = k /\
       (forall i, (1 <= i < k)%nat -> exists e, operation i = Throw e))).
Proof.
  unfold MpesaUtils.retryOperation.
  pose proof (retryLoop_first_answer maxRetries 1) as H.
  destruct (MpesaUtils.retryLoop operation random maxRetries baseDelay
              maxRetries 1) as [result events].
  destruct H as [(-> & Hc & Hall)|(k & v & Hk & Hv & -> & Hc & Hall)].
  - split; [lia|]. left. repeat split; [done|].
    intros i Hi. apply Hall. lia.
  - split; [lia|]. right. exists k, v.
    repeat split; try done; try lia.
Qed.

(** Two to the attempt number less one, as the delay formula has it. *)
Local Abbreviation pow2 attempt := (inject_Z (2 ^ (Z.of_nat attempt - 1))).

Lemma pow2_succ attempt :
  (1 <= attempt)%nat -> (pow2 (S attempt) == 2 * pow2 attempt)%Q.
Proof.
  intros H.
  replace (Z.of_nat (S attempt) - 1)%Z with (Z.succ (Z.of_nat attempt - 1))
    by lia.
  rewrite Z.pow_succ_r by lia. by rewrite inject_Z_mult.
Qed.

Lemma pow2_pos attempt : (1 <= attempt)%nat -> (1 <= pow2 attempt)%Q.
Proof.
  intros H. rewrite <- (Zle_Qle 1). 
  assert (0 < 2 ^ (Z.of_nat attempt - 1))%Z by (apply Z.pow_pos_nonneg; lia).
  lia.
Qed.

Lemma pow2_mono a b : (1 <= a <= b)%nat -> (pow2 a <= pow2 b)%Q.
Proof.
  intros H. rewrite <- Zle_Qle. apply Z.pow_le_mono_r; lia.
Qed.

Lemma slept_cons_call i events :
  slept (MpesaUtils.Call i :: events) = slept events.
Proof. reflexivity. Qed.

Lemma slept_cons_sleep d events :
  slept (MpesaUtils.Sleep d :: events) = (d + slept events)%Q.
Proof. reflexivity. Qed.

Hypothesis baseDelay_nonneg : (0 <= baseDelay)%Q.
Hypothesis random_unit : forall i, (0 <= random i)%Q /\ (random i < 1)%Q.

Lemma backoffDelay_bounds attempt :
  (1 <= attempt)%nat ->
  (0 <= MpesaUtils.backoffDelay baseDelay attempt (random attempt))%Q /\
  (MpesaUtils.backoffDelay baseDelay attempt (random attempt)
   <= baseDelay * pow2 attempt)%Q.
Proof.
  intros H. unfold MpesaUtils.backoffDelay. cbv zeta.
  pose proof (pow2_pos attempt H) as Hp.
  destruct (random_unit attempt) as [Hr0 Hr1].
  set (p := pow2 attempt) in *. set (r := random attempt) in *.
  assert (Hd : (0 <= baseDelay * p)%Q) by nra.
  set (d := (baseDelay * p)%Q) in *.
  split; nra.
Qed.

Lemma retryLoop_slept : forall remaining attempt,
  (1 <= attempt)%nat ->
  (attempt + remaining = S maxRetries)%nat ->
  (0 <= slept (snd (MpesaUtils.retryLoop operation random maxRetries
                      baseDelay remaining attempt)))%Q /\
  (slept (snd (MpesaUtils.retryLoop operation random maxRetries baseDelay
                 remaining attempt))
   <= baseDelay * (pow2 (Nat.max attempt maxRetries) - pow2 attempt))%Q.
Proof.
  induction remaining as [|remaining IH]; intros attempt H1 Hsum.
  - cbn. rewrite Nat.max_l by lia. split; [lra|]. nra.
  - cbn [MpesaUtils.retryLoop].
    pose proof (pow2_mono attempt (Nat.max attempt maxRetries)) as Hm.
    destruct (operation attempt) as [v|e].
    + cbn. split; [lra|]. specialize (Hm ltac:(lia)). nra.
    + destruct (Nat.ltb_spec attempt maxRetries) as [Hlt|Hge].
      * specialize (IH (S attempt) ltac:(lia) ltac:(lia)).
        destruct (MpesaUtils.retryLoop operation random maxRetries baseDelay
                    remaining (S attempt)) as [result events].
        cbn [snd app] in *. rewrite slept_cons_call, slept_cons_sleep.
        destruct (backoffDelay_bounds attempt H1) as [Hd0 Hd1].
        rewrite !Nat.max_r in * by lia.
        pose proof (pow2_succ attempt H1) as Hs.
        destruct IH as [IH0 IH1]. rewrite Hs in IH1.
        split; [lra|]. nra.
      * assert (remaining = 0)%nat as -> by lia.
        cbn. rewrite Nat.max_l by lia. split; [lra|]. nra.
Qed.

(** X19. The backoff of [retryOperation] is bounded: with a base delay
    that is not negative and random draws in [0, 1) the sleeps of one
    run add up to at most [baseDelay * (2^(maxRetries-1) - 1)]
    milliseconds, whatever the operation does. *)
Theorem retryOperation_total_backoff :
  (1 <= maxRetries)%nat ->
  (0 <= slept (snd (MpesaUtils.retryOperation operation random maxRetries
                      baseDelay)))%Q /\
  (slept (snd (MpesaUtils.retryOperation operation random maxRetries
                 baseDelay))
   <= baseDelay * (inject_Z (2 ^ (Z.of_nat maxRetries - 1)) - 1))%Q.
Proof.
  intros H. unfold MpesaUtils.retryOperation.
  destruct (retryLoop_slept maxRetries 1) as [H0 H1]; [lia | lia |].
  rewrite Nat.max_r in H1 by lia. split; [exact H0|].
  change (pow2 1) with 1%Q in H1. exact H1.
Qed.

End RetryBounds.

Lemma retryOperation_total_backoff_witness :
  (slept (snd (MpesaUtils.retryOperation failing (fun _ => 1 # 2) 3 1000%Q))
   <= 1000 * (inject_Z (2 ^ (Z.of_nat 3 - 1)) - 1))%Q.
Proof.
  apply (retryOperation_total_backoff failing (fun _ => 1 # 2) 3 1000%Q).
  - discriminate.
  - intros i. split; discriminate || reflexivity.
  - lia.
Defined.

(** ** Timestamps *)

Section Timestamps.

Import Js.

(** A number below 100 behind a 0, cut to its last two characters, is
    its two decimal digits. *)
Lemma two_digits z :
  0 <= z <= 99 ->
  exists a b,
    sliceLast 2 ("0" ++ stringOfZ z) = String a (String b "") /\
    isDigit a = true /\ isDigit b = true /\
    decimalValue (String a (String b "")) = z.
Proof.
  intros Hz.
  assert (Hall :
    forallb
      (fun n =>
         match sliceLast 2 ("0" ++ stringOfZ (Z.of_nat n)) with
         | String a (String b "") =>
             isDigit a && isDigit b
             && (decimalValue (String a (String b "")) =? Z.of_nat n)
         | _ => false
         end)
      (seq 0 100) = true) by (vm_compute; reflexivity).
  rewrite forallb_forall in Hall. specialize (Hall (Z.to_nat z)).
  rewrite Z2Nat.id in Hall by lia.
  specialize (Hall ltac:(apply in_seq; lia)).
  destruct (sliceLast 2 ("0" ++ stringOfZ z)) as [|a [|b [|]]]; try done.
  apply andb_prop in Hall as [[Ha Hb]%andb_prop Hv]. apply Z.eqb_eq in Hv.
  eauto 10.
Qed.

(** A year of four digits is written with them. *)
Lemma four_digits z :
  1000 <= z <= 9999 ->
  exists a b c d,
    stringOfZ z = String a (String b (String c (String d ""))) /\
    isDigit a = true /\ isDigit b = true /\ isDigit c = true /\
    isDigit d = true /\
    decimalValue (String a (String b (String c (String d "")))) = z.
Proof.
  intros Hz.
  assert (Hall :
    forallb
      (fun n =>
         match stringOfZ (Z.of_nat n) with
         | String a (String b (String c (String d ""))) =>
             isDigit a && isDigit b && isDigit c && isDigit d
             && (decimalValue (String a (String b (String c (String d ""))))
                 =? Z.of_nat n)
         | _ => false
         end)
      (seq 1000 (90 * 100)) = true) by (vm_compute; reflexivity).
  rewrite forallb_forall in Hall. specialize (Hall (Z.to_nat z)).
  rewrite Z2Nat.id in Hall by lia.
  specialize (Hall ltac:(apply in_seq; lia)).
  destruct (stringOfZ z) as [|a [|b [|c [|d [|]]]]]; try done.
  apply andb_prop in Hall as [[[[Ha Hb]%andb_prop Hc]%andb_prop Hd]%andb_prop Hv].
  apply Z.eqb_eq in Hv. eauto 15.
Qed.

(** X20. The timestamp [getTimestamp] writes for the fields of a clock
    is fourteen digits, and [parseTransactionDate] reads it back as the
    instant at which a clock three hours ahead of UTC shows these
    fields, provided the year is one of 2020 to 2030; for any other
    four-digit year it returns the current time instead. *)
Theorem getTimestamp_read_back now date :
  clockFields date = true ->
  len (MpesaUtils.getTimestamp date) = 14 /\
  allDigits (MpesaUtils.getTimestamp date) = true /\
  MpesaUtils.parseTransactionDate now (MpesaUtils.getTimestamp date)
  = Return (Some (if between 2020 (MpesaUtils.getFullYear date) 2030
                  then shownAtUTC3 date else now)).
Proof.
  unfold clockFields, shownAtUTC3, between.
  destruct date as [year month day hours minutes seconds].
  cbn [MpesaUtils.getFullYear MpesaUtils.getMonth MpesaUtils.getDate
       MpesaUtils.getHours MpesaUtils.getMinutes MpesaUtils.getSeconds].
  intros H.
  repeat match type of H with
         | _ && _ = true => let H' := fresh "H" in
                            apply andb_prop in H as [H H']
         end.
  repeat match goal with
         | H : (_ <=? _) = true |- _ => apply Z.leb_le in H
         end.
  destruct (four_digits year) as (y1 & y2 & y3 & y4 & Ey & ? & ? & ? & ? & Vy);
    [lia|].
  destruct (two_digits (month + 1)) as (m1 & m2 & Em & ? & ? & Vm); [lia|].
  destruct (two_digits day) as (d1 & d2 & Ed & ? & ? & Vd); [lia|].
  destruct (two_digits hours) as (h1 & h2 & Eh & ? & ? & Vh); [lia|].
  destruct (two_digits minutes) as (i1 & i2 & Ei & ? & ? & Vi); [lia|].
  destruct (two_digits seconds) as (s1 & s2 & Es & ? & ? & Vs); [lia|].
  unfold MpesaUtils.getTimestamp.
  cbn [MpesaUtils.getFullYear MpesaUtils.getMonth MpesaUtils.getDate
       MpesaUtils.getHours MpesaUtils.getMinutes MpesaUtils.getSeconds].
  rewrite Ey, Em, Ed, Eh, Ei, Es.
  set (year4 := String y1 (String y2 (String y3 (String y4 "")))) in *.
  set (month2 := String m1 (String m2 "")) in *.
  set (day2 := String d1 (String d2 "")) in *.
  set (hours2 := String h1 (String h2 "")) in *.
  set (minutes2 := String i1 (String i2 "")) in *.
  set (seconds2 := String s1 (String s2 "")) in *.
  set (timestamp := year4 ++ month2 ++ day2 ++ hours2 ++ minutes2 ++ seconds2).
  assert (Hdigits : allDigits timestamp = true).
  { subst timestamp year4 month2 day2 hours2 minutes2 seconds2.
    change (allDigits _)
      with (isDigit y1 && (isDigit y2 && (isDigit y3 && (isDigit y4 &&
            (isDigit m1 && (isDigit m2 && (isDigit d1 && (isDigit d2 &&
            (isDigit h1 && (isDigit h2 && (isDigit i1 && (isDigit i2 &&
            (isDigit s1 && (isDigit s2 && true)))))))))))))).
    by repeat match goal with H : isDigit _ = true |- _ => rewrite H; clear H end. }
  split; [reflexivity|]. split; [exact Hdigits|].
  rewrite parseTransactionDate_fourteen
    by (by rewrite (trim_digits _ Hdigits)).
  rewrite (trim_digits _ Hdigits).
  unfold validComponents, instantUTC3, yearOf, monthOf, dayOf, hourOf,
    minuteOf, secondOf. rewrite Hdigits.
  change (slice 0 4 timestamp) with year4.
  change (slice 4 6 timestamp) with month2.
  change (slice 6 8 timestamp) with day2.
  change (slice 8 10 timestamp) with hours2.
  change (slice 10 12 timestamp) with minutes2.
  change (slice 12 14 timestamp) with seconds2.
  rewrite Vy, Vm, Vd, Vh, Vi, Vs. unfold between.
  replace (month + 1 - 1) with month by lia.
  replace ((1 <=? month + 1) && (month + 1 <=? 12)) with true
    by (symmetry; apply andb_true_intro; split; apply Z.leb_le; lia).
  replace ((1 <=? day) && (day <=? 31)) with true
    by (symmetry; apply andb_true_intro; split; apply Z.leb_le; lia).
  replace ((0 <=? hours) && (hours <=? 23)) with true
    by (symmetry; apply andb_true_intro; split; apply Z.leb_le; lia).
  replace ((0 <=? minutes) && (minutes <=? 59)) with true
    by (symmetry; apply andb_true_intro; split; apply Z.leb_le; lia).
  replace ((0 <=? seconds) && (seconds <=? 59)) with true
    by (symmetry; apply andb_true_intro; split; apply Z.leb_le; lia).
  cbn [andb]. rewrite !andb_true_r. reflexivity.
Qed.

Lemma getTimestamp_read_back_witness :
  MpesaUtils.parseTransactionDate 0 (MpesaUtils.getTimestamp firstOfJune)
  = Return (Some 1748753445000).
Proof.
  apply (getTimestamp_read_back 0 firstOfJune). reflexivity.
Defined.

End Timestamps.

(** ** Passwords *)

Section Passwords.

Import Js.

Lemma code_range c : 0 <= code c < 256.
Proof.
  unfold code. pose proof (nat_ascii_bounded c). lia.
Qed.

Lemma ascii_of_code c : ascii_of_nat (Z.to_nat (code c)) = c.
Proof. unfold code. rewrite Nat2Z.id. apply ascii_nat_embedding. Qed.

Lemma utf8Encode_bytes s : Forall (fun b => 0 <= b < 256) (utf8Encode s).
Proof.
  induction s as [|c s IH]; [constructor|].
  cbn [utf8Encode]. apply Forall_app. split; [|exact IH].
  unfold utf8Unit. pose proof (code_range c).
  destruct (code c <? 128); repeat constructor;
    Z.div_mod_to_equations; lia.
Qed.

Lemma utf8Decode_utf8Encode s : utf8Decode (utf8Encode s) = s.
Proof.
  induction s as [|c s IH]; [reflexivity|].
  cbn [utf8Encode]. unfold utf8Unit. pose proof (code_range c).
  destruct (code c <? 128) eqn:Hc.
  - cbn [app utf8Decode]. rewrite Hc, ascii_of_code. by rewrite IH.
  - apply Z.ltb_ge in Hc. cbn [app utf8Decode].
    replace (192 + code c / 64 <? 128) with false
      by (symmetry; apply Z.ltb_ge; Z.div_mod_to_equations; lia).
    replace ((192 + code c / 64 - 192) * 64 + (128 + code c mod 64 - 128))
      with (code c) by (Z.div_mod_to_equations; lia).
    rewrite ascii_of_code. by rewrite IH.
Qed.

Lemma base64Value_base64Char v :
  0 <= v < 64 ->
  base64Value (base64Char v) = v /\ isAscii 61 (base64Char v) = false.
Proof.
  intros Hv.
  assert (Hall :
    forallb
      (fun n =>
         (base64Value (base64Char (Z.of_nat n)) =? Z.of_nat n)
         && negb (isAscii 61 (base64Char (Z.of_nat n))))
      (seq 0 64) = true) by (vm_compute; reflexivity).
  rewrite forallb_forall in Hall. specialize (Hall (Z.to_nat v)).
  rewrite Z2Nat.id in Hall by lia.
  specialize (Hall ltac:(apply in_seq; lia)).
  apply andb_prop in Hall as [Hval Hpad]. apply Z.eqb_eq in Hval.
  split; [exact Hval|]. by destruct (isAscii 61 (base64Char v)).
Qed.

(** Induction on a list by groups of three. *)
Lemma list_ind3 {A} (P : list A -> Prop) :
  P [] -> (forall a, P [a]) -> (forall a b, P [a; b]) ->
  (forall a b c rest, P rest -> P (a :: b :: c :: rest)) ->
  forall l, P l.
Proof.
  intros H0 H1 H2 H3.
  fix IH 1. intros [|a [|b [|c rest]]]; [exact H0 | apply H1 | apply H2 |].
  apply H3, IH.
Qed.

Lemma base64Decode_base64Encode bytes :
  Forall (fun b => 0 <= b < 256) bytes ->
  base64Decode (base64Encode bytes) = bytes.
Proof.
  induction bytes as [|a|a b|a b c rest IH] using list_ind3.
  - reflexivity.
  - intros [Ha _]%Forall_cons.
    cbn [base64Encode base64Decode].
    change (isAscii 61 "=") with true. cbv iota zeta.
    destruct (base64Value_base64Char (a / 4)) as [-> _];
      [Z.div_mod_to_equations; lia|].
    destruct (base64Value_base64Char (a mod 4 * 16)) as [-> _];
      [Z.div_mod_to_equations; lia|].
    f_equal. Z.div_mod_to_equations; lia.
  - intros [Ha [Hb _]%Forall_cons]%Forall_cons.
    cbn [base64Encode base64Decode].
    change (isAscii 61 "=") with true.
    destruct (base64Value_base64Char (a / 4)) as [-> _];
      [Z.div_mod_to_equations; lia|].
    destruct (base64Value_base64Char (a mod 4 * 16 + b / 16)) as [-> _];
      [Z.div_mod_to_equations; lia|].
    destruct (base64Value_base64Char (b mod 16 * 4)) as [-> ->];
      [Z.div_mod_to_equations; lia|].
    cbv iota zeta. f_equal; [|f_equal]; Z.div_mod_to_equations; lia.
  - intros [Ha [Hb [Hc Hrest]%Forall_cons]%Forall_cons]%Forall_cons.
    cbn [base64Encode base64Decode].
    destruct (base64Value_base64Char (a / 4)) as [-> _];
      [Z.div_mod_to_equations; lia|].
    destruct (base64Value_base64Char (a mod 4 * 16 + b / 16)) as [-> _];
      [Z.div_mod_to_equations; lia|].
    destruct (base64Value_base64Char (b mod 16 * 4 + c / 64)) as [-> ->];
      [Z.div_mod_to_equations; lia|].
    destruct (base64Value_base64Char (c mod 64)) as [-> ->];
      [Z.div_mod_to_equations; lia|].
    cbv iota zeta. rewrite (IH Hrest).
    f_equal; [|f_equal; [|f_equal]]; Z.div_mod_to_equations; lia.
Qed.

Lemma base64Encode_length bytes :
  Z.of_nat (String.length (base64Encode bytes))
  = 4 * ((Z.of_nat (length bytes) + 2) / 3).
Proof.
  induction bytes as [|a|a b|a b c rest IH] using list_ind3;
    try reflexivity.
  cbn [base64Encode String.length length].
  rewrite !Nat2Z.inj_succ, IH. Z.div_mod_to_equations. lia.
Qed.

(** X21. The password [generatePassword] builds is an encoding and not
    a digest: decoding its base64 and then its UTF-8 gives back the
    short code, the passkey and the timestamp, concatenated.  Its
    length is four characters for every three bytes of that text, the
    last group rounded up. *)
Theorem generatePassword_reads_back businessShortCode passkey timestamp :
  let concatenated := businessShortCode ++ passkey ++ timestamp in
  let password :=
    MpesaUtils.generatePassword businessShortCode passkey timestamp in
  utf8Decode (base64Decode password) = concatenated /\
  len password = 4 * ((Z.of_nat (length (utf8Encode concatenated)) + 2) / 3).
Proof.
  cbv zeta. unfold MpesaUtils.generatePassword. cbv zeta. split.
  - rewrite base64Decode_base64Encode by apply utf8Encode_bytes.
    apply utf8Decode_utf8Encode.
  - apply base64Encode_length.
Qed.

End Passwords.

(** ** Listing the transactions *)

Section ListingProperties.

Import Js.

Variable orderBy :
  string -> string -> gmap string MpesaTransaction -> list MpesaTransaction.

(** X22. [MpesaService.getAllTransactions] only reads.  With a column
    and a direction the database knows, and a database that lists each
    row once, it returns a page of [min limit (total - offset)] rows
    with the total number of rows, and its [hasMore] flag is set exactly
    when rows remain behind the page.  With any other column or
    direction it fails with status 500. *)
Theorem getAllTransactions_page offset limit sortBy sortOrder w :
  (forall rows, length (orderBy sortBy sortOrder rows) = size rows) ->
  snd (MpesaService.getAllTransactions orderBy offset limit sortBy sortOrder w)
  = w /\
  (includes columns sortBy && includes ["asc"; "desc"] sortOrder = true ->
   exists page,
     fst (MpesaService.getAllTransactions orderBy offset limit sortBy
            sortOrder w) = Return page /\
     total (pagination page) = size (ledger w) /\
     length (data page) = Nat.min limit (size (ledger w) - offset) /\
     (hasMore (pagination page) = true
      <-> (offset + length (data page) < size (ledger w))%nat)) /\
  (includes columns sortBy && includes ["asc"; "desc"] sortOrder = false ->
   fst (MpesaService.getAllTransactions orderBy offset limit sortBy
          sortOrder w)
   = Throw (HttpException "Failed to retrieve transactions"
              INTERNAL_SERVER_ERROR)).
Proof.
  intros Hrows.
  unfold MpesaService.getAllTransactions, findMany, count.
  destruct (includes columns sortBy && includes ["asc"; "desc"] sortOrder);
    run; (split; [reflexivity|]); (split; [|done]); [|done].
  intros _. eexists. split; [reflexivity|].
  cbn [data pagination total hasMore].
  split; [reflexivity|].
  assert (Hlen : length (firstn limit (skipn offset
                           (orderBy sortBy sortOrder (ledger w))))
                 = Nat.min limit (size (ledger w) - offset)).
  { rewrite length_firstn, length_skipn, Hrows. reflexivity. }
  split; [exact Hlen|]. rewrite Hlen.
  destruct (Nat.ltb_spec (offset + limit) (size (ledger w))); split;
    intros; try done; try lia.
Qed.

End ListingProperties.

Lemma getAllTransactions_page_witness :
  exists page,
    fst (MpesaService.getAllTransactions byCheckoutRequestID 0 50
           "createdAt" "desc" (worldWith pendingTransaction)) = Return page /\
    total (pagination page) = size (ledger (worldWith pendingTransaction)).
Proof.
  destruct (getAllTransactions_page byCheckoutRequestID 0 50 "createdAt"
              "desc" (worldWith pendingTransaction))
    as (_ & Hpage & _).
  - intros rows. unfold byCheckoutRequestID.
    rewrite length_fmap. apply length_map_to_list.
  - destruct (Hpage eq_refl) as (page & Hp & Ht & _).
    exists page. split; [exact Hp | exact Ht].
Defined.

(** ** The listing endpoint *)

Section ControllerListing.

Import Js.

Lemma ltb_asym x y : ltb x y = true -> ltb y x = false.
Proof.
  destruct x as [|s|p], y as [|t|q]; cbn; try done.
  - by destruct s, t.
  - by destruct s.
  - by destruct t.
  - rewrite <- (Qcompare_antisym p q). by destruct (p ?= q)%Q.
Qed.

Lemma ltb_irrefl x : ltb x x = false.
Proof.
  destruct x as [|s|p]; cbn; try done.
  - by destruct s.
  - by rewrite (proj1 (Qeq_alt p p) (Qeq_refl p)).
Qed.

(** [Math.max(lo, y)] is never below [lo]. *)
Lemma Math_max_lower lo y : ltb (Math_max lo y) lo = false.
Proof.
  unfold Math_max.
  destruct lo as [|s|p], y as [|t|q]; try reflexivity;
    match goal with
    | |- context [if ltb ?a ?b then _ else _] =>
        destruct (ltb a b) eqn:E;
        [exact (ltb_asym _ _ E) | apply ltb_irrefl]
    end.
Qed.

(** [Math.min(hi, y)] is never above [hi]. *)
Lemma Math_min_upper hi y : ltb hi (Math_min hi y) = false.
Proof.
  unfold Math_min.
  destruct hi as [|s|p], y as [|t|q]; try reflexivity;
    match goal with
    | |- context [if ltb ?a ?b then _ else _] =>
        destruct (ltb a b) eqn:E;
        [exact (ltb_asym _ _ E) | apply ltb_irrefl]
    end.
Qed.

Lemma Math_max_ofZ a b : Math_max (ofZ a) (ofZ b) = ofZ (Z.max a b).
Proof.
  unfold Math_max. change (ofZ a) with (Finite (inject_Z a)).
  change (ofZ b) with (Finite (inject_Z b)). cbv iota.
  change (Finite (inject_Z a)) with (ofZ a).
  change (Finite (inject_Z b)) with (ofZ b).
  rewrite ltb_ofZ. destruct (Z.ltb_spec a b); f_equal; lia.
Qed.

Lemma Math_min_ofZ a b : Math_min (ofZ a) (ofZ b) = ofZ (Z.min a b).
Proof.
  unfold Math_min. change (ofZ a) with (Finite (inject_Z a)).
  change (ofZ b) with (Finite (inject_Z b)). cbv iota.
  change (Finite (inject_Z a)) with (ofZ a).
  change (Finite (inject_Z b)) with (ofZ b).
  rewrite ltb_ofZ. destruct (Z.ltb_spec b a); f_equal; lia.
Qed.

Lemma parseInt10_digits s :
  allDigits s = true -> s <> EmptyString -> decimalValue s < 2 ^ 53 ->
  parseInt10 s = ofZ (decimalValue s).
Proof.
  intros H Hne Hv. unfold parseInt10.
  rewrite (trimStart_digits s H).
  destruct s as [|c r]; [done|].
  pose proof H as Hc. simpl in Hc. apply andb_prop in Hc as [Hc _].
  rewrite (readSign_digit c r Hc).
  rewrite (readDigits_decimalValue _ 0 H).
  pose proof (len_pos c r).
  destruct (Z.eqb_spec (0 + len (String c r)) 0); [lia|].
  replace (1 * decimalValue (String c r)) with (decimalValue (String c r))
    by lia.
  apply roundToDouble_exact.
  pose proof (decimalValue_range _ H). lia.
Qed.

(** Every column the endpoint lets through is a column of the
    ledger. *)
Lemma validSortFields_columns sortBy :
  includes MpesaController.validSortFields sortBy = true -> includes columns sortBy = true.
Proof.
  unfold includes, MpesaController.validSortFields. cbn [existsb].
  repeat match goal with
         | |- context [String.eqb sortBy ?lit] =>
             destruct (String.eqb_spec sortBy lit) as [->|]; [reflexivity|]
         end.
  done.
Qed.

Context {R : Type}.
Variable service : Number -> Number -> string -> string -> Completion R.

(** X23. The listing endpoint checks the column before the direction
    and answers 400 to either without asking the service.  Otherwise it
    asks the service once, with a column of the ledger, with an offset
    that is never below 0 and a limit never below 1 nor above 1000; an
    absent or empty parameter gives offset 0 and limit 50, a parameter
    written in digits its value (the limit clamped to 1..1000), and a
    limit without a leading number reaches the service as NaN.  A
    status the service fails with is passed on, any other error becomes
    a 500. *)
Theorem listing_endpoint_arguments offset limit sortBy sortOrder :
  let column := default "createdAt" sortBy in
  let direction := default "desc" sortOrder in
  let answer :=
    MpesaController.getAllTransactions service offset limit sortBy sortOrder in
  (includes MpesaController.validSortFields column = false ->
   answer
   = Throw (HttpException
              ("Invalid sortBy field. Allowed values: "
               ++ "createdAt, updatedAt, amount, phoneNumber, status")
              BAD_REQUEST)) /\
  (includes MpesaController.validSortFields column = true ->
   includes MpesaController.validSortOrders direction = false ->
   answer
   = Throw (HttpException "Invalid sortOrder. Allowed values: asc, desc"
              BAD_REQUEST)) /\
  (includes MpesaController.validSortFields column = true ->
   includes MpesaController.validSortOrders direction = true ->
   exists offsetNum limitNum,
     answer
     = match service offsetNum limitNum column direction with
       | Return page => Return page
       | Throw error =>
           if instanceofHttpException error then Throw error
           else Throw (HttpException "Failed to retrieve transactions"
                         INTERNAL_SERVER_ERROR)
       end /\
     includes columns column = true /\
     ltb offsetNum (ofZ 0) = false /\
     ltb limitNum (ofZ 1) = false /\ gtb limitNum (ofZ 1000) = false /\
     (offset = None \/ offset = Some "" -> offsetNum = ofZ 0) /\
     (limit = None \/ limit = Some "" -> limitNum = ofZ 50) /\
     (forall digits,
        offset = Some digits -> allDigits digits = true -> digits <> "" ->
        decimalValue digits < 2 ^ 53 ->
        offsetNum = ofZ (decimalValue digits)) /\
     (forall digits,
        limit = Some digits -> allDigits digits = true -> digits <> "" ->
        decimalValue digits < 2 ^ 53 ->
        limitNum = ofZ (Z.max 1 (Z.min 1000 (decimalValue digits)))) /\
     (forall text,
        limit = Some text -> text <> "" -> parseInt10 text = NaN ->
        limitNum = NaN)).
Proof.
  cbv zeta. unfold MpesaController.getAllTransactions. cbv zeta.
  set (column := default "createdAt" sortBy).
  set (direction := default "desc" sortOrder).
  split; [|split].
  - intros ->. reflexivity.
  - intros -> ->. reflexivity.
  - intros Hcolumn Hdirection. rewrite Hcolumn, Hdirection. cbn [negb].
    eexists _, _. split.
    { unfold tryCatch. reflexivity. }
    split; [by apply validSortFields_columns|].
    split; [|split; [|split]].
    + destruct offset as [o|]; [|reflexivity].
      destruct (truthy o); [apply Math_max_lower | reflexivity].
    + destruct limit as [l|]; [|reflexivity].
      destruct (truthy l); [apply Math_max_lower | reflexivity].
    + unfold gtb. destruct limit as [l|]; [|reflexivity].
      destruct (truthy l); [|reflexivity].
      pose proof (Math_min_upper (ofZ 1000) (parseInt10 l)) as Hmin.
      unfold Math_max.
      destruct (Math_min (ofZ 1000) (parseInt10 l)) as [|t|q] eqn:E;
        [reflexivity| |].
      * destruct (ltb (ofZ 1) (Infinity t)); [exact Hmin | reflexivity].
      * destruct (ltb (ofZ 1) (Finite q)); [exact Hmin | reflexivity].
    + split; [by intros [->| ->]|]. split; [by intros [->| ->]|].
      split; [|split].
      * intros digits -> Hd Hne Hv.
        replace (truthy digits) with true by (by destruct digits).
        rewrite (parseInt10_digits _ Hd Hne Hv), Math_max_ofZ.
        pose proof (decimalValue_range _ Hd). f_equal. lia.
      * intros digits -> Hd Hne Hv.
        replace (truthy digits) with true by (by destruct digits).
        by rewrite (parseInt10_digits _ Hd Hne Hv), Math_min_ofZ,
          Math_max_ofZ.
      * intros text -> Hne Hnan.
        replace (truthy text) with true by (by destruct text).
        by rewrite Hnan.
Qed.

End ControllerListing.

(** ** The callback guard *)

Section Guard.

Import Js.

(** X24. Outside development [IpWhitelistGuard] lets a request in
    exactly when its client address is 127.0.0.1 or ::1, and in
    development it lets every request in.  The client address is taken
    from the [x-forwarded-for] header whenever the request carries a
    non-empty one (its first entry, trimmed), whatever address the
    connection comes from: a request whose header starts with the entry
    127.0.0.1 is always let in. *)
Theorem guard_decides_by_forwarded_header nodeEnv request :
  (nodeEnv = Some "development" ->
   MpesaController.canActivate nodeEnv request = true) /\
  (nodeEnv <> Some "development" ->
   (MpesaController.canActivate nodeEnv request = true
    <-> MpesaController.getClientIp request = "127.0.0.1"
        \/ MpesaController.getClientIp request = "::1")) /\
  (forall header,
     MpesaController.x_forwarded_for request = Some header ->
     header <> "" ->
     MpesaController.getClientIp request = trim (beforeComma header)) /\
  (forall others,
     MpesaController.x_forwarded_for request = Some ("127.0.0.1," ++ others) ->
     MpesaController.canActivate nodeEnv request = true).
Proof.
  unfold MpesaController.canActivate. cbv zeta.
  split; [by intros ->|]. split; [|split].
  - intros Hdev.
    replace (from_option (fun env => String.eqb env "development") false
               nodeEnv) with false.
    2:{ destruct nodeEnv as [env|]; [|reflexivity]. cbn [from_option].
        symmetry. apply String.eqb_neq. by intros ->. }
    unfold includes, MpesaConfig.allowedCallbackIps. cbn [existsb].
    rewrite orb_false_r, orb_true_iff, !String.eqb_eq. reflexivity.
  - intros header Hheader Hne. unfold MpesaController.getClientIp.
    rewrite Hheader. unfold MpesaController.orString at 1.
    by replace (truthy header) with true by (by destruct header).
  - intros others Hheader. unfold MpesaController.getClientIp.
    rewrite Hheader.
    by destruct (from_option (fun env => String.eqb env "development") false
                   nodeEnv).
Qed.

End Guard.

(** ** Configuration *)

Section Configuration.

Import Js.

Lemma missing_false env name :
  MpesaConfig.missing env name = false
  <-> exists value, env !! name = Some value /\ value <> "".
Proof.
  unfold MpesaConfig.missing, truthy. destruct (env !! name) as [value|].
  - rewrite negb_involutive. split.
    + intros H%String.eqb_neq. eauto.
    + intros (v & [= <-] & Hne). by apply String.eqb_neq.
  - split; [done|]. by intros (v & [=] & _).
Qed.

(** X25. [validateConfig] returns exactly when each of the five
    required variables is set to a non-empty value and the callback URL
    starts with [http]; in every other case it throws, so no
    [MpesaConfig] exists without them. *)
Theorem validateConfig_accepts env :
  (MpesaConfig.validateConfig env = Return tt
   <-> (forall name, In name MpesaConfig.requiredVars ->
          exists value, env !! name = Some value /\ value <> "") /\
       (exists url, env !! "MPESA_CALLBACK_URL" = Some url /\
                    startsWith url "http" = true)) /\
  (MpesaConfig.validateConfig env = Return tt
   \/ exists message, MpesaConfig.validateConfig env = Throw (Error message)).
Proof.
  unfold MpesaConfig.validateConfig. cbv zeta.
  destruct (List.filter (MpesaConfig.missing env) MpesaConfig.requiredVars)
    as [|name0 rest] eqn:Hfilter.
  - assert (Hall : forall name, In name MpesaConfig.requiredVars ->
                     exists value, env !! name = Some value /\ value <> "").
    { intros name Hin. apply missing_false.
      destruct (MpesaConfig.missing env name) eqn:Hm; [|reflexivity].
      assert (Hf : In name (List.filter (MpesaConfig.missing env)
                              MpesaConfig.requiredVars))
        by (apply filter_In; by split).
      rewrite Hfilter in Hf. destruct Hf. }
    cbn [length Nat.ltb Nat.leb].
    destruct (Hall "MPESA_CALLBACK_URL") as (url & Hurl & Hne);
      [cbn; tauto|].
    rewrite Hurl.
    replace (truthy url) with true by (by destruct url).
    cbn [andb]. destruct (startsWith url "http") eqn:Hhttp; cbn [negb].
    + split; [|by left]. split; [|done]. intros _. split; [exact Hall|].
      by exists url.
    + split; [|right; eauto]. split; [done|].
      intros (_ & url' & Hurl' & Hhttp'). congruence.
  - cbn [length Nat.ltb Nat.leb]. split; [|right; eauto].
    split; [done|]. intros (Hall & _). exfalso.
    assert (Hin : In name0 (List.filter (MpesaConfig.missing env)
                              MpesaConfig.requiredVars))
      by (rewrite Hfilter; by left).
    apply filter_In in Hin as [Hin Hmissing].
    apply Hall, missing_false in Hin. congruence.
Qed.

(** X26. The production host is used only when [MPESA_ENVIRONMENT] is
    exactly [production]; unset, empty or set to anything else, the
    sandbox host is.  Both endpoints are paths on that host. *)
Theorem baseUrl_production_only env :
  (MpesaConfig.baseUrl env = "https://api.safaricom.co.ke"
   <-> env !! "MPESA_ENVIRONMENT" = Some "production") /\
  (env !! "MPESA_ENVIRONMENT" <> Some "production" ->
   MpesaConfig.baseUrl env = "https://sandbox.safaricom.co.ke") /\
  startsWith (MpesaConfig.authUrl env) (MpesaConfig.baseUrl env) = true /\
  startsWith (MpesaConfig.stkPushUrl env) (MpesaConfig.baseUrl env) = true.
Proof.
  unfold MpesaConfig.authUrl, MpesaConfig.stkPushUrl, MpesaConfig.baseUrl,
    MpesaConfig.environment.
  destruct (env !! "MPESA_ENVIRONMENT") as [value|]; [|by repeat split].
  destruct (truthy value) eqn:Htruthy.
  - destruct (String.eqb_spec value "production") as [->|Hne].
    + by repeat split.
    + repeat split; try done. intros [= ->]. done.
  - destruct value; [|done]. by repeat split.
Qed.

End Configuration.

(** ** The endpoints over the service *)

Section Endpoints.

Lemma initiationError_http e :
  instanceofHttpException (initiationError e) = true.
Proof. unfold initiationError. by destruct e. Qed.

(** A computation whose errors are all statuses comes through the
    handler of the endpoints as it is. *)
Lemma rethrow_transparent {A} (m : M A) message w :
  (forall e, fst (m w) = Throw e -> instanceofHttpException e = true) ->
  try m (MpesaController.rethrow message) w = m w.
Proof.
  unfold try. destruct (m w) as [[a|e] w'] eqn:E; [done|].
  intros H. unfold MpesaController.rethrow. by rewrite (H e eq_refl).
Qed.

(** Whatever [initiateStkPush] of the service throws is a status. *)
Lemma initiateStkPush_throws_status now gw request w e :
  fst (initiateStkPush now gw request w) = Throw e ->
  instanceofHttpException e = true.
Proof.
  destruct (initiateStkPush_paths now gw request w)
    as [(t & _ & _ & _ & ->)|(w1 & _ & ->)].
  { by intros [= <-]. }
  unfold afterGuard. cbv zeta.
  destruct (authFails gw); [by intros [= <-]|].
  destruct (MpesaUtils.formatPhoneNumber _) as [phone|e'];
    [|intros [= <-]; apply initiationError_http].
  destruct (stkPushReply gw) as [data|e'];
    [|intros [= <-]; apply initiationError_http].
  destruct (String.eqb (ResponseCode data) "0"); [done|].
  by intros [= <-].
Qed.

(** Whatever [handleCallback] of the service throws is a status. *)
Lemma handleCallback_throws_status now callbackData w e :
  fst (handleCallback now callbackData w) = Throw e ->
  instanceofHttpException e = true.
Proof.
  destruct (handleCallback_cases now callbackData w)
    as [->|[->|[(cb & _ & _ & ->)|(cb & t & u & _ & _ & _ & ->)]]];
    by intros [= <-].
Qed.

(** X27. The endpoints add nothing to what the service decides.  The
    payment endpoint gives the outcome of [initiateStkPush] of the
    service and leaves the world it leaves; the callback endpoint does
    so for [handleCallback], answering with its fixed message when the
    service returns.  Every error of either is a status of the service:
    the 500 of the endpoints themselves is never sent for them. *)
Theorem endpoints_pass_service_outcome now gw request callbackData w :
  MpesaController.initiateStkPush now gw request w
  = initiateStkPush now gw request w /\
  MpesaController.handleCallback now callbackData w
  = (match fst (handleCallback now callbackData w) with
     | Return _ => Return "Callback processed successfully"
     | Throw e => Throw e
     end,
     snd (handleCallback now callbackData w)) /\
  (forall e,
     fst (MpesaController.initiateStkPush now gw request w) = Throw e \/
     fst (MpesaController.handleCallback now callbackData w) = Throw e ->
     instanceofHttpException e = true).
Proof.
  assert (Hpay : MpesaController.initiateStkPush now gw request w
                 = initiateStkPush now gw request w).
  { unfold MpesaController.initiateStkPush.
    rewrite rethrow_transparent.
    - unfold bind, ret.
      by destruct (initiateStkPush now gw request w) as [[a|e] w'].
    - intros e. unfold bind, ret.
      pose proof (initiateStkPush_throws_status now gw request w e) as H.
      destruct (initiateStkPush now gw request w) as [[a|e'] w']; [done|].
      exact H. }
  assert (Hcallback : MpesaController.handleCallback now callbackData w
                      = (match fst (handleCallback now callbackData w) with
                         | Return _ => Return "Callback processed successfully"
                         | Throw e => Throw e
                         end,
                         snd (handleCallback now callbackData w))).
  { unfold MpesaController.handleCallback.
    rewrite rethrow_transparent.
    - unfold bind, ret.
      by destruct (handleCallback now callbackData w) as [[a|e] w'].
    - intros e. unfold bind, ret.
      pose proof (handleCallback_throws_status now callbackData w e) as H.
      destruct (handleCallback now callbackData w) as [[a|e'] w']; [done|].
      cbn. intros [= <-]. by apply H. }
  split; [exact Hpay|]. split; [exact Hcallback|].
  intros e [He|He].
  - rewrite Hpay in He. by apply initiateStkPush_throws_status in He.
  - rewrite Hcallback in He. cbn [fst] in He.
    pose proof (handleCallback_throws_status now callbackData w e) as H.
    destruct (fst (handleCallback now callbackData w)); [done|].
    injection He as <-. by apply H.
Qed.

(** X28. The health endpoint never answers 503 and never changes the
    world: it reports "healthy" with the state and the failures counter
    of the breaker as they are.  Right after an initiation that failed
    it still reports "healthy", with a counter higher than before. *)
Theorem healthCheck_always_healthy now gw request w :
  MpesaController.healthCheck w
  = (Return {| MpesaController.h_status := "healthy";
               MpesaController.h_state := state (circuitBreaker w);
               MpesaController.h_failures := failures (circuitBreaker w) |},
     w) /\
  (forall e,
     fst (initiateStkPush now gw request w) = Throw e ->
     exists health,
       fst (MpesaController.healthCheck
              (snd (initiateStkPush now gw request w))) = Return health /\
       MpesaController.h_status health = "healthy" /\
       (failures (circuitBreaker w) < MpesaController.h_failures health)%nat).
Proof.
  split; [reflexivity|]. intros e He.
  eexists. split; [reflexivity|]. split; [reflexivity|].
  cbn [MpesaController.h_failures]. revert He.
  destruct (initiateStkPush_paths now gw request w)
    as [(t & _ & _ & _ & ->)|(w1 & Hgate & ->)].
  { intros _. cbn. rewrite recordFailure_failures. lia. }
  destruct (checkCircuitBreaker_let_in _ _ _ Hgate) as (_ & _ & Hf & _ & _).
  unfold afterGuard. cbv zeta.
  destruct (authFails gw);
    [intros _; cbn; rewrite !recordFailure_failures, Hf; lia|].
  destruct (MpesaUtils.formatPhoneNumber _) as [phone|e'];
    [|intros _; cbn; rewrite !recordFailure_failures, Hf; lia].
  destruct (stkPushReply gw) as [data|e'];
    [|intros _; cbn; rewrite !recordFailure_failures, Hf; lia].
  destruct (String.eqb (ResponseCode data) "0"); [done|].
  intros _. cbn. rewrite !recordFailure_failures, Hf. lia.
Qed.

(** X29. The status endpoint only reads.  In a ledger whose records
    sit under their own ids it answers for the id of a record with the
    view of that record, which carries the id asked for and the status
    of the record, and for any other id with the 404 of the service,
    unchanged. *)
Theorem status_endpoint_answers checkoutRequestId w :
  ledgerConsistent (ledger w) ->
  snd (MpesaController.getTransactionStatus checkoutRequestId w) = w /\
  (ledger w !! checkoutRequestId = None ->
   fst (MpesaController.getTransactionStatus checkoutRequestId w)
   = Throw (HttpException
              ("Transaction with CheckoutRequestID " ++ checkoutRequestId
               ++ " not found")
              NOT_FOUND)) /\
  (forall t,
     ledger w !! checkoutRequestId = Some t ->
     exists view,
       fst (MpesaController.getTransactionStatus checkoutRequestId w)
       = Return view /\
       v_checkoutRequestID view = checkoutRequestId /\
       v_status view = status t /\
       v_mpesaReceiptNumber view = mpesaReceiptNumber t).
Proof.
  intros [Hkey _].
  unfold MpesaController.getTransactionStatus, getTransactionStatus,
    findUnique, MpesaController.rethrow.
  run.
  destruct (ledger w !! checkoutRequestId) as [t|] eqn:Ht; cbn.
  - split; [reflexivity|]. split; [done|].
    intros t' [= <-]. eexists. split; [reflexivity|]. cbn.
    split; [by apply Hkey | done].
  - split; [reflexivity|]. split; [done|]. intros t' [=].
Qed.

Lemma status_endpoint_answers_witness :
  exists view,
    fst (MpesaController.getTransactionStatus "ws_CO_1"
           (worldWith pendingTransaction)) = Return view /\
    v_status view = PENDING.
Proof.
  destruct (status_endpoint_answers "ws_CO_1" (worldWith pendingTransaction))
    as (_ & _ & Hview).
  - split.
    + intros id t Ht. cbn in Ht.
      by apply lookup_singleton_Some in Ht as [<- <-].
    + intros id1 id2 t1 t2 H1 H2 _. cbn in H1, H2.
      apply lookup_singleton_Some in H1 as [<- _].
      by apply lookup_singleton_Some in H2 as [<- _].
  - destruct (Hview pendingTransaction eq_refl) as (view & Hv & _ & Hs & _).
    exists view. split; [exact Hv | exact Hs].
Defined.

End Endpoints.
